(** * FloatChat: the ARGO profile ingestion pipeline

    A shallow embedding of [src/data_pipeline/netcdf_processor.py] and
    [src/data_pipeline/data_ingestion.py].

    Numbers are IEEE-754 binary64 values (Rocq's primitive [float]), which is
    what Python's [float] and numpy's [float64] are: comparisons with NaN are
    false, [lon + 360] and [temp - surface_temp] round to nearest-even.
    Python exceptions are an explicit [result] type and [try ... except
    Exception] is [try_except].  Python dictionaries are association lists in
    insertion order.  The collaborators are parameters: the seawater
    conversions are element-wise functions, the dataset reader and the date
    arithmetic may raise, and the two stores are an abstract world that the
    orchestrator's steps read and change. *)

From Stdlib Require Import Floats ZArith List String Ascii Bool Lia.
Import ListNotations.

Set Warnings "-inexact-float".

(* ================================================================== *)
(** * Python values, exceptions and dictionaries *)

Module Py.

Inductive exn : Type :=
| AttributeError
| IndexError
| KeyError
| TypeError
| ValueError
| OverflowError
| OSError.

Inductive result (A : Type) : Type :=
| Ok (a : A)
| Raise (e : exn).

Arguments Ok {A} a.
Arguments Raise {A} e.

Definition bind {A B : Type} (c : result A) (k : A -> result B) : result B :=
  match c with
  | Ok a => k a
  | Raise e => Raise e
  end.

(** [try: body except Exception as e: handler e] *)
Definition try_except {A : Type} (body : result A) (handler : exn -> result A)
  : result A :=
  match body with
  | Ok a => Ok a
  | Raise e => handler e
  end.

(** The scalars a profile record holds; a pandas [Timestamp] is a count of
    nanoseconds. *)
Inductive scalar : Type :=
| SNone
| SNaT
| SInt (n : Z)
| SFloat (x : float)
| SStr (s : string)
| STimestamp (ns : Z).

(** A dictionary value of a profile record: a scalar or a flat list. *)
Inductive value : Type :=
| Scalar (s : scalar)
| PyList (l : list scalar).

Definition dict : Type := list (string * value).

(** [d[k]], raising [KeyError] *)
Fixpoint dict_get (d : dict) (k : string) : result value :=
  match d with
  | [] => Raise KeyError
  | (k', v) :: r => if String.eqb k k' then Ok v else dict_get r k
  end.

(** [d.get(k)] *)
Definition dict_find (d : dict) (k : string) : option value :=
  match dict_get d k with
  | Ok v => Some v
  | Raise _ => None
  end.

(** [d[k] = v]: replaces in place, or appends a new key at the end *)
Fixpoint dict_set (d : dict) (k : string) (v : value) : dict :=
  match d with
  | [] => [(k, v)]
  | (k', v') :: r =>
      if String.eqb k k' then (k', v) :: r else (k', v') :: dict_set r k v
  end.

(** [d.update(e)] *)
Definition dict_update (d e : dict) : dict :=
  fold_left (fun acc kv => dict_set acc (fst kv) (snd kv)) e d.

Definition keys (d : dict) : list string := map fst d.

(** [v[0]] on a sequence, raising [IndexError] when it is empty *)
Definition item0 {A : Type} (v : list A) : result A :=
  match v with
  | x :: _ => Ok x
  | [] => Raise IndexError
  end.

(** [int(x)] on a float: truncation toward zero; NaN and the infinities
    raise. *)
Definition int_of_float (x : float) : result Z :=
  match Prim2SF x with
  | S754_nan => Raise ValueError
  | S754_infinity _ => Raise OverflowError
  | S754_zero _ => Ok 0%Z
  | S754_finite s m e => Ok (cond_Zopp s (Z.shiftl (Zpos m) e))
  end.

(** [c.isspace()], the characters that [strip] removes.  Text is a sequence
    of code points below 256; there the whitespace is the space, the
    controls 9 to 13 and 28 to 31, the next-line control 133 and the
    no-break space 160. *)
Definition is_space (c : ascii) : bool :=
  let n := nat_of_ascii c in
  (Nat.eqb n 32) || ((Nat.leb 9 n) && (Nat.leb n 13))
  || ((Nat.leb 28 n) && (Nat.leb n 31)) || (Nat.eqb n 133) || (Nat.eqb n 160).

Fixpoint lstrip (s : string) : string :=
  match s with
  | String c r => if is_space c then lstrip r else s
  | EmptyString => EmptyString
  end.

Fixpoint rstrip (s : string) : string :=
  match s with
  | String c r =>
      match rstrip r with
      | EmptyString => if is_space c then EmptyString else String c EmptyString
      | r' => String c r'
      end
  | EmptyString => EmptyString
  end.

(** [s.strip()] *)
Definition strip (s : string) : string := rstrip (lstrip s).

(** [pandas.isna] on a scalar: true on [None], NaN and NaT. *)
Definition isna (s : scalar) : bool :=
  match s with
  | SNone => true
  | SNaT => true
  | SFloat x => is_nan x
  | _ => false
  end.

End Py.

Export Py.

Declare Scope py_scope.
Delimit Scope py_scope with py.
Notation "x <- c ;; k" := (Py.bind c (fun x => k))
  (at level 61, c at next level, right associativity) : py_scope.
Open Scope py_scope.

(* ================================================================== *)
(** * The numpy operations the processor uses *)

Module Np.

(** What [np.array] makes of a Python value: a one-dimensional float64
    vector when the value is a list of numbers, and otherwise an array the
    calculator cannot filter: dtype object or string for a list holding
    [None], text or dates, on which [np.isnan] raises; zero-dimensional for
    a scalar, on which the mask has at most one entry or the boolean
    indexing raises.

    The embedding is exact on lists of floats, which is what the extractor
    puts in a record.  An integer in a list is taken at its nearest float64;
    numpy itself keeps a list of integers only as an integer array, with
    exact, wrapping arithmetic, and makes an object array of a list holding
    an integer of more than 64 bits.  What is stated of the values the
    calculator derives is therefore stated on records of floats. *)
Inductive ndarray : Type :=
| Float64 (l : list float)
| Opaque.

(** The float64 nearest to an integer, as numpy converts the integers of a
    numeric list. *)
Definition float_of_Z (n : Z) : float :=
  SF2Prim (binary_normalize prec emax n 0 false).

Definition float_of_scalar (s : scalar) : option float :=
  match s with
  | SFloat x => Some x
  | SInt n => Some (float_of_Z n)
  | _ => None
  end.

Fixpoint floats_of (l : list scalar) : option (list float) :=
  match l with
  | [] => Some []
  | s :: r =>
      match float_of_scalar s, floats_of r with
      | Some x, Some xs => Some (x :: xs)
      | _, _ => None
      end
  end.

Definition array (v : value) : ndarray :=
  match v with
  | PyList l =>
      match floats_of l with
      | Some xs => Float64 xs
      | None => Opaque
      end
  | Scalar _ => Opaque
  end.

(** [np.isnan a]; the ufunc is not defined on object or string arrays. *)
Definition isnan (a : ndarray) : result (list bool) :=
  match a with
  | Float64 l => Ok (map is_nan l)
  | Opaque => Raise TypeError
  end.

(** [a | b] on boolean vectors, with numpy's broadcasting of a length-one
    operand; other length mismatches raise. *)
Definition logical_or (a b : list bool) : result (list bool) :=
  if Nat.eqb (List.length a) (List.length b) then
    Ok (map (fun p => orb (fst p) (snd p)) (combine a b))
  else
    match a, b with
    | [x], _ => Ok (map (orb x) b)
    | _, [y] => Ok (map (fun x => orb x y) a)
    | _, _ => Raise ValueError
    end.

(** [~a] *)
Definition invert (a : list bool) : list bool := map negb a.

(** [np.sum mask] *)
Definition sum (mask : list bool) : nat := List.length (filter (fun b => b) mask).

Fixpoint select {A : Type} (a : list A) (mask : list bool) : list A :=
  match a, mask with
  | x :: a', b :: mask' => if b then x :: select a' mask' else select a' mask'
  | _, _ => []
  end.

(** [a[mask]]: boolean indexing; the mask must be as long as the array. *)
Definition bool_index (a : ndarray) (mask : list bool) : result (list float) :=
  match a with
  | Float64 l =>
      if Nat.eqb (List.length l) (List.length mask) then Ok (select l mask)
      else Raise IndexError
  | Opaque => Raise IndexError
  end.

(** [np.max a]; an empty array raises. *)
Definition max (a : list float) : result float :=
  match a with
  | [] => Raise ValueError
  | x :: r => Ok (fold_left (fun acc y => if (acc <? y)%float then y else acc) r x)
  end.

End Np.

(* ================================================================== *)
(** * netcdf_processor.py: class ArgoNetCDFProcessor *)

(** The variables of an opened dataset that the processor reads.  A variable
    is absent ([None]) or holds one entry per profile of the file; the
    per-level variables hold one row per profile.  An entry of
    [PLATFORM_NUMBER] is given as the text [str] makes of it. *)
Record Dataset : Type := {
  PLATFORM_NUMBER : option (list string);
  CYCLE_NUMBER : option (list float);
  LATITUDE : option (list float);
  LONGITUDE : option (list float);
  JULD : option (list float);
  PRES : option (list (list float));
  TEMP : option (list (list float));
  PSAL : option (list (list float));
  TEMP_QC : option (list (list string));
  PSAL_QC : option (list (list string))
}.

(** [ds.NAME]: attribute access raises when the variable is absent. *)
Definition getattr {A : Type} (var : option A) : result A :=
  match var with
  | Some a => Ok a
  | None => Raise AttributeError
  end.

(** [NAME in ds] *)
Definition contains {A : Type} (var : option A) : bool :=
  match var with
  | Some _ => true
  | None => false
  end.

Definition float_list (l : list float) : value := PyList (map SFloat l).
Definition str_list (l : list string) : value := PyList (map SStr l).

Definition fallback : dict :=
  [("max_depth", Scalar (SInt 0)); ("mixed_layer_depth", Scalar (SInt 0))]%string.

(** A coordinate handed to the seawater library: a number, or the library
    raises.  The embedding is exact on a float, which is what the extractor
    puts in a record.  The library itself converts each argument to a float
    array: it broadcasts a list given as a coordinate, and raises on an
    integer too large for a float.  What is stated of the values the
    calculator derives is therefore stated on records whose coordinates are
    floats. *)
Definition as_float (v : value) : result float :=
  match v with
  | Scalar s =>
      match Np.float_of_scalar s with
      | Some x => Ok x
      | None => Raise TypeError
      end
  | PyList _ => Raise TypeError
  end.

Section Processor.

(** The seawater library (gsw): three element-wise conversions, applied by
    the library along the arrays it is given.  [lon] and [lat] are scalars
    shared by all levels. *)
Variable SA_from_SP : float -> float -> float -> float -> float.
Variable CT_from_t : float -> float -> float -> float.
Variable sigma0 : float -> float -> float.

(** [xr.open_dataset(file_path, decode_times=False)] *)
Variable open_dataset : string -> result Dataset.

(** [reference_date + pd.Timedelta(days=d)] with [reference_date] 1950-01-01:
    pandas' own date arithmetic, which raises outside its range. *)
Variable epoch_plus_days : float -> result scalar.

(** [pd.Timestamp.now()] *)
Variable now : scalar.

Definition _extract_platform_number (ds : Dataset) : result string :=
  if contains (PLATFORM_NUMBER ds) then
    v <- getattr (PLATFORM_NUMBER ds) ;;
    x <- item0 v ;;
    Ok (strip x)
  else Ok "UNKNOWN"%string.

Definition _extract_date (ds : Dataset) : result scalar :=
  if contains (JULD ds) then
    v <- getattr (JULD ds) ;;
    days_since <- item0 v ;;
    epoch_plus_days days_since
  else Ok now.

Fixpoint mld_scan (surface_temp threshold : float) (rows : list (float * float))
  : option float :=
  match rows with
  | [] => None
  | (temp, depth) :: rest =>
      if (threshold <? abs (temp - surface_temp))%float then Some depth
      else mld_scan surface_temp threshold rest
  end.

Definition _calculate_mld (temperature pressure : list float) (threshold : float)
  : float :=
  if Nat.ltb (List.length temperature) 2 then 0%float
  else
    let surface_temp := nth 0 temperature 0%float in
    match mld_scan surface_temp threshold (combine temperature pressure) with
    | Some depth => depth
    | None =>
        if Nat.ltb 0 (List.length pressure) then last pressure 0%float else 0%float
    end.

Definition default_threshold : float := 0.2%float.

Definition _determine_ocean_region (lat lon : float) : string :=
  let lon := if (lon <? 0)%float then (lon + 360)%float else lon in
  if (-60 <=? lat)%float && (lat <=? 30)%float
     && (20 <=? lon)%float && (lon <=? 120)%float
  then "Indian Ocean"%string
  else if ((120 <=? lon)%float && (lon <=? 290)%float)
          || ((290 <=? lon)%float && (lon <=? 360)%float)
          || ((0 <=? lon)%float && (lon <=? 70)%float)
  then "Pacific Ocean"%string
  else if (290 <=? lon)%float || (lon <=? 20)%float
  then "Atlantic Ocean"%string
  else if (lat <? -60)%float then "Southern Ocean"%string
  else if (66 <? lat)%float then "Arctic Ocean"%string
  else "Unknown"%string.

(** The arrays and the joint validity mask (the statements of the [try]
    block before the test on the number of valid samples). *)
Definition joint_mask (profile_data : dict)
  : result (Np.ndarray * Np.ndarray * Np.ndarray * value * value * list bool) :=
  temp_v <- dict_get profile_data "temperature" ;;
  let temp := Np.array temp_v in
  sal_v <- dict_get profile_data "salinity" ;;
  let sal := Np.array sal_v in
  pres_v <- dict_get profile_data "pressure_levels" ;;
  let pres := Np.array pres_v in
  lat <- dict_get profile_data "latitude" ;;
  lon <- dict_get profile_data "longitude" ;;
  nt <- Np.isnan temp ;;
  ns <- Np.isnan sal ;;
  ts <- Np.logical_or nt ns ;;
  np_ <- Np.isnan pres ;;
  tsp <- Np.logical_or ts np_ ;;
  Ok (temp, sal, pres, lat, lon, Np.invert tsp).

(** The statements after the test: filtering, the seawater conversions,
    mixed-layer depth and maximum depth. *)
Definition derive (temp sal pres : Np.ndarray) (lat lon : value)
  (valid_mask : list bool) : result dict :=
  temp_clean <- Np.bool_index temp valid_mask ;;
  sal_clean <- Np.bool_index sal valid_mask ;;
  pres_clean <- Np.bool_index pres valid_mask ;;
  lon <- as_float lon ;;
  lat <- as_float lat ;;
  let SA := map (fun sp => SA_from_SP (fst sp) (snd sp) lon lat)
                (combine sal_clean pres_clean) in
  let CT := map (fun stp => CT_from_t (fst (fst stp)) (snd (fst stp)) (snd stp))
                (combine (combine SA temp_clean) pres_clean) in
  let sigma := map (fun sc => sigma0 (fst sc) (snd sc)) (combine SA CT) in
  let mld := _calculate_mld temp_clean pres_clean default_threshold in
  max_depth <- Np.max pres_clean ;;
  Ok [("absolute_salinity", float_list SA);
      ("conservative_temperature", float_list CT);
      ("potential_density", float_list sigma);
      ("mixed_layer_depth", Scalar (SFloat mld));
      ("max_depth", Scalar (SFloat max_depth))]%string.

(** The [try] block of [_calculate_derived_parameters]. *)
Definition derived_body (profile_data : dict) : result dict :=
  arrays <- joint_mask profile_data ;;
  let '(temp, sal, pres, lat, lon, valid_mask) := arrays in
  if Nat.ltb (Np.sum valid_mask) 3 then Ok fallback
  else derive temp sal pres lat lon valid_mask.

Definition _calculate_derived_parameters (profile_data : dict) : result dict :=
  try_except (derived_body profile_data) (fun _ => Ok fallback).

(** [None if pd.isna(x) else x] *)
Definition clean_scalar (x : scalar) : scalar := if isna x then SNone else x.

Definition clean_value (v : value) : value :=
  match v with
  | PyList l => PyList (map clean_scalar l)
  | Scalar s => if isna s then Scalar SNone else Scalar s
  end.

Definition _clean_profile_data (profile_data : dict) : dict :=
  map (fun kv => (fst kv, clean_value (snd kv))) profile_data.

(** The dictionary literal of [process_argo_file], its entries evaluated in
    source order. *)
Definition extract (ds : Dataset) : result dict :=
  platform_number <- _extract_platform_number ds ;;
  cycle_number <-
    (if contains (CYCLE_NUMBER ds) then
       v <- getattr (CYCLE_NUMBER ds) ;; x <- item0 v ;; int_of_float x
     else Ok 0%Z) ;;
  latitude <- (v <- getattr (LATITUDE ds) ;; item0 v) ;;
  longitude <- (v <- getattr (LONGITUDE ds) ;; item0 v) ;;
  measurement_date <- _extract_date ds ;;
  pressure_levels <- (v <- getattr (PRES ds) ;; item0 v) ;;
  temperature <- (v <- getattr (TEMP ds) ;; item0 v) ;;
  salinity <- (v <- getattr (PSAL ds) ;; item0 v) ;;
  temp_qc <-
    (if contains (TEMP_QC ds) then v <- getattr (TEMP_QC ds) ;; item0 v
     else Ok []) ;;
  psal_qc <-
    (if contains (PSAL_QC ds) then v <- getattr (PSAL_QC ds) ;; item0 v
     else Ok []) ;;
  Ok [("platform_number", Scalar (SStr platform_number));
      ("cycle_number", Scalar (SInt cycle_number));
      ("latitude", Scalar (SFloat latitude));
      ("longitude", Scalar (SFloat longitude));
      ("measurement_date", Scalar measurement_date);
      ("pressure_levels", float_list pressure_levels);
      ("temperature", float_list temperature);
      ("salinity", float_list salinity);
      ("temp_qc", str_list temp_qc);
      ("psal_qc", str_list psal_qc)]%string.

(** What follows the dictionary literal inside the [try] block. *)
Definition finish (profile_data : dict) : result dict :=
  derived_params <- _calculate_derived_parameters profile_data ;;
  let profile_data := dict_update profile_data derived_params in
  lat <- (v <- dict_get profile_data "latitude" ;; as_float v) ;;
  lon <- (v <- dict_get profile_data "longitude" ;; as_float v) ;;
  let profile_data :=
    dict_set profile_data "ocean_region"
             (Scalar (SStr (_determine_ocean_region lat lon))) in
  Ok (_clean_profile_data profile_data).

Definition process_dataset (ds : Dataset) : result dict :=
  profile_data <- extract ds ;;
  finish profile_data.

(** [process_argo_file]: [None] stands for Python's [None]. *)
Definition process_argo_file (file_path : string) : result (option dict) :=
  try_except
    (ds <- open_dataset file_path ;;
     profile_data <- process_dataset ds ;;
     Ok (Some profile_data))
    (fun _ => Ok None).

End Processor.

(* ================================================================== *)
(** * data_ingestion.py: class DataIngestionPipeline *)

Record summary : Type := {
  processed : nat;
  errors : nat;
  files : list string
}.

Section Ingestion.

(** The state outside the pipeline: the vector collection and the
    relational store. *)
Variable World : Type.

(** A pipeline step: it may change the world and may raise. *)
Definition M (A : Type) : Type := World -> result A * World.

Definition ret {A : Type} (a : A) : M A := fun w => (Ok a, w).

Definition mbind {A B : Type} (c : M A) (k : A -> M B) : M B :=
  fun w =>
    match c w with
    | (Ok a, w') => k a w'
    | (Raise e, w') => (Raise e, w')
    end.

Definition mtry {A : Type} (body : M A) (handler : exn -> M A) : M A :=
  fun w =>
    match body w with
    | (Ok a, w') => (Ok a, w')
    | (Raise e, w') => handler e w'
    end.

(** [glob.glob(os.path.join(directory_path, "*.nc"))] *)
Variable glob : string -> M (list string).

(** [self.processor.process_argo_file] *)
Variable process : string -> M (option dict).

(** The body of [ArgoVectorDatabase.add_profile]: summary text, embedding
    and [collection.add]. *)
Variable collection_add : dict -> M unit.

(** The body of [_save_to_database]: the [ArgoProfile] row built from the
    record, [db.add], [db.commit], [db.close]. *)
Variable session_add_commit : dict -> M unit.

Definition add_profile (profile_data : dict) : M bool :=
  mtry (mbind (collection_add profile_data) (fun _ => ret true))
       (fun _ => ret false).

Definition _save_to_database (profile_data : dict) : M bool :=
  mtry (mbind (session_add_commit profile_data) (fun _ => ret true))
       (fun _ => ret false).

(** [not profile_data] holds of [None] and of the empty dictionary. *)
Definition ingest_single_file (file_path : string) : M bool :=
  mtry
    (mbind (process file_path) (fun profile_data =>
       match profile_data with
       | Some (kv :: d) =>
           mbind (add_profile (kv :: d)) (fun vector_success =>
           mbind (_save_to_database (kv :: d)) (fun sql_success =>
           if vector_success && sql_success then ret true else ret false))
       | _ => ret false
       end))
    (fun _ => ret false).

(** The three accumulators of the loop in [ingest_directory]. *)
Definition loop_body (acc : summary) (file_path : string) : M summary :=
  mtry
    (mbind (ingest_single_file file_path) (fun result =>
       if result then
         ret {| processed := S (processed acc);
                errors := errors acc;
                files := files acc ++ [file_path] |}
       else
         ret {| processed := processed acc;
                errors := S (errors acc);
                files := files acc |}))
    (fun _ =>
       ret {| processed := processed acc;
              errors := S (errors acc);
              files := files acc |}).

Fixpoint for_each (netcdf_files : list string) (acc : summary) : M summary :=
  match netcdf_files with
  | [] => ret acc
  | file_path :: rest => mbind (loop_body acc file_path) (for_each rest)
  end.

Definition ingest_directory (directory_path : string) : M summary :=
  mtry
    (mbind (glob directory_path) (fun netcdf_files =>
       match netcdf_files with
       | [] => ret {| processed := 0; errors := 0; files := [] |}
       | _ => for_each netcdf_files {| processed := 0; errors := 0; files := [] |}
       end))
    (fun _ => ret {| processed := 0; errors := 1; files := [] |}).

(** The outcome of each file of a batch, in order: what
    [ingest_single_file] returned on the world the earlier files left. *)
Fixpoint outcomes (netcdf_files : list string) (w : World) : list bool :=
  match netcdf_files with
  | [] => []
  | file_path :: rest =>
      match ingest_single_file file_path w with
      | (Ok b, w') => b :: outcomes rest w'
      | (Raise _, w') => false :: outcomes rest w'
      end
  end.

End Ingestion.

Arguments ret {World A} a.
Arguments mbind {World A B} c k.
Arguments mtry {World A} body handler.

(* ================================================================== *)
(** * The relational store and [cleanup_duplicates] *)

Module Store.

(** The columns of [ArgoProfile] (database/models.py) that the cleanup
    reads; a [DateTime] is a count of microseconds. *)
Record ArgoProfile : Type := {
  profile_id : nat;
  platform_number : string;
  cycle_number : Z;
  measurement_date : Z
}.

Definition table : Type := list ArgoProfile.

(** [db = self.SessionLocal()] is a [sqlalchemy.orm.Session].  These are the
    public attributes of that class.  The SQL function namespace [func] is
    a module-level object of sqlalchemy (database/models.py imports it with
    [from sqlalchemy.sql import func]); data_ingestion.py does not import
    it, and it is not an attribute of a session. *)
Definition session_attributes : list string :=
  ["add"; "add_all"; "begin"; "begin_nested"; "bind"; "close"; "commit";
   "connection"; "delete"; "deleted"; "dirty"; "execute"; "expire";
   "expire_all"; "expunge"; "expunge_all"; "flush"; "get"; "get_bind";
   "identity_map"; "info"; "is_active"; "merge"; "new"; "no_autoflush";
   "query"; "refresh"; "rollback"; "scalar"; "scalars"]%string.

(** [db.NAME] *)
Definition session_getattr (name : string) : result unit :=
  if existsb (String.eqb name) session_attributes then Ok tt
  else Raise AttributeError.

Definition same_key (platform : string) (cycle : Z) (p : ArgoProfile) : bool :=
  String.eqb (platform_number p) platform && Z.eqb (cycle_number p) cycle.

Fixpoint distinct_keys (rows : table) (seen : list (string * Z))
  : list (string * Z) :=
  match rows with
  | [] => []
  | p :: rest =>
      if existsb (fun k => same_key (fst k) (snd k) p) seen
      then distinct_keys rest seen
      else (platform_number p, cycle_number p)
           :: distinct_keys rest ((platform_number p, cycle_number p) :: seen)
  end.

(** [query(platform_number, cycle_number, count(profile_id))
      .group_by(platform_number, cycle_number).having(count > 1).all()] *)
Definition duplicates (rows : table) : list (string * Z * nat) :=
  filter (fun g => Nat.ltb 1 (snd g))
    (map (fun k => (k, List.length (filter (same_key (fst k) (snd k)) rows)))
         (distinct_keys rows [])).

Fixpoint insert_desc (p : ArgoProfile) (sorted : table) : table :=
  match sorted with
  | [] => [p]
  | q :: rest =>
      if (measurement_date q <=? measurement_date p)%Z then p :: q :: rest
      else q :: insert_desc p rest
  end.

(** [.order_by(measurement_date.desc())] *)
Definition order_by_date_desc (rows : table) : table :=
  fold_right insert_desc [] rows.

(** [db.delete(profile)], by primary key *)
Definition delete (profile : ArgoProfile) (rows : table) : table :=
  filter (fun q => negb (Nat.eqb (profile_id q) (profile_id profile))) rows.

(** The statements of [cleanup_duplicates] from the first query to the
    commit, with [count] resolved to SQL's count. *)
Definition cleanup_query (rows : table) : nat * table :=
  fold_left
    (fun acc g =>
       let '(platform, cycle, _) := g in
       let profiles :=
         order_by_date_desc (filter (same_key platform cycle) rows) in
       fold_left
         (fun acc' profile => (S (fst acc'), delete profile (snd acc')))
         (tl profiles) acc)
    (duplicates rows) (0, rows).

(** [cleanup_duplicates]: the first query takes [db.func.count(...)] as an
    argument, so [db.func] is looked up before anything is sent to the
    store; the handler returns 0 and nothing is committed. *)
Definition cleanup_duplicates (rows : table) : nat * table :=
  match (_ <- session_getattr "func" ;; Ok (cleanup_query rows)) with
  | Ok r => r
  | Raise _ => (0, rows)
  end.

End Store.

(* ================================================================== *)
(** * The specification's wording of the region rules *)

Module RegionSpec.

Local Open Scope float_scope.

Definition within (lo hi x : float) : Prop :=
  (lo <=? x) = true /\ (x <=? hi) = true.

(** Longitude normalization: a negative longitude has 360 added. *)
Definition normalize (lon : float) : float :=
  if lon <? 0 then lon + 360 else lon.

Definition Indian (lat lon : float) : Prop :=
  within (-60) 30 lat /\ within 20 120 lon.

Definition Pacific (lon : float) : Prop :=
  within 120 290 lon \/ within 290 360 lon \/ within 0 70 lon.

Definition Atlantic (lon : float) : Prop :=
  (290 <=? lon) = true \/ (lon <=? 20) = true.

Definition Southern (lat : float) : Prop := (lat <? -60) = true.

Definition Arctic (lat : float) : Prop := (66 <? lat) = true.

(** The cascade: a rule applies only when every earlier rule has failed. *)
Inductive cascade (lat lon : float) : string -> Prop :=
| rule_Indian :
    Indian lat lon -> cascade lat lon "Indian Ocean"
| rule_Pacific :
    ~ Indian lat lon -> Pacific lon -> cascade lat lon "Pacific Ocean"
| rule_Atlantic :
    ~ Indian lat lon -> ~ Pacific lon -> Atlantic lon ->
    cascade lat lon "Atlantic Ocean"
| rule_Southern :
    ~ Indian lat lon -> ~ Pacific lon -> ~ Atlantic lon -> Southern lat ->
    cascade lat lon "Southern Ocean"
| rule_Arctic :
    ~ Indian lat lon -> ~ Pacific lon -> ~ Atlantic lon -> ~ Southern lat ->
    Arctic lat -> cascade lat lon "Arctic Ocean"
| rule_Unknown :
    ~ Indian lat lon -> ~ Pacific lon -> ~ Atlantic lon -> ~ Southern lat ->
    ~ Arctic lat -> cascade lat lon "Unknown".

Definition labels : list string :=
  ["Indian Ocean"; "Pacific Ocean"; "Atlantic Ocean"; "Southern Ocean";
   "Arctic Ocean"; "Unknown"]%string.

End RegionSpec.

(* ================================================================== *)
(** * Sample inputs *)

Module Samples.

Local Open Scope float_scope.
Local Open Scope string_scope.

(** The profile of the specification's scenario. *)
Definition scenario : dict :=
  [("latitude", Scalar (SFloat 2.5));
   ("longitude", Scalar (SFloat 87.3));
   ("pressure_levels", float_list [2.5; 10; 20; 50]);
   ("temperature", float_list [28.0; 27.9; 26.0; 20.0]);
   ("salinity", float_list [34.2; 34.3; 34.8; 35.1])].

(** The same profile as the one profile of a dataset. *)
Definition scenario_ds : Dataset :=
  {| PLATFORM_NUMBER := Some ["2900123 "];
     CYCLE_NUMBER := Some [10];
     LATITUDE := Some [2.5];
     LONGITUDE := Some [87.3];
     JULD := None;
     PRES := Some [[2.5; 10; 20; 50]];
     TEMP := Some [[28.0; 27.9; 26.0; 20.0]];
     PSAL := Some [[34.2; 34.3; 34.8; 35.1]];
     TEMP_QC := None;
     PSAL_QC := None |}.

(** Stand-ins for the seawater conversions and the clock, to run the
    pipeline on concrete inputs. *)
Definition sample_SA (sp p lon lat : float) : float := sp.
Definition sample_CT (sa t p : float) : float := t.
Definition sample_sigma0 (sa ct : float) : float := sa.

(** The date arithmetic, as pandas 2 does it: [Timedelta(days=d)] scales the
    day count to nanoseconds in float arithmetic and truncates, so the
    fraction of a day is kept; NaN and the infinities raise in [int]; a
    count of nanoseconds must fit 64 bits, and so must the timestamp.
    1950-01-01 is 631152000 seconds before the epoch of [Timestamp]. *)
Definition int64_min : Z := (- 2 ^ 63)%Z.
Definition int64_max : Z := (2 ^ 63 - 1)%Z.

Definition sample_epoch_plus_days (d : float) : result scalar :=
  ns <- int_of_float (d * 24 * 3600 * 1000000000)%float ;;
  if ((ns <? int64_min) || (int64_max <? ns))%Z then Raise OverflowError
  else if (ns =? int64_min)%Z then Ok SNaT
  else
    let t := (ns - 631152000 * 1000000000)%Z in
    if ((t <=? int64_min) || (int64_max <? t))%Z then Raise ValueError
    else Ok (STimestamp t).
Definition sample_now : scalar := STimestamp 1793750400000000000%Z.


(** A file in which every variable is present but which holds no profile:
    the profile dimension has size 0. *)
Definition no_profile_ds : Dataset :=
  {| PLATFORM_NUMBER := Some [];
     CYCLE_NUMBER := Some [];
     LATITUDE := Some [];
     LONGITUDE := Some [];
     JULD := Some [];
     PRES := Some [];
     TEMP := Some [];
     PSAL := Some [];
     TEMP_QC := Some [];
     PSAL_QC := Some [] |}.

(** A record with NaN in a sequence and in a scalar. *)
Definition dirty : dict :=
  [("platform_number", Scalar (SStr "2900123"));
   ("latitude", Scalar (SFloat nan));
   ("temperature", float_list [28.0; nan; 26.0]);
   ("measurement_date", Scalar SNaT)].

(** Two stored profiles of platform 2900123, cycle 10, measured at
    different dates. *)
Definition earlier : Store.ArgoProfile :=
  {| Store.profile_id := 1; Store.platform_number := "2900123";
     Store.cycle_number := 10; Store.measurement_date := 1000 |}.

Definition later : Store.ArgoProfile :=
  {| Store.profile_id := 2; Store.platform_number := "2900123";
     Store.cycle_number := 10; Store.measurement_date := 2000 |}.

Definition two_profiles : Store.table := [earlier; later].

End Samples.

(* ================================================================== *)
(** * vector_db.py: [add_profile] and [get_collection_stats];
      data_ingestion.py: the row of [_save_to_database] and
      [get_ingestion_stats] *)

Module Persist.

(** [d.get(k, default)] *)
Definition get_default (d : dict) (k : string) (default : value) : value :=
  match dict_find d k with
  | Some v => v
  | None => default
  end.

(** A keyword argument of the [ArgoProfile] constructor: a record value, or
    the empty dictionary that [metadata] defaults to. *)
Inductive kwarg : Type :=
| Val (v : value)
| EmptyDict.

(** The keyword arguments of [ArgoProfile(...)] in [_save_to_database],
    evaluated in source order: eight subscripts, which raise [KeyError] on a
    missing key, then seven [get] with their defaults. *)
Definition row_kwargs (profile_data : dict) : result (list (string * kwarg)) :=
  platform_number <- dict_get profile_data "platform_number" ;;
  cycle_number <- dict_get profile_data "cycle_number" ;;
  latitude <- dict_get profile_data "latitude" ;;
  longitude <- dict_get profile_data "longitude" ;;
  measurement_date <- dict_get profile_data "measurement_date" ;;
  pressure_levels <- dict_get profile_data "pressure_levels" ;;
  temperature <- dict_get profile_data "temperature" ;;
  salinity <- dict_get profile_data "salinity" ;;
  Ok [("platform_number", Val platform_number);
      ("cycle_number", Val cycle_number);
      ("latitude", Val latitude);
      ("longitude", Val longitude);
      ("measurement_date", Val measurement_date);
      ("pressure_levels", Val pressure_levels);
      ("temperature", Val temperature);
      ("salinity", Val salinity);
      ("temp_qc", Val (get_default profile_data "temp_qc" (PyList [])));
      ("psal_qc", Val (get_default profile_data "psal_qc" (PyList [])));
      ("mixed_layer_depth",
       Val (get_default profile_data "mixed_layer_depth" (Scalar SNone)));
      ("max_depth", Val (get_default profile_data "max_depth" (Scalar SNone)));
      ("ocean_region",
       Val (get_default profile_data "ocean_region" (Scalar SNone)));
      ("data_source",
       Val (get_default profile_data "data_source" (Scalar (SStr "ARGO"))));
      ("metadata",
       match dict_find profile_data "metadata" with
       | Some v => Val v
       | None => EmptyDict
       end)]%string.

Section Stores.

Variable World : Type.

Definition lift {A : Type} (r : result A) : M World A := fun w => (r, w).

(** [float(s)] on text *)
Variable float_of_string : string -> result float.

(** [str(v)] *)
Variable str_ : value -> string.

(** [float(v)]: a float is itself, an integer is the nearest float unless it
    is too large, text is parsed, anything else is a [TypeError]. *)
Definition py_float (v : value) : result float :=
  match v with
  | Scalar (SFloat x) => Ok x
  | Scalar (SInt n) =>
      if is_infinity (Np.float_of_Z n) then Raise OverflowError
      else Ok (Np.float_of_Z n)
  | Scalar (SStr s) => float_of_string s
  | _ => Raise TypeError
  end.

(** The metadata dictionary that [add_profile] hands to the collection, its
    entries evaluated in source order. *)
Definition metadata (profile_id : string) (profile_data : dict) : result dict :=
  let platform_number :=
    str_ (get_default profile_data "platform_number" (Scalar (SStr ""))) in
  latitude <- py_float (get_default profile_data "latitude" (Scalar (SInt 0))) ;;
  longitude <- py_float (get_default profile_data "longitude" (Scalar (SInt 0))) ;;
  let date :=
    str_ (get_default profile_data "measurement_date" (Scalar (SStr ""))) in
  let ocean_region :=
    str_ (get_default profile_data "ocean_region" (Scalar (SStr ""))) in
  max_depth <- py_float (get_default profile_data "max_depth" (Scalar (SInt 0))) ;;
  mixed_layer_depth <-
    py_float (get_default profile_data "mixed_layer_depth" (Scalar (SInt 0))) ;;
  Ok [("profile_id", Scalar (SStr profile_id));
      ("platform_number", Scalar (SStr platform_number));
      ("latitude", Scalar (SFloat latitude));
      ("longitude", Scalar (SFloat longitude));
      ("date", Scalar (SStr date));
      ("ocean_region", Scalar (SStr ocean_region));
      ("max_depth", Scalar (SFloat max_depth));
      ("mixed_layer_depth", Scalar (SFloat mixed_layer_depth))]%string.

(** [generate_profile_summary]: it catches its own exceptions and always
    returns text. *)
Variable generate_profile_summary : dict -> string.

(** [self.embedding_model.encode(summary)], as a list *)
Variable encode : string -> result (list float).

(** [uuid.uuid4()] *)
Variable uuid4 : World -> value.

(** [self.collection.add(embeddings, documents, metadatas, ids)] *)
Variable collection_add : list float -> string -> dict -> string -> M World unit.

(** The [try] block of [add_profile]. *)
Definition add_profile_body (profile_data : dict) : M World unit :=
  let summary := generate_profile_summary profile_data in
  mbind (lift (encode summary)) (fun embedding =>
  mbind (fun w => (Ok (uuid4 w), w)) (fun fresh =>
  let profile_id := str_ (get_default profile_data "profile_id" fresh) in
  mbind (lift (metadata profile_id profile_data)) (fun meta =>
  collection_add embedding summary meta profile_id))).

(** [db = self.SessionLocal()] *)
Variable session_local : M World unit.

(** [db.add(argo_profile); db.commit(); db.close()] on the row built from
    the keyword arguments *)
Variable add_commit_close : list (string * kwarg) -> M World unit.

(** The [try] block of [_save_to_database]. *)
Definition save_body (profile_data : dict) : M World unit :=
  mbind session_local (fun _ =>
  mbind (lift (row_kwargs profile_data)) add_commit_close).

End Stores.

Section Stats.

(** [self.collection.count()] *)
Variable collection_count : result Z.

Definition get_collection_stats : dict :=
  match collection_count with
  | Ok count =>
      [("total_profiles", Scalar (SInt count));
       ("embedding_model", Scalar (SStr "all-MiniLM-L6-v2"));
       ("vector_dimension", Scalar (SInt 384))]%string
  | Raise _ => [("total_profiles", Scalar (SInt 0))]%string
  end.

(** A value of the statistics dictionary: a scalar, or the distribution of
    the profiles over the regions. *)
Inductive stat : Type :=
| Stat (v : value)
| Distribution (d : list (value * Z)).

(** The rows of the query grouped by [ocean_region], with their counts. *)
Variable regional_stats : Store.table -> list (value * Z).

(** [get_ingestion_stats]: the regional query takes
    [db.func.count(...)] as an argument, so [db.func] is looked up on the
    session after the two counts have been read. *)
Definition get_ingestion_stats (rows : Store.table) : list (string * stat) :=
  match
    (let total_profiles := Z.of_nat (List.length rows) in
     let vector_stats := get_collection_stats in
     _ <- Store.session_getattr "func" ;;
     Ok [("total_profiles", Stat (Scalar (SInt total_profiles)));
         ("vector_db_profiles",
          Stat (get_default vector_stats "total_profiles" (Scalar (SInt 0))));
         ("regional_distribution", Distribution (regional_stats rows));
         ("embedding_model",
          Stat (get_default vector_stats "embedding_model"
                  (Scalar (SStr "unknown"))))]%string)
  with
  | Ok stats => stats
  | Raise _ =>
      [("total_profiles", Stat (Scalar (SInt 0)));
       ("vector_db_profiles", Stat (Scalar (SInt 0)))]%string
  end.

End Stats.

(** The first profile of a dataset: every variable cut to its first
    entry. *)
Definition first_entry {A : Type} (var : option (list A)) : option (list A) :=
  match var with
  | Some l => Some (firstn 1 l)
  | None => None
  end.

Definition first_profile (ds : Dataset) : Dataset :=
  {| PLATFORM_NUMBER := first_entry (PLATFORM_NUMBER ds);
     CYCLE_NUMBER := first_entry (CYCLE_NUMBER ds);
     LATITUDE := first_entry (LATITUDE ds);
     LONGITUDE := first_entry (LONGITUDE ds);
     JULD := first_entry (JULD ds);
     PRES := first_entry (PRES ds);
     TEMP := first_entry (TEMP ds);
     PSAL := first_entry (PSAL ds);
     TEMP_QC := first_entry (TEMP_QC ds);
     PSAL_QC := first_entry (PSAL_QC ds) |}.

End Persist.

(* ================================================================== *)
(** * Reading the mixed-layer scan and the order of binary64 *)

Module MldSpec.

Local Open Scope float_scope.

(** The departure test of the scan. *)
Definition departs (threshold surface_temp temp : float) : bool :=
  threshold <? abs (temp - surface_temp).

(** The levels are in increasing-pressure order: no sample is shallower
    than the one before it. *)
Definition increasing (pressure : list float) : Prop :=
  forall i, (S i < List.length pressure)%nat ->
            (nth i pressure 0 <=? nth (S i) pressure 0) = true.

End MldSpec.

Module CalculatorSpec.

(** A sample index is jointly valid when temperature, salinity and
    pressure are all present there, that is, none of them is NaN. *)
Definition jointly_valid (t s p : float) : bool :=
  negb (is_nan t || is_nan s || is_nan p).

Fixpoint validity (temp sal pres : list float) : list bool :=
  match temp, sal, pres with
  | t :: temp', s :: sal', p :: pres' =>
      jointly_valid t s p :: validity temp' sal' pres'
  | _, _, _ => []
  end.

(** The samples of a sequence at the indices a mask marks, in order. *)
Definition kept {A : Type} (l : list A) (mask : list bool) : list A :=
  map fst (filter snd (combine l mask)).

Definition is_max (m : float) (l : list float) : Prop :=
  In m l /\ forall y, In y l -> (y <=? m)%float = true.

End CalculatorSpec.

Module SanitizerSpec.

Definition scalar_is_nan (s : scalar) : bool :=
  match s with
  | SFloat x => is_nan x
  | _ => false
  end.

Definition has_nan (v : value) : bool :=
  match v with
  | Scalar s => scalar_is_nan s
  | PyList l => existsb scalar_is_nan l
  end.

End SanitizerSpec.

Module ExtractorSpec.

(** A variable that is present and has an entry for the first profile. *)
Definition has_first {A : Type} (var : option (list A)) : bool :=
  match var with
  | Some (_ :: _) => true
  | _ => false
  end.

(** A variable that is absent, or present with a first entry. *)
Definition first_if_present {A : Type} (var : option (list A)) : bool :=
  match var with
  | Some [] => false
  | _ => true
  end.

Definition required_present (ds : Dataset) : bool :=
  contains (LATITUDE ds) && contains (LONGITUDE ds) && contains (PRES ds)
  && contains (TEMP ds) && contains (PSAL ds).

Definition cycle_converts (ds : Dataset) : bool :=
  match CYCLE_NUMBER ds with
  | Some (x :: _) =>
      match int_of_float x with
      | Ok _ => true
      | Raise _ => false
      end
  | _ => true
  end.

Definition date_decodes (epoch_plus_days : float -> result scalar)
  (ds : Dataset) : bool :=
  match JULD ds with
  | Some (d :: _) =>
      match epoch_plus_days d with
      | Ok _ => true
      | Raise _ => false
      end
  | _ => true
  end.

(** Everything the extractor reads can be read. *)
Definition readable (epoch_plus_days : float -> result scalar) (ds : Dataset)
  : bool :=
  first_if_present (PLATFORM_NUMBER ds)
  && first_if_present (CYCLE_NUMBER ds) && cycle_converts ds
  && has_first (LATITUDE ds) && has_first (LONGITUDE ds)
  && first_if_present (JULD ds) && date_decodes epoch_plus_days ds
  && has_first (PRES ds) && has_first (TEMP ds) && has_first (PSAL ds)
  && first_if_present (TEMP_QC ds) && first_if_present (PSAL_QC ds).

End ExtractorSpec.

Module IngestionSpec.

(** The files of a batch whose outcome is a success, in order. *)
Definition passed (netcdf_files : list string) (os : list bool) : list string :=
  map fst (filter snd (combine netcdf_files os)).

End IngestionSpec.

Module FloatKey.

(** 360 = m360 * 2^-44 and 180 = m360 * 2^-45 *)
Definition m360 : positive := 6333186975989760.

(** A key for the floats that are not NaN: the comparison of two floats is
    the lexicographic comparison of their keys. *)
Definition SFkey (x : spec_float) : option (Z * Z * Z) :=
  match x with
  | S754_nan => None
  | S754_infinity true => Some (-2, 0, 0)%Z
  | S754_infinity false => Some (2, 0, 0)%Z
  | S754_zero _ => Some (0, 0, 0)%Z
  | S754_finite true m e => Some (-1, - e, Zneg m)%Z
  | S754_finite false m e => Some (1, e, Zpos m)%Z
  end.

Definition key (x : float) : option (Z * Z * Z) := SFkey (Prim2SF x).

Definition key_le (a b : Z * Z * Z) : Prop :=
  let '(a1, a2, a3) := a in
  let '(b1, b2, b3) := b in
  (a1 < b1 \/ (a1 = b1 /\ (a2 < b2 \/ (a2 = b2 /\ a3 <= b3))))%Z.

Definition key_lt (a b : Z * Z * Z) : Prop :=
  let '(a1, a2, a3) := a in
  let '(b1, b2, b3) := b in
  (a1 < b1 \/ (a1 = b1 /\ (a2 < b2 \/ (a2 = b2 /\ a3 < b3))))%Z.

End FloatKey.

(* ================================================================== *)
(** * Reading records, and cases for the writers *)

Module RecordSpec.

Import CalculatorSpec.

(** The normalized longitude lies strictly between 70 and 120, or is NaN. *)
Definition mid_longitude (l : float) : Prop :=
  (l <=? 70)%float = false /\ (120 <=? l)%float = false.

(** The record holds, under a key, a value of which the embedded
    [np.array] makes a float64 vector. *)
Definition numeric_sequence (profile_data : dict) (k : string) (l : list float)
  : Prop :=
  exists v, dict_get profile_data k = Ok v /\ Np.array v = Np.Float64 l.

(** The record holds, under a key, a value the embedded seawater library
    takes as a number. *)
Definition number (profile_data : dict) (k : string) (x : float) : Prop :=
  exists v, dict_get profile_data k = Ok v /\ as_float v = Ok x.

(** What the calculator needs to derive anything: the three sequences are
    numeric vectors of one length, the coordinates are numbers, and at least
    3 samples are jointly valid. *)
Definition derivable (profile_data : dict) (temp sal pres : list float)
  (lat lon : float) : Prop :=
  numeric_sequence profile_data "temperature" temp
  /\ numeric_sequence profile_data "salinity" sal
  /\ numeric_sequence profile_data "pressure_levels" pres
  /\ number profile_data "latitude" lat
  /\ number profile_data "longitude" lon
  /\ List.length temp = List.length sal
  /\ List.length sal = List.length pres
  /\ (3 <= Np.sum (validity temp sal pres))%nat.

(** A record of floats: the three sequences are lists of floats and the two
    coordinates are floats, as in every record the extractor builds. *)
Definition float_record (profile_data : dict) (temp sal pres : list float)
  (lat lon : float) : Prop :=
  dict_get profile_data "temperature" = Ok (float_list temp)
  /\ dict_get profile_data "salinity" = Ok (float_list sal)
  /\ dict_get profile_data "pressure_levels" = Ok (float_list pres)
  /\ dict_get profile_data "latitude" = Ok (Scalar (SFloat lat))
  /\ dict_get profile_data "longitude" = Ok (Scalar (SFloat lon)).

(** The three sequences have one length, and at least 3 samples are jointly
    valid. *)
Definition aligned (temp sal pres : list float) : Prop :=
  List.length temp = List.length sal
  /\ List.length sal = List.length pres
  /\ (3 <= Np.sum (validity temp sal pres))%nat.

End RecordSpec.

Module Cases.

Local Open Scope float_scope.

(** The scenario file with a cycle number that is a fill value. *)
Definition nan_cycle_ds : Dataset :=
  {| PLATFORM_NUMBER := PLATFORM_NUMBER Samples.scenario_ds;
     CYCLE_NUMBER := Some [nan];
     LATITUDE := LATITUDE Samples.scenario_ds;
     LONGITUDE := LONGITUDE Samples.scenario_ds;
     JULD := JULD Samples.scenario_ds;
     PRES := PRES Samples.scenario_ds;
     TEMP := TEMP Samples.scenario_ds;
     PSAL := PSAL Samples.scenario_ds;
     TEMP_QC := TEMP_QC Samples.scenario_ds;
     PSAL_QC := PSAL_QC Samples.scenario_ds |}.

(** The scenario file with a latitude that is a fill value. *)
Definition nan_latitude_ds : Dataset :=
  {| PLATFORM_NUMBER := PLATFORM_NUMBER Samples.scenario_ds;
     CYCLE_NUMBER := CYCLE_NUMBER Samples.scenario_ds;
     LATITUDE := Some [nan];
     LONGITUDE := LONGITUDE Samples.scenario_ds;
     JULD := JULD Samples.scenario_ds;
     PRES := PRES Samples.scenario_ds;
     TEMP := TEMP Samples.scenario_ds;
     PSAL := PSAL Samples.scenario_ds;
     TEMP_QC := TEMP_QC Samples.scenario_ds;
     PSAL_QC := PSAL_QC Samples.scenario_ds |}.

(** The keys of the dictionary literal of [process_argo_file]. *)
Definition extracted_keys : list string :=
  ["platform_number"; "cycle_number"; "latitude"; "longitude";
   "measurement_date"; "pressure_levels"; "temperature"; "salinity";
   "temp_qc"; "psal_qc"]%string.

(** The metadata entries that [add_profile] converts with [float]. *)
Definition numeric_keys : list string :=
  ["latitude"; "longitude"; "max_depth"; "mixed_layer_depth"]%string.

(** The keys that [_save_to_database] reads by subscript. *)
Definition required_keys : list string :=
  ["platform_number"; "cycle_number"; "latitude"; "longitude";
   "measurement_date"; "pressure_levels"; "temperature"; "salinity"]%string.

(** A depth as the record stores it: the integer 0 of the fallback, or a
    float that is not NaN. *)
Definition stored_depth (v : value) : Prop :=
  v = Scalar (SInt 0) \/ exists x, v = Scalar (SFloat x) /\ is_nan x = false.

(** A small world for examples: the identifiers and metadata of the vector
    collection, and the rows of the relational store. *)
Record world : Type := {
  collection : list (string * dict);
  stored : list (list (string * Persist.kwarg))
}.

Definition empty_world : world := {| collection := []; stored := [] |}.

Definition sample_collection_add (embedding : list float) (document : string)
  (meta : dict) (id : string) : M world unit :=
  fun w => (Ok tt, {| collection := (id, meta) :: collection w;
                      stored := stored w |}).

Definition sample_add_commit_close (kwargs : list (string * Persist.kwarg))
  : M world unit :=
  fun w => (Ok tt, {| collection := collection w;
                      stored := kwargs :: stored w |}).

Definition sample_session_local : M world unit := fun w => (Ok tt, w).

Definition sample_str (v : value) : string :=
  match v with
  | Scalar (SStr s) => s
  | _ => ""%string
  end.

Definition sample_float_of_string (s : string) : result float :=
  Raise ValueError.

Definition sample_summary (profile_data : dict) : string :=
  "ARGO Float"%string.

Definition sample_encode (summary : string) : result (list float) :=
  Ok [0%float].

Definition sample_uuid4 (w : world) : value :=
  Scalar (SStr "0f8fad5b-d9cb-469f-a165-70867728950e").

End Cases.

(* ================================================================== *)
(** * Facts about binary64 arithmetic *)

Module FloatFacts.

Import FloatKey.
Local Open Scope float_scope.

(** The difference of a float with itself is a zero, or NaN when the float
    is infinite or NaN. *)
Lemma sub_diag_spec (x : float) :
  Prim2SF (x - x) = S754_zero false \/ Prim2SF (x - x) = S754_nan.
Proof.
  rewrite FloatAxioms.sub_spec. unfold SF64sub, SFsub.
  destruct (Prim2SF x) as [s|s| |s m e].
  - left. now destruct s.
  - right. now destruct s.
  - now right.
  - left. rewrite Z.sub_diag. reflexivity.
Qed.

(** No threshold that is a positive finite number is exceeded by the
    distance of a float to itself. *)
Lemma self_distance_below (threshold x : float) :
  (0 <? threshold) = true -> (threshold <? abs (x - x)) = false.
Proof.
  intros Hpos. rewrite FloatAxioms.ltb_spec in Hpos.
  rewrite FloatAxioms.ltb_spec, FloatAxioms.abs_spec.
  change (Prim2SF 0) with (S754_zero false) in Hpos.
  destruct (sub_diag_spec x) as [-> | ->]; simpl.
  - unfold SFltb in *. destruct (Prim2SF threshold) as [s|s| |s m e];
      simpl in *; try discriminate; try reflexivity;
      destruct s; simpl in *; try discriminate; reflexivity.
  - unfold SFltb. now destruct (Prim2SF threshold).
Qed.

Local Open Scope Z_scope.

Lemma digits2_bounds (p : positive) :
  2 ^ (Zpos (digits2_pos p) - 1) <= Zpos p < 2 ^ Zpos (digits2_pos p).
Proof.
  induction p as [p IH|p IH|]; simpl digits2_pos.
  - rewrite Pos2Z.inj_succ. replace (Z.succ (Zpos (digits2_pos p)) - 1)
      with (Z.succ (Zpos (digits2_pos p) - 1)) by lia.
    rewrite !Z.pow_succ_r by lia. lia.
  - rewrite Pos2Z.inj_succ. replace (Z.succ (Zpos (digits2_pos p)) - 1)
      with (Z.succ (Zpos (digits2_pos p) - 1)) by lia.
    rewrite !Z.pow_succ_r by lia. lia.
  - simpl. lia.
Qed.

Lemma digits2_unique (p : positive) (k : Z) :
  2 ^ (k - 1) <= Zpos p < 2 ^ k -> Zpos (digits2_pos p) = k.
Proof.
  intros [Hlo Hhi]. pose proof (digits2_bounds p) as [Dlo Dhi].
  assert (0 < k).
  { destruct (Z.ltb_spec 0 k); [assumption|].
    assert (2 ^ k <= 2 ^ 0) by (apply Z.pow_le_mono_r; lia). simpl in *. lia. }
  destruct (Z.lt_trichotomy (Zpos (digits2_pos p)) k) as [Hlt|[Heq|Hgt]]; [|assumption|].
  - assert (2 ^ Zpos (digits2_pos p) <= 2 ^ (k - 1)) by (apply Z.pow_le_mono_r; lia). lia.
  - assert (2 ^ k <= 2 ^ (Zpos (digits2_pos p) - 1)) by (apply Z.pow_le_mono_r; lia). lia.
Qed.

Lemma shr_1_m (mrs : shr_record) :
  0 <= shr_m mrs -> shr_m (shr_1 mrs) = shr_m mrs / 2.
Proof.
  destruct mrs as [m r s]. simpl. intros Hm.
  rewrite <- Z.div2_div.
  destruct m as [|[p|p|]|p]; try reflexivity. lia.
Qed.

Lemma iter_shr_1_m (p : positive) : forall mrs,
  0 <= shr_m mrs ->
  shr_m (SpecFloat.iter_pos shr_1 p mrs) = shr_m mrs / 2 ^ Zpos p.
Proof.
  induction p as [p IH|p IH|]; intros mrs Hm; simpl SpecFloat.iter_pos.
  - assert (H1 : 0 <= shr_m (shr_1 mrs)).
    { rewrite shr_1_m by assumption. apply Z.div_pos; lia. }
    assert (H2 : 0 <= shr_m (SpecFloat.iter_pos shr_1 p (shr_1 mrs))).
    { rewrite IH by assumption. apply Z.div_pos; [lia|]. apply Z.pow_pos_nonneg; lia. }
    rewrite IH by assumption. rewrite IH by assumption. rewrite shr_1_m by assumption.
    rewrite !Z.div_div by (try apply Z.pow_pos_nonneg; lia).
    f_equal. rewrite (Pos2Z.inj_xI p).
    replace (2 * Zpos p + 1) with (1 + Zpos p + Zpos p) by lia.
    rewrite !Z.pow_add_r by lia. change (2 ^ 1) with 2. lia.
  - assert (H2 : 0 <= shr_m (SpecFloat.iter_pos shr_1 p mrs)).
    { rewrite IH by assumption. apply Z.div_pos; [lia|]. apply Z.pow_pos_nonneg; lia. }
    rewrite IH by assumption. rewrite IH by assumption.
    rewrite !Z.div_div by (try apply Z.pow_pos_nonneg; lia).
    f_equal. rewrite (Pos2Z.inj_xO p).
    replace (2 * Zpos p) with (Zpos p + Zpos p) by lia.
    rewrite !Z.pow_add_r by lia. lia.
  - rewrite shr_1_m by assumption. reflexivity.
Qed.

Lemma shr_spec (mrs : shr_record) (e n : Z) :
  0 <= shr_m mrs -> 0 <= n ->
  snd (shr mrs e n) = e + n /\ shr_m (fst (shr mrs e n)) = shr_m mrs / 2 ^ n.
Proof.
  intros Hm Hn. destruct n as [|p|p]; simpl.
  - split; [lia|]. now rewrite Z.div_1_r.
  - split; [reflexivity|]. now apply iter_shr_1_m.
  - lia.
Qed.

Lemma round_nearest_even_bounds (m : Z) (l : location) :
  m <= round_nearest_even m l <= m + 1.
Proof.
  destruct l as [|[]]; simpl; try lia. destruct (Z.even m); lia.
Qed.

Lemma iter_xO (d m : positive) : Zpos (Pos.iter xO m d) = Zpos m * 2 ^ Zpos d.
Proof.
  induction d as [|d IH] using Pos.peano_ind.
  - simpl. lia.
  - rewrite Pos.iter_succ, Pos2Z.inj_xO, IH, Pos2Z.inj_succ, Z.pow_succ_r by lia. lia.
Qed.

Lemma shl_align_down (m : positive) (ex ex' : Z) :
  ex' < ex ->
  exists m', shl_align m ex ex' = (m', ex') /\ Zpos m' = Zpos m * 2 ^ (ex - ex').
Proof.
  intros H. unfold shl_align. destruct (ex' - ex) as [|p|p] eqn:E; try lia.
  eexists. split; [reflexivity|]. rewrite iter_xO. do 2 f_equal. lia.
Qed.

Lemma shl_align_up (m : positive) (ex ex' : Z) :
  ex <= ex' -> shl_align m ex ex' = (m, ex).
Proof.
  intros H. unfold shl_align. destruct (ex' - ex) as [|p|p] eqn:E; try reflexivity. lia.
Qed.

Lemma shr_fexp_exact (m e : Z) :
  0 <= m -> 0 <= fexp 53 1024 (Zdigits2 m + e) - e ->
  snd (shr_fexp 53 1024 m e loc_Exact) = fexp 53 1024 (Zdigits2 m + e)
  /\ shr_m (fst (shr_fexp 53 1024 m e loc_Exact))
     = m / 2 ^ (fexp 53 1024 (Zdigits2 m + e) - e).
Proof.
  intros Hm Hn. unfold shr_fexp. simpl shr_record_of_loc.
  destruct (shr_spec {| shr_m := m; shr_r := false; shr_s := false |} e
              (fexp 53 1024 (Zdigits2 m + e) - e) Hm Hn) as [H1 H2].
  split; [rewrite H1; lia|exact H2].
Qed.

Lemma fexp_normal (x : Z) : -1021 <= x -> fexp 53 1024 x = x - 53.
Proof. unfold fexp, emin. lia. Qed.

(** Rounding a positive integer of at least 53 digits, in the normal range:
    the mantissa is the truncated quotient or its successor, renormalized
    when the successor reaches 2^53. *)
Lemma binary_round_aux_normal (sx : bool) (s : positive) (e : Z) :
  let d := Zpos (digits2_pos s) in
  let q := Zpos s / 2 ^ (d - 53) in
  53 <= d -> -1021 <= d + e -> d + e <= 1023 ->
  exists m' e',
    binary_round_aux 53 1024 sx (Zpos s) e loc_Exact = S754_finite sx m' e'
    /\ ((e' = d + e - 53 /\ q <= Zpos m' <= q + 1 /\ Zpos m' < 2 ^ 53)
        \/ (e' = d + e - 52 /\ Zpos m' = 2 ^ 52 /\ q = 2 ^ 53 - 1)).
Proof.
  intros d q Hd Hlo Hhi.
  pose proof (digits2_bounds s) as [Dlo Dhi]. fold d in Dlo, Dhi.
  assert (Hf1 : fexp 53 1024 (Zdigits2 (Zpos s) + e) = d + e - 53)
    by (simpl Zdigits2; fold d; apply fexp_normal; lia).
  assert (Hq : 2 ^ 52 <= q < 2 ^ 53).
  { unfold q. assert (0 < 2 ^ (d - 53)) by (apply Z.pow_pos_nonneg; lia). split.
    - apply Z.div_le_lower_bound; [lia|].
      rewrite <- Z.pow_add_r by lia. replace (d - 53 + 52) with (d - 1) by lia. exact Dlo.
    - apply Z.div_lt_upper_bound; [lia|].
      rewrite <- Z.pow_add_r by lia. replace (d - 53 + 53) with d by lia. exact Dhi. }
  unfold binary_round_aux.
  destruct (shr_fexp_exact (Zpos s) e ltac:(lia) ltac:(rewrite Hf1; lia)) as [E1 M1].
  destruct (shr_fexp 53 1024 (Zpos s) e loc_Exact) as [mrs1 e1].
  cbn [fst snd] in E1, M1. rewrite Hf1 in E1, M1.
  replace (d + e - 53 - e) with (d - 53) in M1 by lia. fold q in M1.
  pose proof (round_nearest_even_bounds (shr_m mrs1) (loc_of_shr_record mrs1)) as Hr.
  set (r := round_nearest_even (shr_m mrs1) (loc_of_shr_record mrs1)) in *.
  rewrite M1 in Hr. subst e1.
  destruct r as [|rp|rp] eqn:Er; try lia.
  destruct (Z.eq_dec (Zpos rp) (2 ^ 53)) as [Htop|Hntop].
  - (* the successor reached 2^53: one more shift *)
    assert (Hdig : Zpos (digits2_pos rp) = 54).
    { apply digits2_unique. rewrite Htop. change (54 - 1) with 53. split; [lia|].
      apply Z.pow_lt_mono_r; lia. }
    assert (Hf2 : fexp 53 1024 (Zdigits2 (Zpos rp) + (d + e - 53)) = d + e - 52)
      by (simpl Zdigits2; rewrite Hdig, fexp_normal; lia).
    destruct (shr_fexp_exact (Zpos rp) (d + e - 53) ltac:(lia) ltac:(rewrite Hf2; lia))
      as [E2 M2].
    destruct (shr_fexp 53 1024 (Zpos rp) (d + e - 53) loc_Exact) as [mrs2 e2].
    cbn [fst snd] in E2, M2. rewrite Hf2 in E2, M2.
    replace (d + e - 52 - (d + e - 53)) with 1 in M2 by lia.
    rewrite Htop in M2. change (2 ^ 53 / 2 ^ 1) with (2 ^ 52) in M2.
    rewrite M2. change (2 ^ 52) with (Zpos 4503599627370496).
    subst e2. destruct (Z.leb_spec (d + e - 52) (1024 - 53)) as [_|Hbad]; [|lia].
    do 2 eexists. split; [reflexivity|]. right. split; [reflexivity|].
    split; [reflexivity|]. lia.
  - assert (Hdig : Zpos (digits2_pos rp) = 53).
    { apply digits2_unique. change (53 - 1) with 52. lia. }
    assert (Hf2 : fexp 53 1024 (Zdigits2 (Zpos rp) + (d + e - 53)) = d + e - 53)
      by (simpl Zdigits2; rewrite Hdig, fexp_normal; lia).
    destruct (shr_fexp_exact (Zpos rp) (d + e - 53) ltac:(lia) ltac:(rewrite Hf2; lia))
      as [E2 M2].
    destruct (shr_fexp 53 1024 (Zpos rp) (d + e - 53) loc_Exact) as [mrs2 e2].
    cbn [fst snd] in E2, M2. rewrite Hf2 in E2, M2.
    replace (d + e - 53 - (d + e - 53)) with 0 in M2 by lia.
    rewrite Z.div_1_r in M2. rewrite M2. subst e2.
    destruct (Z.leb_spec (d + e - 53) (1024 - 53)) as [_|Hbad]; [|lia].
    do 2 eexists. split; [reflexivity|]. left. split; [reflexivity|]. lia.
Qed.

Lemma bounded_inv (m : positive) (e : Z) :
  bounded 53 1024 m e = true -> Zpos m < 2 ^ 53 /\ -1074 <= e.
Proof.
  unfold bounded, canonical_mantissa, fexp, emin. rewrite andb_true_iff, Z.eqb_eq.
  intros [Hc _]. pose proof (digits2_bounds m) as [_ Dhi].
  assert (Zpos (digits2_pos m) <= 53) by lia.
  assert (2 ^ Zpos (digits2_pos m) <= 2 ^ 53) by (apply Z.pow_le_mono_r; lia).
  lia.
Qed.

(** Adding 360 to a negative float no smaller than -180: the sum is a
    positive float no larger than 360. *)
Lemma SFadd_360 (m : positive) (e : Z) :
  bounded 53 1024 m e = true ->
  e < -45 \/ (e = -45 /\ Zpos m <= Zpos m360) ->
  exists m' e',
    SFadd 53 1024 (S754_finite true m e) (S754_finite false m360 (-44))
    = S754_finite false m' e'
    /\ (e' < -44 \/ (e' = -44 /\ Zpos m' <= Zpos m360)).
Proof.
  intros Hb Hle. destruct (bounded_inv m e Hb) as [Hm He].
  unfold SFadd. replace (Z.min e (-44)) with e by lia.
  rewrite (shl_align_up m e e) by lia.
  destruct (shl_align_down m360 (-44) e ltac:(lia)) as [m2 [-> Hm2]].
  cbn [fst cond_Zopp].
  set (P := 2 ^ (-45 - e)).
  assert (HP : 0 < P) by (apply Z.pow_pos_nonneg; lia).
  assert (HP2 : 2 ^ (-44 - e) = 2 * P).
  { unfold P. replace (-44 - e) with (Z.succ (-45 - e)) by lia.
    rewrite Z.pow_succ_r by lia. reflexivity. }
  rewrite HP2 in Hm2.
  assert (HmP : Zpos m <= Zpos m360 * P).
  { destruct Hle as [Hlt|[Heq Hle]].
    - assert (2 ^ 1 <= P) by (apply Z.pow_le_mono_r; lia).
      change (2 ^ 1) with 2 in *. change (2 ^ 53) with 9007199254740992 in Hm.
      unfold m360. lia.
    - subst e. change P with 1. lia. }
  destruct (- Zpos m + Zpos m2) as [|s|s] eqn:ES; try lia.
  unfold binary_normalize, binary_round.
  assert (Hs : Zpos m360 * P <= Zpos s < 2 * Zpos m360 * P) by lia.
  pose proof (digits2_bounds s) as [Dlo Dhi].
  set (d := Zpos (digits2_pos s)) in *.
  assert (H52 : 2 ^ (52 - 45 - e) = 2 ^ 52 * P)
    by (unfold P; rewrite <- Z.pow_add_r by lia; f_equal; lia).
  assert (H54 : 2 ^ (54 - 45 - e) = 2 ^ 54 * P)
    by (unfold P; rewrite <- Z.pow_add_r by lia; f_equal; lia).
  change (2 ^ 52) with 4503599627370496 in H52.
  change (2 ^ 54) with 18014398509481984 in H54.
  assert (Hd : 53 - 45 - e <= d <= 54 - 45 - e).
  { unfold m360 in Hs. split.
    - destruct (Z.le_gt_cases (53 - 45 - e) d) as [|Hlt]; [assumption|].
      assert (2 ^ d <= 2 ^ (52 - 45 - e)) by (apply Z.pow_le_mono_r; lia). lia.
    - destruct (Z.le_gt_cases d (54 - 45 - e)) as [|Hgt]; [assumption|].
      assert (2 ^ (54 - 45 - e) <= 2 ^ (d - 1)) by (apply Z.pow_le_mono_r; lia). lia. }
  rewrite shl_align_up by (fold d; rewrite fexp_normal; lia).
  destruct (binary_round_aux_normal false s e) as [m' [e' [-> Hres]]];
    fold d; try lia.
  exists m', e'. split; [reflexivity|]. fold d in Hres.
  destruct Hres as [[He' [Hq Hlt]]|[He' [Hm' Hq]]].
  - destruct (Z.eq_dec d (53 - 45 - e)) as [Hd1|Hd1]; [left; lia|].
    right. split; [lia|].
    assert (Hd2 : d - 53 = Z.succ (-45 - e)) by lia.
    rewrite Hd2, Z.pow_succ_r in Hq by lia. fold P in Hq.
    assert (Zpos s / (2 * P) < Zpos m360)
      by (apply Z.div_lt_upper_bound; lia).
    lia.
  - destruct (Z.eq_dec d (53 - 45 - e)) as [Hd1|Hd1].
    + right. split; [lia|]. rewrite Hm'. unfold m360.
      change (2 ^ 52) with 4503599627370496. lia.
    + exfalso.
      assert (Hd2 : d - 53 = Z.succ (-45 - e)) by lia.
      rewrite Hd2, Z.pow_succ_r in Hq by lia. fold P in Hq.
      assert (Zpos s / (2 * P) < Zpos m360)
        by (apply Z.div_lt_upper_bound; lia).
      change (2 ^ 53) with 9007199254740992 in Hq. unfold m360 in *. lia.
Qed.

Local Close Scope Z_scope.
Local Open Scope float_scope.

Ltac key_case :=
  split;
  [ let Hc := fresh "Hc" in
    intros Hc; try discriminate Hc; do 2 eexists;
    repeat split; simpl; lia
  | let a := fresh "a" in
    let b := fresh "b" in
    let Ha := fresh "Ha" in
    let Hb := fresh "Hb" in
    let Hab := fresh "Hab" in
    intros [a [b [Ha [Hb Hab]]]];
    try discriminate Ha; try discriminate Hb; try reflexivity;
    injection Ha as <-; injection Hb as <-; simpl in Hab; lia ].

Lemma SFleb_key (x y : spec_float) :
  SFleb x y = true <->
  exists a b, SFkey x = Some a /\ SFkey y = Some b /\ key_le a b.
Proof.
  unfold SFleb.
  destruct x as [sx|sx| |sx mx ex], y as [sy|sy| |sy my ey]; simpl;
    try destruct sx; try destruct sy; simpl; try key_case;
    rewrite Pos.compare_cont_spec; simpl;
    destruct (Z.compare_spec ex ey), (Pos.compare_spec mx my); simpl; key_case.
Qed.

Lemma SFltb_key (x y : spec_float) :
  SFltb x y = true <->
  exists a b, SFkey x = Some a /\ SFkey y = Some b /\ key_lt a b.
Proof.
  unfold SFltb.
  destruct x as [sx|sx| |sx mx ex], y as [sy|sy| |sy my ey]; simpl;
    try destruct sx; try destruct sy; simpl; try key_case;
    rewrite Pos.compare_cont_spec; simpl;
    destruct (Z.compare_spec ex ey), (Pos.compare_spec mx my); simpl; key_case.
Qed.

Lemma leb_key (x y : float) :
  (x <=? y) = true <->
  exists a b, key x = Some a /\ key y = Some b /\ key_le a b.
Proof. rewrite leb_spec. apply SFleb_key. Qed.

Lemma ltb_key (x y : float) :
  (x <? y) = true <->
  exists a b, key x = Some a /\ key y = Some b /\ key_lt a b.
Proof. rewrite ltb_spec. apply SFltb_key. Qed.

Lemma key_not_nan (x : float) :
  is_nan x = false <-> exists a, key x = Some a.
Proof.
  unfold is_nan, key. rewrite FloatAxioms.eqb_spec. unfold SFeqb.
  destruct (Prim2SF x) as [s|s| |s m e]; simpl.
  - split; [eauto|reflexivity].
  - destruct s; (split; [eauto|reflexivity]).
  - split; [discriminate|intros [a Ha]; discriminate].
  - destruct s; simpl;
      rewrite Z.compare_refl, Pos.compare_cont_spec, Pos.compare_refl;
      (split; [eauto|reflexivity]).
Qed.

Lemma leb_trans (x y z : float) :
  (x <=? y) = true -> (y <=? z) = true -> (x <=? z) = true.
Proof.
  rewrite !leb_key.
  intros [a [b [Ha [Hb Hab]]]] [b' [c [Hb' [Hc Hbc]]]].
  rewrite Hb in Hb'. injection Hb' as <-.
  exists a, c. repeat split; trivial.
  destruct a as [[a1 a2] a3], b as [[b1 b2] b3], c as [[c1 c2] c3].
  simpl in *. lia.
Qed.

Lemma leb_total (x y : float) :
  is_nan x = false -> is_nan y = false ->
  (x <? y) = false -> (y <=? x) = true.
Proof.
  rewrite !key_not_nan. intros [a Ha] [b Hb] Hlt.
  assert (D : key_lt a b \/ key_le b a)
    by (destruct a as [[a1 a2] a3], b as [[b1 b2] b3]; simpl; lia).
  destruct D as [D|D].
  - assert (Ht : (x <? y) = true) by (apply ltb_key; eauto). congruence.
  - apply leb_key; eauto.
Qed.

Lemma ltb_leb (x y : float) : (x <? y) = true -> (x <=? y) = true.
Proof.
  rewrite ltb_key, leb_key. intros [a [b [Ha [Hb Hab]]]].
  exists a, b. repeat split; trivial.
  destruct a as [[a1 a2] a3], b as [[b1 b2] b3]. simpl in *. lia.
Qed.

Lemma leb_not_nan (x y : float) :
  (x <=? y) = true -> is_nan x = false /\ is_nan y = false.
Proof.
  rewrite leb_key, !key_not_nan. intros [a [b [Ha [Hb _]]]]. eauto.
Qed.

Lemma leb_refl (x : float) : is_nan x = false -> (x <=? x) = true.
Proof.
  rewrite key_not_nan, leb_key. intros [a Ha]. exists a, a.
  repeat split; trivial. destruct a as [[a1 a2] a3]. simpl. lia.
Qed.

Lemma Prim2SF_360 : Prim2SF 360 = S754_finite false m360 (-44).
Proof. vm_compute. reflexivity. Qed.

Lemma Prim2SF_neg180 : Prim2SF (-180) = S754_finite true m360 (-45).
Proof. vm_compute. reflexivity. Qed.

Lemma Prim2SF_0 : Prim2SF 0 = S754_zero false.
Proof. vm_compute. reflexivity. Qed.

(** Replaces a closed float expression by the value a lemma gives it,
    without asking the unifier to evaluate it. *)
Ltac name_const lemma :=
  match type of lemma with
  | ?c = _ =>
      let E := fresh "E" in
      let k := fresh "k" in
      let Hk := fresh "Hk" in
      pose proof lemma as E; remember c as k eqn:Hk; clear Hk; subst k
  end.

(** Normalizing a negative longitude no smaller than -180 lands in
    [0, 360], rounding included. *)
Lemma add_360_bounds (lon : float) :
  (-180 <=? lon) = true -> (lon <? 0) = true ->
  (0 <=? lon + 360) = true /\ (lon + 360 <=? 360) = true.
Proof.
  intros Hlo Hneg.
  rewrite FloatAxioms.leb_spec in Hlo. rewrite FloatAxioms.ltb_spec in Hneg.
  rewrite !FloatAxioms.leb_spec, FloatAxioms.add_spec.
  pose proof (Prim2SF_valid lon) as Hv.
  name_const Prim2SF_neg180. name_const Prim2SF_0. name_const Prim2SF_360.
  unfold SF64add.
  destruct (Prim2SF lon) as [s|s| |s m e];
    try (try destruct s; cbv beta iota delta [SFleb SFltb SFcompare] in Hlo, Hneg; discriminate).
  destruct s; [|discriminate].
  cbn [valid_binary] in Hv.
  assert (Hle : (e < -45 \/ (e = -45 /\ Zpos m <= Zpos m360))%Z).
  { cbv beta iota delta [SFleb SFcompare] in Hlo.
    rewrite Pos.compare_cont_spec in Hlo. cbn [Pos.switch_Eq] in Hlo.
    destruct (Z.compare_spec (-45) e) as [He|He|He]; try discriminate; [|lia].
    rewrite (Pos2Z.inj_compare m360 m) in Hlo.
    destruct (Z.compare_spec (Zpos m360) (Zpos m)) as [Hm|Hm|Hm]; cbn in Hlo;
      try discriminate Hlo; lia. }
  unfold prec, emax in *.
  destruct (SFadd_360 m e Hv Hle) as [m' [e' [Hadd Hres]]].
  rewrite Hadd.
  split; [reflexivity|].
  cbv beta iota delta [SFleb SFcompare].
  rewrite Pos.compare_cont_spec. cbn [Pos.switch_Eq].
  destruct (Z.compare_spec e' (-44)) as [He|He|He]; try reflexivity;
    [|exfalso; lia].
  rewrite (Pos2Z.inj_compare m' m360).
  destruct (Z.compare_spec (Zpos m') (Zpos m360)) as [Hm|Hm|Hm]; try reflexivity.
  exfalso. lia.
Qed.

End FloatFacts.

(* ================================================================== *)
(** * Region classifier *)

Module RegionFacts.

Import RegionSpec.
Local Open Scope float_scope.

Lemma Indian_test lat lon :
  Indian lat lon <->
  ((-60 <=? lat) && (lat <=? 30) && (20 <=? lon) && (lon <=? 120))%bool = true.
Proof.
  unfold Indian, within. rewrite !andb_true_iff. tauto.
Qed.

Lemma Pacific_test lon :
  Pacific lon <->
  (((120 <=? lon) && (lon <=? 290)) || ((290 <=? lon) && (lon <=? 360))
   || ((0 <=? lon) && (lon <=? 70)))%bool = true.
Proof.
  unfold Pacific, within. rewrite !orb_true_iff, !andb_true_iff. tauto.
Qed.

Lemma Atlantic_test lon :
  Atlantic lon <-> ((290 <=? lon) || (lon <=? 20))%bool = true.
Proof.
  unfold Atlantic. rewrite orb_true_iff. tauto.
Qed.

Ltac decide_rule H lemma :=
  match type of H with
  | ?b = true => apply lemma in H
  | ?b = false =>
      let N := fresh "N" in
      assert (N : b <> true) by (rewrite H; discriminate);
      rewrite <- lemma in N; clear H
  end.

(** The classifier computes the label the cascade assigns to the normalized
    longitude. *)
Lemma classifier_follows_cascade lat lon :
  cascade lat (normalize lon) (_determine_ocean_region lat lon).
Proof.
  unfold _determine_ocean_region.
  change (if lon <? 0 then lon + 360 else lon) with (normalize lon).
  generalize (normalize lon); intros l.
  destruct ((-60 <=? lat) && (lat <=? 30) && (20 <=? l) && (l <=? 120))%bool
    eqn:HI; decide_rule HI (Indian_test lat l).
  { now apply rule_Indian. }
  destruct (((120 <=? l) && (l <=? 290)) || ((290 <=? l) && (l <=? 360))
            || ((0 <=? l) && (l <=? 70)))%bool
    eqn:HP; decide_rule HP (Pacific_test l).
  { now apply rule_Pacific. }
  destruct ((290 <=? l) || (l <=? 20))%bool
    eqn:HA; decide_rule HA (Atlantic_test l).
  { now apply rule_Atlantic. }
  destruct (lat <? -60) eqn:HS.
  { now apply rule_Southern. }
  assert (NS : ~ Southern lat) by (unfold Southern; congruence).
  destruct (66 <? lat) eqn:HN.
  { now apply rule_Arctic. }
  apply rule_Unknown; trivial. unfold Arctic; congruence.
Qed.

(** The cascade assigns at most one label. *)
Lemma cascade_functional lat lon r r' :
  cascade lat lon r -> cascade lat lon r' -> r = r'.
Proof.
  intros H H'. destruct H; destruct H'; try reflexivity; contradiction.
Qed.

(** C1: on every latitude in [-90,90] and longitude in [-180,180] the
    classifier returns the label that the rule cascade Indian, Pacific,
    Atlantic, Southern, Arctic, Unknown, tried in that order on the
    longitude normalized by adding 360 when negative, assigns; no other
    label satisfies the cascade, and the label is one of the six. *)
Theorem classifier_total_deterministic (lat lon : float) :
  within (-90) 90 lat ->
  within (-180) 180 lon ->
  cascade lat (normalize lon) (_determine_ocean_region lat lon)
  /\ (forall r, cascade lat (normalize lon) r ->
                r = _determine_ocean_region lat lon)
  /\ In (_determine_ocean_region lat lon) labels.
Proof.
  intros _ _.
  pose proof (classifier_follows_cascade lat lon) as H.
  split; [exact H|]. split.
  - intros r Hr. exact (cascade_functional _ _ _ _ Hr H).
  - destruct H; simpl; tauto.
Qed.

Lemma classifier_total_deterministic_witness :
  cascade 2.5 (normalize 87.3) (_determine_ocean_region 2.5 87.3)
  /\ (forall r, cascade 2.5 (normalize 87.3) r ->
                r = _determine_ocean_region 2.5 87.3)
  /\ In (_determine_ocean_region 2.5 87.3) labels.
Proof.
  apply (classifier_total_deterministic 2.5 87.3);
    split; vm_compute; reflexivity.
Defined.

(** On the valid longitudes the normalized longitude lies in [0, 360]. *)
Lemma normalize_range (lon : float) :
  within (-180) 180 lon -> within 0 360 (normalize lon).
Proof.
  intros [Hlo Hhi]. unfold normalize.
  destruct (lon <? 0) eqn:Hneg.
  - exact (FloatFacts.add_360_bounds lon Hlo Hneg).
  - split.
    + apply FloatFacts.leb_total; trivial.
      apply (FloatFacts.leb_not_nan _ _ Hhi).
    + apply (FloatFacts.leb_trans lon 180 360); trivial.
Qed.

(** C10: on every latitude in [-90,90] and longitude in [-180,180], a
    normalized longitude that meets the Atlantic condition already meets
    the Pacific condition, which is tried earlier, so the classifier never
    returns "Atlantic Ocean". *)
Theorem atlantic_never_returned (lat lon : float) :
  within (-90) 90 lat ->
  within (-180) 180 lon ->
  (Atlantic (normalize lon) -> Pacific (normalize lon))
  /\ _determine_ocean_region lat lon <> "Atlantic Ocean"%string.
Proof.
  intros _ Hlon.
  destruct (normalize_range lon Hlon) as [H0 H360].
  assert (HAP : Atlantic (normalize lon) -> Pacific (normalize lon)).
  { intros [H290|H20].
    - right; left. split; assumption.
    - right; right. split; [assumption|].
      apply (FloatFacts.leb_trans _ 20 70); trivial. }
  split; [exact HAP|].
  intros Heq. pose proof (classifier_follows_cascade lat lon) as Hc.
  rewrite Heq in Hc. inversion Hc as [| |HnI HnP HA| | |]. auto.
Qed.

Lemma atlantic_never_returned_witness :
  (Atlantic (normalize (-30)) -> Pacific (normalize (-30)))
  /\ _determine_ocean_region 45 (-30) <> "Atlantic Ocean"%string.
Proof.
  apply (atlantic_never_returned 45 (-30)); split; vm_compute; reflexivity.
Defined.

End RegionFacts.

(* ================================================================== *)
(** * Mixed-layer depth *)

Module MldFacts.

Import MldSpec.
Local Open Scope float_scope.

Lemma mld_scan_first threshold surface rows i :
  (i < List.length rows)%nat ->
  departs threshold surface (fst (nth i rows (0, 0))) = true ->
  (forall j, (j < i)%nat ->
             departs threshold surface (fst (nth j rows (0, 0))) = false) ->
  mld_scan surface threshold rows = Some (snd (nth i rows (0, 0))).
Proof.
  revert i. induction rows as [|[temp depth] rest IH]; intros i Hi Hd Hb.
  - simpl in Hi. lia.
  - simpl. destruct i as [|i].
    + simpl in Hd. unfold departs in Hd. now rewrite Hd.
    + pose proof (Hb 0%nat ltac:(lia)) as H0. simpl in H0.
      unfold departs in H0. rewrite H0.
      apply IH.
      * simpl in Hi. lia.
      * exact Hd.
      * intros j Hj. apply (Hb (S j)). lia.
Qed.

Lemma mld_scan_none threshold surface rows :
  (forall j, (j < List.length rows)%nat ->
             departs threshold surface (fst (nth j rows (0, 0))) = false) ->
  mld_scan surface threshold rows = None.
Proof.
  induction rows as [|[temp depth] rest IH]; intros Hb.
  - reflexivity.
  - simpl. pose proof (Hb 0%nat ltac:(simpl; lia)) as H0. simpl in H0.
    unfold departs in H0. rewrite H0.
    apply IH. intros j Hj. apply (Hb (S j)). simpl. lia.
Qed.

Lemma nth_rows (temperature pressure : list float) i :
  List.length temperature = List.length pressure ->
  nth i (combine temperature pressure) (0, 0)
  = (nth i temperature 0, nth i pressure 0).
Proof.
  intros Hlen. now apply combine_nth.
Qed.

(** In a sequence in increasing order the last element is the greatest:
    with the levels in increasing-pressure order, the last pressure sample
    is the deepest. *)
Lemma last_is_deepest (pressure : list float) :
  (forall i, (S i < List.length pressure)%nat ->
             (nth i pressure 0 <=? nth (S i) pressure 0) = true) ->
  (2 <= List.length pressure)%nat ->
  forall y, In y pressure -> (y <=? last pressure 0) = true.
Proof.
  induction pressure as [|a [|b r] IH]; intros Hs Hl y Hy; simpl in Hl; try lia.
  assert (Hab : (a <=? b) = true) by (apply (Hs 0%nat); simpl; lia).
  assert (Hb : forall z, In z (b :: r) -> (z <=? last (b :: r) 0) = true).
  { destruct r as [|c r'].
    - intros z [<-|[]]. simpl. apply FloatFacts.leb_refl.
      apply (FloatFacts.leb_not_nan _ _ Hab).
    - apply IH; [|simpl; lia].
      intros i Hi. apply (Hs (S i)). simpl in *. lia. }
  change (last (a :: b :: r) 0) with (last (b :: r) 0).
  destruct Hy as [<-|Hy]; [|now apply Hb].
  apply (FloatFacts.leb_trans _ b); [exact Hab|]. apply Hb. now left.
Qed.

Lemma last_in (pressure : list float) :
  pressure <> [] -> In (last pressure 0) pressure.
Proof.
  induction pressure as [|a [|b r] IH]; intros Hne.
  - contradiction Hne; reflexivity.
  - now left.
  - right. change (last (a :: b :: r) 0) with (last (b :: r) 0).
    apply IH. discriminate.
Qed.

(** C2, as amended: for temperature and pressure sequences of equal length,
    the mixed-layer depth is 0 when there are fewer than 2 samples;
    otherwise it is the pressure at the first index whose temperature
    departs from the surface temperature by more than 0.2, and the last
    pressure sample when no index does, in particular when the temperature
    is the same at all levels.  The last sample is the deepest one when the
    levels are in increasing-pressure order: nothing sorts them. *)
Theorem calculate_mld_cases (temperature pressure : list float) :
  List.length temperature = List.length pressure ->
  let mld := _calculate_mld temperature pressure 0.2 in
  let T i := nth i temperature 0 in
  let P i := nth i pressure 0 in
  let far i := (0.2 <? abs (T i - T 0%nat)) = true in
  ((List.length temperature < 2)%nat -> mld = 0)
  /\ ((2 <= List.length temperature)%nat ->
      (forall i, (i < List.length temperature)%nat -> far i ->
                 (forall j, (j < i)%nat -> ~ far j) -> mld = P i)
      /\ ((forall i, (i < List.length temperature)%nat -> ~ far i) ->
          mld = last pressure 0)
      /\ ((forall i, (i < List.length temperature)%nat -> T i = T 0%nat) ->
          mld = last pressure 0)
      /\ ((forall i, (i < List.length temperature)%nat -> ~ far i) ->
          increasing pressure ->
          CalculatorSpec.is_max mld pressure)).
Proof.
  intros Hlen mld T P far. subst mld. unfold _calculate_mld.
  assert (Hrows : List.length (combine temperature pressure)
                  = List.length temperature)
    by (rewrite length_combine; lia).
  assert (Hnone : (2 <= List.length temperature)%nat ->
                  (forall i, (i < List.length temperature)%nat -> ~ far i) ->
                  (if Nat.ltb (List.length temperature) 2 then 0
                   else match mld_scan (nth 0 temperature 0) 0.2
                                (combine temperature pressure) with
                        | Some depth => depth
                        | None => if Nat.ltb 0 (List.length pressure)
                                  then last pressure 0 else 0
                        end) = last pressure 0).
  { intros H2 Hfar.
    destruct (Nat.ltb_spec (List.length temperature) 2) as [Hlt|_]; [lia|].
    rewrite mld_scan_none.
    - destruct (Nat.ltb_spec 0 (List.length pressure)) as [_|Hp]; [reflexivity|lia].
    - intros j Hj. rewrite Hrows in Hj. rewrite nth_rows by exact Hlen. simpl.
      specialize (Hfar j Hj). unfold far, T in Hfar. unfold departs.
      now destruct (0.2 <? abs (nth j temperature 0 - nth 0 temperature 0)). }
  split.
  - intros Hshort.
    destruct (Nat.ltb_spec (List.length temperature) 2) as [_|Hge]; [reflexivity|lia].
  - intros H2. split; [|split; [|split]].
    + intros i Hi Hfar Hbefore.
      destruct (Nat.ltb_spec (List.length temperature) 2) as [Hlt|_]; [lia|].
      rewrite (mld_scan_first _ _ _ i).
      * rewrite nth_rows by exact Hlen. reflexivity.
      * rewrite Hrows. exact Hi.
      * rewrite nth_rows by exact Hlen. exact Hfar.
      * intros j Hj. rewrite nth_rows by exact Hlen. simpl.
        specialize (Hbefore j Hj). unfold far, T in Hbefore. unfold departs.
        now destruct (0.2 <? abs (nth j temperature 0 - nth 0 temperature 0)).
    + now apply Hnone.
    + intros Hconst. apply Hnone; [exact H2|].
      intros i Hi. unfold far. rewrite (Hconst i Hi).
      rewrite FloatFacts.self_distance_below; [discriminate|reflexivity].
    + intros Hfar Hinc. rewrite (Hnone H2 Hfar). split.
      * apply last_in. intros E. rewrite E in Hlen. simpl in Hlen. lia.
      * apply last_is_deepest; [exact Hinc | lia].
Qed.

Lemma calculate_mld_cases_witness :
  (let temperature := [28.0; 27.9; 26.0; 20.0] in
   let pressure := [2.5; 10; 20; 50] in
   _calculate_mld temperature pressure 0.2 = nth 2 pressure 0)
  /\ (let temperature := [10; 10; 10] in
      let pressure := [5; 10; 20] in
      CalculatorSpec.is_max (_calculate_mld temperature pressure 0.2) pressure).
Proof.
  split.
  - intros temperature pressure.
    refine (proj1 (proj2 (calculate_mld_cases temperature pressure eq_refl)
                         ltac:(simpl; lia)) 2%nat ltac:(simpl; lia) eq_refl _).
    intros j Hj.
    destruct j as [|[|j]];
      [vm_compute; discriminate|vm_compute; discriminate|lia].
  - intros temperature pressure.
    refine (proj2 (proj2 (proj2 (proj2 (calculate_mld_cases temperature
                                          pressure eq_refl)
                                   ltac:(simpl; lia)))) _ _).
    + intros i Hi.
      destruct i as [|[|[|i]]]; try (vm_compute; discriminate).
      simpl in Hi. lia.
    + intros i Hi.
      destruct i as [|[|i]]; try reflexivity. simpl in Hi. lia.
Defined.

(** C2, the claim as stated fails: with the same temperature at all levels
    and the levels not in increasing-pressure order, no index departs and
    the mixed-layer depth is the last pressure sample, 10, although the
    deepest pressure sample is 50. *)
Lemma calculate_mld_counterexample :
  let temperature := [10; 10; 10; 10] in
  let pressure := [50; 2.5; 20; 10] in
  List.length temperature = List.length pressure
  /\ forallb (fun t => negb (departs 0.2 (nth 0 temperature 0) t)) temperature
     = true
  /\ _calculate_mld temperature pressure 0.2 = 10
  /\ In 50 pressure
  /\ (50 <=? _calculate_mld temperature pressure 0.2) = false.
Proof.
  vm_compute. repeat split. left. reflexivity.
Qed.

End MldFacts.

(* ================================================================== *)
(** * The scenario of the specification *)

Module ScenarioFacts.

Local Open Scope float_scope.
Local Open Scope string_scope.

(** C3: for the profile with pressure [2.5,10,20,50], temperature
    [28.0,27.9,26.0,20.0], salinity [34.2,34.3,34.8,35.1], latitude 2.5 and
    longitude 87.3, whatever the seawater conversions compute, the
    calculator yields mixed_layer_depth 20 and max_depth 50, the classifier
    yields "Indian Ocean", and the record [process_argo_file] builds from a
    dataset holding that profile carries these three fields. *)
Theorem scenario_pipeline
  (SA_from_SP : float -> float -> float -> float -> float)
  (CT_from_t : float -> float -> float -> float)
  (sigma0 : float -> float -> float)
  (epoch_plus_days : float -> result scalar) (now : scalar) :
  (exists SA CT sigma,
     _calculate_derived_parameters SA_from_SP CT_from_t sigma0 Samples.scenario
     = Ok [("absolute_salinity", SA);
           ("conservative_temperature", CT);
           ("potential_density", sigma);
           ("mixed_layer_depth", Scalar (SFloat 20));
           ("max_depth", Scalar (SFloat 50))])
  /\ _determine_ocean_region 2.5 87.3 = "Indian Ocean"
  /\ (exists record,
        process_dataset SA_from_SP CT_from_t sigma0 epoch_plus_days now
          Samples.scenario_ds = Ok record
        /\ dict_get record "ocean_region" = Ok (Scalar (SStr "Indian Ocean"))
        /\ dict_get record "mixed_layer_depth" = Ok (Scalar (SFloat 20))
        /\ dict_get record "max_depth" = Ok (Scalar (SFloat 50))).
Proof.
  split; [|split].
  - do 3 eexists. vm_compute. reflexivity.
  - vm_compute. reflexivity.
  - eexists. split; [vm_compute; reflexivity|].
    repeat split; vm_compute; reflexivity.
Qed.

End ScenarioFacts.

(* ================================================================== *)
(** * Profile sanitizer *)

Module SanitizerFacts.

Import SanitizerSpec.

Lemma clean_scalar_no_nan (x : scalar) : scalar_is_nan (clean_scalar x) = false.
Proof.
  unfold clean_scalar. destruct x; simpl; trivial.
  destruct (is_nan x) eqn:E; simpl; trivial.
Qed.

Lemma clean_scalar_idempotent (x : scalar) :
  clean_scalar (clean_scalar x) = clean_scalar x.
Proof.
  unfold clean_scalar. destruct x; simpl; trivial.
  destruct (is_nan x) eqn:E; simpl; trivial. now rewrite E.
Qed.

(** A NaN becomes [None]; a value that is present is kept. *)
Lemma clean_scalar_cases (x : scalar) :
  (scalar_is_nan x = true -> clean_scalar x = SNone)
  /\ (isna x = false -> clean_scalar x = x).
Proof.
  unfold clean_scalar. split.
  - destruct x; simpl; try discriminate. now intros ->.
  - now intros ->.
Qed.

Lemma clean_value_spec (v : value) :
  clean_value v
  = match v with
    | Scalar s => Scalar (clean_scalar s)
    | PyList l => PyList (map clean_scalar l)
    end.
Proof.
  destruct v as [s|l]; simpl; trivial.
  unfold clean_scalar. now destruct (isna s).
Qed.

Lemma clean_value_no_nan (v : value) : has_nan (clean_value v) = false.
Proof.
  rewrite clean_value_spec. destruct v as [s|l]; simpl.
  - apply clean_scalar_no_nan.
  - induction l as [|x l IH]; simpl; trivial.
    now rewrite clean_scalar_no_nan.
Qed.

Lemma clean_value_idempotent (v : value) :
  clean_value (clean_value v) = clean_value v.
Proof.
  rewrite !clean_value_spec. destruct v as [s|l].
  - now rewrite clean_scalar_idempotent.
  - rewrite map_map. f_equal. apply map_ext. apply clean_scalar_idempotent.
Qed.

(** C6: one pass of the sanitizer keeps the keys of the record, replaces
    every NaN scalar and every NaN element of a sequence by [None] (keeping
    every value that is present), leaves no NaN in the output, and a second
    pass changes nothing. *)
Theorem sanitizer_nan_free_idempotent (profile_data : dict) :
  keys (_clean_profile_data profile_data) = keys profile_data
  /\ (forall k v, In (k, v) profile_data ->
        In (k, match v with
               | Scalar s => Scalar (clean_scalar s)
               | PyList l => PyList (map clean_scalar l)
               end) (_clean_profile_data profile_data))
  /\ (forall x, (scalar_is_nan x = true -> clean_scalar x = SNone)
                /\ (isna x = false -> clean_scalar x = x))
  /\ (forall k v, In (k, v) (_clean_profile_data profile_data) ->
        has_nan v = false)
  /\ _clean_profile_data (_clean_profile_data profile_data)
     = _clean_profile_data profile_data.
Proof.
  unfold _clean_profile_data, keys. repeat split.
  - rewrite map_map. reflexivity.
  - intros k v Hin. rewrite <- clean_value_spec.
    apply (in_map (fun kv => (fst kv, clean_value (snd kv))) _ _ Hin).
  - apply clean_scalar_cases.
  - apply clean_scalar_cases.
  - intros k v Hin. apply in_map_iff in Hin.
    destruct Hin as [[k' v'] [Heq _]]. injection Heq as _ <-.
    apply clean_value_no_nan.
  - rewrite map_map. apply map_ext. intros [k v]. simpl.
    now rewrite clean_value_idempotent.
Qed.

End SanitizerFacts.

(* ================================================================== *)
(** * Derived-parameter calculator *)

Module CalculatorFacts.

Import CalculatorSpec.
Local Open Scope string_scope.
Local Open Scope float_scope.

Lemma floats_of_floats (l : list float) : Np.floats_of (map SFloat l) = Some l.
Proof.
  induction l as [|x l IH]; simpl; trivial. now rewrite IH.
Qed.

Lemma array_float_list (l : list float) : Np.array (float_list l) = Np.Float64 l.
Proof.
  unfold Np.array, float_list. now rewrite floats_of_floats.
Qed.

Lemma logical_or_same_length (a b : list bool) :
  List.length a = List.length b ->
  Np.logical_or a b = Ok (map (fun p => orb (fst p) (snd p)) (combine a b)).
Proof.
  intros H. unfold Np.logical_or. now rewrite H, Nat.eqb_refl.
Qed.

Lemma mask_is_validity (temp : list float) : forall sal pres,
  List.length temp = List.length sal -> List.length sal = List.length pres ->
  Np.invert
    (map (fun p => orb (fst p) (snd p))
       (combine
          (map (fun p => orb (fst p) (snd p))
             (combine (map is_nan temp) (map is_nan sal)))
          (map is_nan pres)))
  = validity temp sal pres.
Proof.
  induction temp as [|t temp IH]; intros [|s sal] [|p pres] H1 H2;
    simpl in *; try discriminate; trivial.
  unfold jointly_valid. f_equal. apply IH; lia.
Qed.

Lemma validity_length (temp : list float) : forall sal pres,
  List.length temp = List.length sal -> List.length sal = List.length pres ->
  List.length (validity temp sal pres) = List.length temp.
Proof.
  induction temp as [|t temp IH]; intros [|s sal] [|p pres] H1 H2;
    simpl in *; try discriminate; trivial.
  f_equal. apply IH; lia.
Qed.


Lemma select_kept {A : Type} (l : list A) : forall mask,
  Np.select l mask = kept l mask.
Proof.
  unfold kept. induction l as [|x l IH]; intros [|b mask]; simpl; trivial.
  destruct b; simpl; now rewrite IH.
Qed.

Lemma kept_length {A : Type} (l : list A) : forall mask,
  List.length l = List.length mask ->
  List.length (kept l mask) = Np.sum mask.
Proof.
  unfold kept, Np.sum.
  induction l as [|x l IH]; intros [|b mask] H; simpl in *;
    try discriminate; trivial.
  destruct b; simpl; rewrite IH by lia; reflexivity.
Qed.

Lemma kept_pressure_valid (temp : list float) : forall sal pres y,
  In y (kept pres (validity temp sal pres)) -> is_nan y = false.
Proof.
  unfold kept.
  induction temp as [|t temp IH]; intros [|s sal] [|p pres] y;
    simpl; try tauto.
  unfold jointly_valid at 1.
  destruct (is_nan t), (is_nan s), (is_nan p) eqn:Ep; simpl;
    try apply IH.
  intros [<-|H]; [exact Ep|]. now apply (IH sal pres).
Qed.

(** [np.max] on a non-empty sequence without NaN returns a greatest
    element. *)
Lemma np_max_is_max (l : list float) :
  l <> [] -> (forall y, In y l -> is_nan y = false) ->
  exists m, Np.max l = Ok m /\ is_max m l.
Proof.
  destruct l as [|x r]; [congruence|]. intros _ Hvalid.
  simpl. eexists. split; [reflexivity|].
  assert (Hx : is_nan x = false) by (apply Hvalid; now left).
  assert (Hr : forall y, In y r -> is_nan y = false)
    by (intros y Hy; apply Hvalid; now right).
  clear Hvalid. unfold is_max.
  set (step := fun acc y : float => if acc <? y then y else acc).
  assert (G : forall r acc, is_nan acc = false ->
                (forall y, In y r -> is_nan y = false) ->
                (fold_left step r acc = acc \/ In (fold_left step r acc) r)
                /\ (acc <=? fold_left step r acc) = true
                /\ (forall y, In y r -> (y <=? fold_left step r acc) = true)).
  { clear. induction r as [|z r IH]; intros acc Hacc Hr; simpl.
    - split; [now left|]. split; [now apply FloatFacts.leb_refl|tauto].
    - assert (Hz : is_nan z = false) by (apply Hr; now left).
      assert (Hstep : is_nan (step acc z) = false)
        by (unfold step; now destruct (acc <? z)).
      destruct (IH (step acc z) Hstep) as [Hin [Hle Hub]].
      { intros y Hy. apply Hr. now right. }
      assert (Ha : (acc <=? step acc z) = true).
      { unfold step. destruct (acc <? z) eqn:E.
        - now apply FloatFacts.ltb_leb.
        - now apply FloatFacts.leb_refl. }
      assert (Hb : (z <=? step acc z) = true).
      { unfold step. destruct (acc <? z) eqn:E.
        - now apply FloatFacts.leb_refl.
        - now apply FloatFacts.leb_total. }
      split; [|split].
      + destruct Hin as [Hin|Hin]; [|now right; right].
        rewrite Hin. unfold step. destruct (acc <? z); [right|]; now left.
      + exact (FloatFacts.leb_trans _ _ _ Ha Hle).
      + intros y [<-|Hy]; [|now apply Hub].
        exact (FloatFacts.leb_trans _ _ _ Hb Hle). }
  destruct (G r x Hx Hr) as [Hin [Hle Hub]]. split.
  - destruct Hin as [->|Hin]; [now left|now right].
  - intros y [<-|Hy]; [exact Hle|now apply Hub].
Qed.

Section Calculator.

Variable SA_from_SP : float -> float -> float -> float -> float.
Variable CT_from_t : float -> float -> float -> float.
Variable sigma0 : float -> float -> float.

Let calculate := _calculate_derived_parameters SA_from_SP CT_from_t sigma0.
Let body := derived_body SA_from_SP CT_from_t sigma0.

(** The derived fields, when the statements after the test complete. *)
Lemma derive_shape temp sal pres lat lon valid_mask d :
  derive SA_from_SP CT_from_t sigma0 temp sal pres lat lon valid_mask = Ok d ->
  exists SA CT sigma mld max_depth,
    d = [("absolute_salinity", float_list SA);
         ("conservative_temperature", float_list CT);
         ("potential_density", float_list sigma);
         ("mixed_layer_depth", Scalar (SFloat mld));
         ("max_depth", Scalar (SFloat max_depth))].
Proof.
  unfold derive.
  destruct (Np.bool_index temp valid_mask); [|discriminate].
  destruct (Np.bool_index sal valid_mask); [|discriminate].
  destruct (Np.bool_index pres valid_mask) as [pc|]; [|discriminate].
  destruct (as_float lon); [|discriminate].
  destruct (as_float lat); [|discriminate].
  cbn [Py.bind]. destruct (Np.max pc); [|discriminate].
  cbn [Py.bind]. intros H. injection H as <-. do 5 eexists. reflexivity.
Qed.




End Calculator.



End CalculatorFacts.

(* ================================================================== *)
(** * Profile extractor *)

Module ExtractorFacts.

Import ExtractorSpec.
Local Open Scope string_scope.

Lemma readable_required epoch_plus_days (ds : Dataset) :
  readable epoch_plus_days ds = true -> required_present ds = true.
Proof.
  unfold readable, required_present. rewrite !andb_true_iff.
  destruct (LATITUDE ds) as [[|? ?]|], (LONGITUDE ds) as [[|? ?]|],
    (PRES ds) as [[|? ?]|], (TEMP ds) as [[|? ?]|], (PSAL ds) as [[|? ?]|];
    simpl; intuition discriminate.
Qed.

Section Extractor.

Variable SA_from_SP : float -> float -> float -> float -> float.
Variable CT_from_t : float -> float -> float -> float.
Variable sigma0 : float -> float -> float.
Variable open_dataset : string -> result Dataset.
Variable epoch_plus_days : float -> result scalar.
Variable now : scalar.

Let process :=
  process_argo_file SA_from_SP CT_from_t sigma0 open_dataset epoch_plus_days now.

(** The calculator returns the fallback or the five derived fields. *)
Lemma calculate_shape (profile_data : dict) :
  _calculate_derived_parameters SA_from_SP CT_from_t sigma0 profile_data
  = Ok fallback
  \/ exists SA CT sigma mld max_depth,
       _calculate_derived_parameters SA_from_SP CT_from_t sigma0 profile_data
       = Ok [("absolute_salinity", float_list SA);
             ("conservative_temperature", float_list CT);
             ("potential_density", float_list sigma);
             ("mixed_layer_depth", Scalar (SFloat mld));
             ("max_depth", Scalar (SFloat max_depth))].
Proof.
  unfold _calculate_derived_parameters, try_except, derived_body.
  destruct (joint_mask profile_data) as [[[[[[temp sal] pres] lat] lon] m]|e];
    cbn [Py.bind]; [|now left].
  destruct (Nat.ltb (Np.sum m) 3); [now left|].
  destruct (derive SA_from_SP CT_from_t sigma0 temp sal pres lat lon m)
    as [d|e] eqn:D; [|now left].
  right. destruct (CalculatorFacts.derive_shape _ _ _ _ _ _ _ _ _ _ D)
    as [SA [CT [sg [mld [mx ->]]]]].
  do 5 eexists. reflexivity.
Qed.

(** The dictionary literal is built exactly when everything it reads can be
    read; the platform and cycle entries take their defaults when the
    variables are absent. *)
Lemma extract_cases (ds : Dataset) :
  (readable epoch_plus_days ds = true <->
   exists platform cycle rest d,
     extract epoch_plus_days now ds = Ok d
     /\ d = ("platform_number", Scalar (SStr platform))
            :: ("cycle_number", Scalar (SInt cycle)) :: rest)
  /\ (readable epoch_plus_days ds = false ->
      exists e, extract epoch_plus_days now ds = Raise e)
  /\ (forall d, extract epoch_plus_days now ds = Ok d ->
      exists platform cycle lat lon date pres temp sal tq pq,
        d = [("platform_number", Scalar (SStr platform));
             ("cycle_number", Scalar (SInt cycle));
             ("latitude", Scalar (SFloat lat));
             ("longitude", Scalar (SFloat lon));
             ("measurement_date", Scalar date);
             ("pressure_levels", float_list pres);
             ("temperature", float_list temp);
             ("salinity", float_list sal);
             ("temp_qc", str_list tq);
             ("psal_qc", str_list pq)]
        /\ (PLATFORM_NUMBER ds = None -> platform = "UNKNOWN")
        /\ (CYCLE_NUMBER ds = None -> cycle = 0%Z)).
Proof.
  destruct ds as [pn cn la lo ju pr te ps tq pq].
  unfold readable, cycle_converts, date_decodes, extract,
    _extract_platform_number, _extract_date.
  cbn [PLATFORM_NUMBER CYCLE_NUMBER LATITUDE LONGITUDE JULD PRES TEMP PSAL
       TEMP_QC PSAL_QC].
  destruct pn as [[|pn0 pnr]|]; cbn.
  1: { repeat split; try discriminate; eauto.
       intros [? [? [? [? [H _]]]]]; discriminate H. }
  all: destruct cn as [[|cn0 cnr]|]; cbn;
    try (repeat split; try discriminate; eauto;
         intros [? [? [? [? [H _]]]]]; discriminate H).
  all: try (destruct (int_of_float cn0) as [cy|e]; cbn;
            [|repeat split; try discriminate; eauto;
              intros [? [? [? [? [H _]]]]]; discriminate H]).
  all: destruct la as [[|la0 lar]|]; cbn;
    try (repeat split; try discriminate; eauto;
         intros [? [? [? [? [H _]]]]]; discriminate H).
  all: destruct lo as [[|lo0 lor]|]; cbn;
    try (repeat split; try discriminate; eauto;
         intros [? [? [? [? [H _]]]]]; discriminate H).
  all: destruct ju as [[|ju0 jur]|]; cbn;
    try (repeat split; try discriminate; eauto;
         intros [? [? [? [? [H _]]]]]; discriminate H).
  all: try (destruct (epoch_plus_days ju0) as [date|e]; cbn;
            [|repeat split; try discriminate; eauto;
              intros [? [? [? [? [H _]]]]]; discriminate H]).
  all: destruct pr as [[|pr0 prr]|]; cbn;
    try (repeat split; try discriminate; eauto;
         intros [? [? [? [? [H _]]]]]; discriminate H).
  all: destruct te as [[|te0 ter]|]; cbn;
    try (repeat split; try discriminate; eauto;
         intros [? [? [? [? [H _]]]]]; discriminate H).
  all: destruct ps as [[|ps0 psr]|]; cbn;
    try (repeat split; try discriminate; eauto;
         intros [? [? [? [? [H _]]]]]; discriminate H).
  all: destruct tq as [[|tq0 tqr]|]; cbn;
    try (repeat split; try discriminate; eauto;
         intros [? [? [? [? [H _]]]]]; discriminate H).
  all: destruct pq as [[|pq0 pqr]|]; cbn;
    try (repeat split; try discriminate; eauto;
         intros [? [? [? [? [H _]]]]]; discriminate H).
  all: split; [split; [intros _; do 4 eexists; split; reflexivity|trivial]|].
  all: split; [discriminate|].
  all: intros d H; injection H as <-; do 10 eexists;
    split; [reflexivity|]; split; intros E; try discriminate E; reflexivity.
Qed.

(** What follows the dictionary literal never raises, and leaves the
    platform and cycle entries as they were extracted. *)
Lemma finish_total platform cycle lat lon date pres temp sal tq pq :
  exists record,
    finish SA_from_SP CT_from_t sigma0
      [("platform_number", Scalar (SStr platform));
       ("cycle_number", Scalar (SInt cycle));
       ("latitude", Scalar (SFloat lat));
       ("longitude", Scalar (SFloat lon));
       ("measurement_date", Scalar date);
       ("pressure_levels", float_list pres);
       ("temperature", float_list temp);
       ("salinity", float_list sal);
       ("temp_qc", str_list tq);
       ("psal_qc", str_list pq)] = Ok record
    /\ dict_get record "platform_number" = Ok (Scalar (SStr platform))
    /\ dict_get record "cycle_number" = Ok (Scalar (SInt cycle)).
Proof.
  unfold finish.
  destruct (calculate_shape
              [("platform_number", Scalar (SStr platform));
               ("cycle_number", Scalar (SInt cycle));
               ("latitude", Scalar (SFloat lat));
               ("longitude", Scalar (SFloat lon));
               ("measurement_date", Scalar date);
               ("pressure_levels", float_list pres);
               ("temperature", float_list temp);
               ("salinity", float_list sal);
               ("temp_qc", str_list tq);
               ("psal_qc", str_list pq)])
    as [->|[SA [CT [sg [mld [mx ->]]]]]];
    cbn -[_determine_ocean_region]; eexists; repeat split.
Qed.

(** C7, as amended: on a file that opens, the extractor never raises; it
    returns [None] when a required field (latitude, longitude, pressure,
    temperature or salinity) is absent, and more generally whenever
    something it reads cannot be read (a variable without a first profile
    entry, a cycle number that is not an integer, a date that does not
    decode); otherwise it returns a record, whose platform identifier is
    "UNKNOWN" and whose cycle number is 0 when these are absent from the
    file. *)
Theorem extractor_outcomes (file_path : string) (ds : Dataset) :
  open_dataset file_path = Ok ds ->
  (exists r, process file_path = Ok r)
  /\ (required_present ds = false -> process file_path = Ok None)
  /\ (readable epoch_plus_days ds = false -> process file_path = Ok None)
  /\ (readable epoch_plus_days ds = true ->
      exists record,
        process file_path = Ok (Some record)
        /\ (PLATFORM_NUMBER ds = None ->
            dict_get record "platform_number" = Ok (Scalar (SStr "UNKNOWN")))
        /\ (CYCLE_NUMBER ds = None ->
            dict_get record "cycle_number" = Ok (Scalar (SInt 0)))).
Proof.
  intros Hopen. subst process.
  unfold process_argo_file, try_except, process_dataset.
  rewrite Hopen. cbn [Py.bind].
  destruct (extract_cases ds) as [[Hx _] [Hbad Hgood]].
  destruct (extract epoch_plus_days now ds) as [d|e] eqn:He; cbn [Py.bind].
  - destruct (Hgood d eq_refl)
      as [pl [cy [la [lo [dt [pr [te [sa [tq [pq [-> [Hpl Hcy]]]]]]]]]]]].
    destruct (finish_total pl cy la lo dt pr te sa tq pq)
      as [record [Hfin [Hp Hc]]].
    rewrite Hfin. cbn [Py.bind].
    assert (Hr : readable epoch_plus_days ds = true).
    { destruct (readable epoch_plus_days ds); trivial.
      destruct (Hbad eq_refl) as [e' He']. discriminate He'. }
    split; [eauto|]. split.
    { intros Hreq. pose proof (readable_required _ _ Hr). congruence. }
    split; [congruence|].
    intros _. exists record. split; [reflexivity|]. split.
    + intros Hnone. rewrite Hp, (Hpl Hnone). reflexivity.
    + intros Hnone. rewrite Hc, (Hcy Hnone). reflexivity.
  - assert (Hr : readable epoch_plus_days ds = false).
    { destruct (readable epoch_plus_days ds); trivial.
      destruct (Hx eq_refl) as [? [? [? [? [H _]]]]]. discriminate H. }
    split; [eauto|]. split; [trivial|]. split; [trivial|congruence].
Qed.
End Extractor.

Lemma extractor_outcomes_witness :
  exists record,
    process_argo_file Samples.sample_SA Samples.sample_CT
      Samples.sample_sigma0 (fun _ => Ok Samples.scenario_ds)
      Samples.sample_epoch_plus_days Samples.sample_now "profile.nc"
    = Ok (Some record).
Proof.
  destruct (extractor_outcomes Samples.sample_SA Samples.sample_CT
              Samples.sample_sigma0 (fun _ => Ok Samples.scenario_ds)
              Samples.sample_epoch_plus_days Samples.sample_now
              "profile.nc" Samples.scenario_ds eq_refl)
    as [_ [_ [_ H]]].
  destruct (H eq_refl) as [record [Hr _]]. exists record. exact Hr.
Defined.

(** C7, the claim as stated fails: a file in which every required field is
    present but which holds no profile is not extracted; the extractor
    returns [None], and it raises nothing. *)
Lemma extractor_counterexample :
  required_present Samples.no_profile_ds = true
  /\ process_argo_file Samples.sample_SA Samples.sample_CT
       Samples.sample_sigma0 (fun _ => Ok Samples.no_profile_ds)
       Samples.sample_epoch_plus_days Samples.sample_now "profile.nc"
     = Ok None.
Proof.
  split; reflexivity.
Qed.

End ExtractorFacts.

(* ================================================================== *)
(** * Ingestion orchestrator *)

Module IngestionFacts.

Import IngestionSpec.

Section Batch.

Variable World : Type.
Variable glob : string -> M World (list string).
Variable process : string -> M World (option dict).
Variable collection_add : dict -> M World unit.
Variable session_add_commit : dict -> M World unit.

Let single := ingest_single_file World process collection_add session_add_commit.
Let directory :=
  ingest_directory World glob process collection_add session_add_commit.
Let results := outcomes World process collection_add session_add_commit.

Lemma add_profile_cases (p : dict) (w : World) :
  (exists w', collection_add p w = (Ok tt, w')
              /\ add_profile World collection_add p w = (Ok true, w'))
  \/ (exists e w', collection_add p w = (Raise e, w')
                   /\ add_profile World collection_add p w = (Ok false, w')).
Proof.
  unfold add_profile, mtry, mbind, ret.
  destruct (collection_add p w) as [[[]|e] w']; [left|right]; eauto.
Qed.

Lemma save_cases (p : dict) (w : World) :
  (exists w', session_add_commit p w = (Ok tt, w')
              /\ _save_to_database World session_add_commit p w = (Ok true, w'))
  \/ (exists e w', session_add_commit p w = (Raise e, w')
                   /\ _save_to_database World session_add_commit p w
                      = (Ok false, w')).
Proof.
  unfold _save_to_database, mtry, mbind, ret.
  destruct (session_add_commit p w) as [[[]|e] w']; [left|right]; eauto.
Qed.

(** A file is ingested exactly when it is extracted to a non-empty record
    and both writes succeed; the function never raises. *)
Lemma single_file_cases (file_path : string) (w : World) :
  (exists b w', single file_path w = (Ok b, w'))
  /\ ((exists w', single file_path w = (Ok true, w')) <->
      exists p w1 w2 w3,
        process file_path w = (Ok (Some p), w1) /\ p <> []
        /\ collection_add p w1 = (Ok tt, w2)
        /\ session_add_commit p w2 = (Ok tt, w3)).
Proof.
  unfold single, ingest_single_file, mtry, mbind, ret.
  destruct (process file_path w) as [[[[|kv d]|]|e] w1] eqn:Hp.
  - split; [eauto|]. split.
    + intros [w' H]. discriminate H.
    + intros [p [w1' [w2 [w3 [H [Hne _]]]]]]. injection H as <- _. congruence.
  - destruct (add_profile_cases (kv :: d) w1)
      as [[w2 [Hc ->]]|[e [w2 [Hc ->]]]];
    destruct (save_cases (kv :: d) w2)
      as [[w3 [Hs ->]]|[e' [w3 [Hs ->]]]]; cbn.
    + split; [eauto|]. split; [|eauto].
      intros _. exists (kv :: d), w1, w2, w3. repeat split; trivial. discriminate.
    + split; [eauto|]. split.
      * intros [w' H]. discriminate H.
      * intros [p [w1' [w2' [w3' [H [_ [Hc' Hs']]]]]]].
        injection H as <- <-. rewrite Hc in Hc'. injection Hc' as <-. congruence.
    + split; [eauto|]. split.
      * intros [w' H]. discriminate H.
      * intros [p [w1' [w2' [w3' [H [_ [Hc' Hs']]]]]]].
        injection H as <- <-. congruence.
    + split; [eauto|]. split.
      * intros [w' H]. discriminate H.
      * intros [p [w1' [w2' [w3' [H [_ [Hc' Hs']]]]]]].
        injection H as <- <-. congruence.
  - split; [eauto|]. split.
    + intros [w' H]. discriminate H.
    + intros [p [w1' [w2 [w3 [H _]]]]]. discriminate H.
  - split; [eauto|]. split.
    + intros [w' H]. discriminate H.
    + intros [p [w1' [w2 [w3 [H _]]]]]. discriminate H.
Qed.

Lemma for_each_spec (netcdf_files : list string) : forall acc w,
  exists s w',
    for_each World process collection_add session_add_commit netcdf_files acc w
    = (Ok s, w')
    /\ files s = files acc ++ passed netcdf_files (results netcdf_files w)
    /\ processed s
       = (processed acc
          + List.length (filter (fun b => b) (results netcdf_files w)))%nat
    /\ errors s
       = (errors acc
          + List.length (filter negb (results netcdf_files w)))%nat
    /\ List.length (results netcdf_files w) = List.length netcdf_files.
Proof.
  unfold results, passed.
  induction netcdf_files as [|f rest IH]; intros acc w.
  - exists acc, w. cbn. rewrite app_nil_r. repeat split; lia.
  - cbn [for_each outcomes]. unfold mbind at 1. unfold loop_body, mtry, mbind at 1.
    destruct (single_file_cases f w) as [[b [w1 Hb]] _]. unfold single in Hb.
    rewrite Hb. destruct b; cbn [ret].
    + destruct (IH {| processed := S (processed acc); errors := errors acc;
                      files := files acc ++ [f] |} w1)
        as [s [w' [Hs [Hf [Hp [He Hl]]]]]].
      exists s, w'. rewrite Hs. cbn in *. rewrite Hf, Hp, He, Hl.
      rewrite <- app_assoc. repeat split; lia.
    + destruct (IH {| processed := processed acc; errors := S (errors acc);
                      files := files acc |} w1)
        as [s [w' [Hs [Hf [Hp [He Hl]]]]]].
      exists s, w'. rewrite Hs. cbn in *. rewrite Hf, Hp, He, Hl.
      repeat split; lia.
Qed.

(** C8: [ingest_directory] always returns a summary and never raises; the
    files list is as long as the processed count; when the directory
    listing succeeds, the files list holds exactly the files whose
    ingestion succeeded, in order, every other file counts as one error,
    and the batch does not stop at a failure (processed plus errors is the
    number of files); a file's ingestion succeeds exactly when it is
    extracted and both the vector-store write and the SQL-store write
    succeed. *)
Theorem ingest_directory_summary (directory_path : string) (w : World) :
  (exists s w',
     directory directory_path w = (Ok s, w')
     /\ List.length (files s) = processed s
     /\ (forall netcdf_files w0,
           glob directory_path w = (Ok netcdf_files, w0) ->
           let os := results netcdf_files w0 in
           files s = passed netcdf_files os
           /\ processed s = List.length (filter (fun b => b) os)
           /\ errors s = List.length (filter negb os)
           /\ (processed s + errors s)%nat = List.length netcdf_files)
     /\ (forall e w0,
           glob directory_path w = (Raise e, w0) ->
           s = {| processed := 0; errors := 1; files := [] |}))
  /\ (forall file_path w0,
        (exists b w1, single file_path w0 = (Ok b, w1))
        /\ ((exists w1, single file_path w0 = (Ok true, w1)) <->
            exists p w1 w2 w3,
              process file_path w0 = (Ok (Some p), w1) /\ p <> []
              /\ collection_add p w1 = (Ok tt, w2)
              /\ session_add_commit p w2 = (Ok tt, w3))).
Proof.
  split; [|intros f w0; apply single_file_cases].
  assert (Hcount : forall (fs : list string) (os : list bool),
            List.length os = List.length fs ->
            List.length (passed fs os) = List.length (filter (fun b => b) os)
            /\ (List.length (filter (fun b => b) os)
                + List.length (filter negb os))%nat = List.length fs).
  { unfold passed. induction fs as [|f fs IH]; intros [|[] os] Hl;
      cbn in *; try discriminate; try (split; lia);
      destruct (IH os ltac:(lia)) as [H1 H2]; split; lia. }
  unfold directory, ingest_directory, mtry, mbind at 1.
  destruct (glob directory_path w) as [[fs|e] w0] eqn:Hg.
  - destruct fs as [|f rest].
    + exists {| processed := 0; errors := 0; files := [] |}, w0.
      cbn. split; [reflexivity|]. split; [reflexivity|]. split.
      * intros fs' w0' H. injection H as <- <-. cbn. repeat split.
      * intros e w0' H. discriminate H.
    + destruct (for_each_spec (f :: rest)
                  {| processed := 0; errors := 0; files := [] |} w0)
        as [s [w' [Hs [Hf [Hp [He Hl]]]]]].
      exists s, w'. rewrite Hs. cbn [processed errors files app] in *.
      destruct (Hcount _ _ Hl) as [H1 H2].
      split; [reflexivity|]. split; [rewrite Hf, Hp; cbn; exact H1|]. split.
      * intros fs' w0' H. injection H as <- <-. cbn zeta.
        rewrite Hf, Hp, He. repeat split; trivial.
      * intros e w0' H. discriminate H.
  - exists {| processed := 0; errors := 1; files := [] |}, w0.
    cbn. split; [reflexivity|]. split; [reflexivity|]. split.
    + intros fs' w0' H. discriminate H.
    + trivial.
Qed.

End Batch.

End IngestionFacts.

(* ================================================================== *)
(** * Duplicate cleanup *)

Module StoreFacts.

Import Store.

Lemma session_has_no_func : session_getattr "func" = Raise AttributeError.
Proof. reflexivity. Qed.

(** The queries alone, on any store holding exactly two profiles of one
    platform and cycle with different dates: one profile is removed and the
    one measured later is kept. *)
Lemma cleanup_query_two (p q : ArgoProfile) :
  platform_number p = platform_number q ->
  cycle_number p = cycle_number q ->
  profile_id p <> profile_id q ->
  (measurement_date p < measurement_date q)%Z ->
  cleanup_query [p; q] = (1%nat, [q]) /\ cleanup_query [q; p] = (1%nat, [q]).
Proof.
  intros Hpl Hcy Hid Hdate.
  assert (Kpq : same_key (platform_number p) (cycle_number p) q = true)
    by (unfold same_key; rewrite Hpl, Hcy, String.eqb_refl, Z.eqb_refl;
        reflexivity).
  assert (Kqp : same_key (platform_number q) (cycle_number q) p = true)
    by (unfold same_key; rewrite Hpl, Hcy, String.eqb_refl, Z.eqb_refl;
        reflexivity).
  assert (Kpp : same_key (platform_number p) (cycle_number p) p = true)
    by (unfold same_key; rewrite String.eqb_refl, Z.eqb_refl; reflexivity).
  assert (Kqq : same_key (platform_number q) (cycle_number q) q = true)
    by (unfold same_key; rewrite String.eqb_refl, Z.eqb_refl; reflexivity).
  assert (Dpq : (measurement_date q <=? measurement_date p)%Z = false)
    by (apply Z.leb_gt; exact Hdate).
  assert (Dqp : (measurement_date p <=? measurement_date q)%Z = true)
    by (apply Z.leb_le; lia).
  assert (Ipq : Nat.eqb (profile_id q) (profile_id p) = false)
    by (apply Nat.eqb_neq; congruence).
  assert (Ipp : Nat.eqb (profile_id p) (profile_id p) = true)
    by apply Nat.eqb_refl.
  split.
  - unfold cleanup_query, duplicates, order_by_date_desc.
    cbn [distinct_keys existsb fst snd]. rewrite Kpq.
    cbn [orb map filter fst snd]. rewrite Kpp, Kpq.
    cbn [List.length Nat.ltb Nat.leb filter fold_left snd fst].
    rewrite Kpp, Kpq. cbn [fold_right insert_desc]. rewrite Dpq.
    cbn [insert_desc tl fold_left fst snd delete filter].
    rewrite Ipp, Ipq. reflexivity.
  - unfold cleanup_query, duplicates, order_by_date_desc.
    cbn [distinct_keys existsb fst snd]. rewrite Kqp.
    cbn [orb map filter fst snd]. rewrite Kqq, Kqp.
    cbn [List.length Nat.ltb Nat.leb filter fold_left snd fst].
    rewrite Kqq, Kqp. cbn [fold_right insert_desc]. rewrite Dqp.
    cbn [tl fold_left fst snd delete filter].
    rewrite Ipp, Ipq. reflexivity.
Qed.
(** The queries alone, on the two profiles of platform 2900123, cycle 10:
    the earlier one is deleted and the later one is kept. *)
Lemma cleanup_query_scenario :
  cleanup_query Samples.two_profiles = (1%nat, [Samples.later]).
Proof. reflexivity. Qed.

(** C9: [cleanup_duplicates] as written removes nothing: looking up
    [db.func] on the session raises before any query is sent, the handler
    returns 0 and the store is left as it was.  On the two profiles of
    platform 2900123, cycle 10 it returns 0 and keeps both, where the claim
    (and the queries of the function, had they run) remove the earlier
    one. *)
Theorem cleanup_duplicates_removes_nothing :
  (forall rows, cleanup_duplicates rows = (0%nat, rows))
  /\ cleanup_duplicates Samples.two_profiles = (0%nat, Samples.two_profiles)
  /\ cleanup_query Samples.two_profiles = (1%nat, [Samples.later]).
Proof.
  split; [|split]; reflexivity.
Qed.

End StoreFacts.

(* ================================================================== *)
(** * Region classifier: the edges of the rules *)

Module RegionEdges.

Import RegionSpec RecordSpec.
Local Open Scope float_scope.

Lemma ltb_not_leb x y : (x <? y) = true -> (y <=? x) = false.
Proof.
  intros H. destruct (y <=? x) eqn:E; [|reflexivity]. exfalso.
  apply FloatFacts.ltb_key in H. destruct H as (a & b & Ka & Kb & Hlt).
  apply FloatFacts.leb_key in E. destruct E as (b' & a' & Kb' & Ka' & Hle).
  rewrite Ka in Ka'. rewrite Kb in Kb'.
  injection Ka' as <-. injection Kb' as <-.
  destruct a as [[a1 a2] a3], b as [[b1 b2] b3].
  unfold FloatKey.key_lt in Hlt. unfold FloatKey.key_le in Hle. lia.
Qed.

Lemma not_leb_ltb x y :
  is_nan x = false -> is_nan y = false -> (x <=? y) = false -> (y <? x) = true.
Proof.
  intros Nx Ny H. destruct (y <? x) eqn:E; [reflexivity|].
  rewrite (FloatFacts.leb_total y x Ny Nx E) in H. discriminate.
Qed.

Lemma leb_nan_l x y : is_nan x = true -> (x <=? y) = false.
Proof.
  intros N. destruct (x <=? y) eqn:E; [|reflexivity].
  apply FloatFacts.leb_not_nan in E. destruct E as [E _]. congruence.
Qed.

Lemma leb_nan_r x y : is_nan y = true -> (x <=? y) = false.
Proof.
  intros N. destruct (x <=? y) eqn:E; [|reflexivity].
  apply FloatFacts.leb_not_nan in E. destruct E as [_ E]. congruence.
Qed.

Lemma ltb_nan_l x y : is_nan x = true -> (x <? y) = false.
Proof.
  intros N. destruct (x <? y) eqn:E; [|reflexivity].
  apply FloatFacts.ltb_leb in E. rewrite (leb_nan_l x y N) in E. discriminate.
Qed.

Lemma label_of_cascade lat lon s :
  cascade lat (normalize lon) s -> _determine_ocean_region lat lon = s.
Proof.
  intros H.
  exact (RegionFacts.cascade_functional _ _ _ _
           (RegionFacts.classifier_follows_cascade lat lon) H).
Qed.

Lemma const_leb a b c :
  (a <=? b) = true -> (b <=? c) = true -> (a <=? c) = true.
Proof. apply FloatFacts.leb_trans. Qed.

(** X1: The label is "Atlantic Ocean" exactly when the normalized longitude is
    below 0 or above 360: inside [0, 360] the Pacific rule, tested first,
    covers both Atlantic ranges. *)
Theorem atlantic_only_out_of_range (lat lon : float) :
  _determine_ocean_region lat lon = "Atlantic Ocean"%string <->
  (normalize lon <? 0) = true \/ (360 <? normalize lon) = true.
Proof.
  split.
  - intros H. pose proof (RegionFacts.classifier_follows_cascade lat lon) as C.
    rewrite H in C. remember (normalize lon) as l eqn:El. clear El H.
    inversion C as [ | | NI NP A | | | ]. clear C.
    destruct A as [A | A].
    + right. destruct (FloatFacts.leb_not_nan _ _ A) as [_ Nl].
      apply not_leb_ltb; [exact Nl | reflexivity |].
      destruct (l <=? 360) eqn:E; [|reflexivity].
      exfalso. apply NP. right. left. split; assumption.
    + left. destruct (FloatFacts.leb_not_nan _ _ A) as [Nl _].
      apply not_leb_ltb; [reflexivity | exact Nl |].
      destruct (0 <=? l) eqn:E; [|reflexivity].
      exfalso. apply NP. right. right. split; [assumption|].
      apply (const_leb l 20 70); [assumption | reflexivity].
  - intros H. apply label_of_cascade.
    remember (normalize lon) as l eqn:El. clear El.
    destruct H as [H | H].
    + assert (Z0 : (0 <=? l) = false) by (apply ltb_not_leb; exact H).
      assert (below : forall c, (0 <=? c) = true -> (c <=? l) = false).
      { intros c Hc. destruct (c <=? l) eqn:E; [|reflexivity].
        rewrite (const_leb 0 c l Hc E) in Z0. discriminate. }
      apply rule_Atlantic.
      * intros [_ [I _]]. rewrite (below 20) in I; [discriminate | reflexivity].
      * intros [[P _] | [[P _] | [P _]]].
        -- rewrite (below 120) in P; [discriminate | reflexivity].
        -- rewrite (below 290) in P; [discriminate | reflexivity].
        -- rewrite Z0 in P. discriminate.
      * right. apply (const_leb l 0 20); [|reflexivity].
        apply FloatFacts.ltb_leb. exact H.
    + assert (Z0 : (l <=? 360) = false) by (apply ltb_not_leb; exact H).
      assert (above : forall c, (c <=? 360) = true -> (l <=? c) = false).
      { intros c Hc. destruct (l <=? c) eqn:E; [|reflexivity].
        rewrite (const_leb l c 360 E Hc) in Z0. discriminate. }
      apply rule_Atlantic.
      * intros [_ [_ I]]. rewrite (above 120) in I; [discriminate | reflexivity].
      * intros [[_ P] | [[_ P] | [_ P]]].
        -- rewrite (above 290) in P; [discriminate | reflexivity].
        -- rewrite Z0 in P. discriminate.
        -- rewrite (above 70) in P; [discriminate | reflexivity].
      * left. apply (const_leb 290 360 l); [reflexivity|].
        apply FloatFacts.ltb_leb. exact H.
Qed.

(** X2: A longitude that is NaN matches no longitude rule, so the label is
    decided by the latitude alone: Southern below -60, Arctic above 66,
    Unknown otherwise. *)
Theorem nan_longitude_by_latitude (lat lon : float) :
  is_nan lon = true ->
  _determine_ocean_region lat lon =
  if lat <? -60 then "Southern Ocean"%string
  else if 66 <? lat then "Arctic Ocean"%string
  else "Unknown"%string.
Proof.
  intros N. apply label_of_cascade.
  assert (El : normalize lon = lon).
  { unfold normalize. rewrite (ltb_nan_l lon 0 N). reflexivity. }
  rewrite El. clear El.
  assert (NI : ~ Indian lat lon).
  { intros [_ [I _]]. rewrite (leb_nan_r 20 lon N) in I. discriminate. }
  assert (NP : ~ Pacific lon).
  { intros [[P _] | [[P _] | [P _]]].
    - rewrite (leb_nan_r 120 lon N) in P. discriminate.
    - rewrite (leb_nan_r 290 lon N) in P. discriminate.
    - rewrite (leb_nan_r 0 lon N) in P. discriminate. }
  assert (NA : ~ Atlantic lon).
  { intros [A | A].
    - rewrite (leb_nan_r 290 lon N) in A. discriminate.
    - rewrite (leb_nan_l lon 20 N) in A. discriminate. }
  destruct (lat <? -60) eqn:S.
  - apply rule_Southern; assumption.
  - assert (NS : ~ Southern lat) by (unfold Southern; rewrite S; discriminate).
    destruct (66 <? lat) eqn:A.
    + apply rule_Arctic; assumption.
    + apply rule_Unknown; try assumption.
      unfold Arctic. rewrite A. discriminate.
Qed.

Lemma nan_longitude_by_latitude_witness :
  is_nan nan = true /\
  _determine_ocean_region (-70) nan = "Southern Ocean"%string.
Proof.
  split; [reflexivity|].
  exact (nan_longitude_by_latitude (-70) nan eq_refl).
Defined.

(** X3: A west longitude in [-180, 0) is classified exactly as its east
    equivalent, the longitude plus 360. *)
Theorem west_as_east (lat lon : float) :
  (-180 <=? lon) = true -> (lon <? 0) = true ->
  _determine_ocean_region lat lon = _determine_ocean_region lat (lon + 360).
Proof.
  intros Hlo Hneg.
  destruct (FloatFacts.add_360_bounds lon Hlo Hneg) as [H0 _].
  assert (E : (lon + 360 <? 0) = false).
  { destruct (lon + 360 <? 0) eqn:E; [|reflexivity].
    apply ltb_not_leb in E. rewrite E in H0. discriminate. }
  apply label_of_cascade.
  assert (El : normalize lon = normalize (lon + 360)).
  { unfold normalize. rewrite Hneg, E. reflexivity. }
  rewrite El. apply RegionFacts.classifier_follows_cascade.
Qed.

Lemma west_as_east_witness :
  (-180 <=? -75.5) = true /\ (-75.5 <? 0) = true /\
  _determine_ocean_region 10 (-75.5) = _determine_ocean_region 10 (-75.5 + 360).
Proof.
  split; [reflexivity|]. split; [reflexivity|].
  exact (west_as_east 10 (-75.5) eq_refl eq_refl).
Defined.

Lemma mid_longitude_rules l :
  mid_longitude l <-> ~ Pacific l /\ ~ Atlantic l.
Proof.
  unfold mid_longitude. split.
  - intros [L H]. split.
    + intros [[P _] | [[P _] | [_ P]]].
      * rewrite H in P. discriminate.
      * rewrite (const_leb 120 290 l eq_refl P) in H. discriminate.
      * rewrite L in P. discriminate.
    + intros [A | A].
      * rewrite (const_leb 120 290 l eq_refl A) in H. discriminate.
      * rewrite (const_leb l 20 70 A eq_refl) in L. discriminate.
  - intros [NP NA]. split.
    + destruct (l <=? 70) eqn:L; [|reflexivity]. exfalso.
      destruct (FloatFacts.leb_not_nan _ _ L) as [Nl _].
      destruct (0 <=? l) eqn:Z.
      * apply NP. right. right. split; assumption.
      * apply NA. right. apply (const_leb l 0 20); [|reflexivity].
        apply FloatFacts.ltb_leb. apply not_leb_ltb; [reflexivity | exact Nl | exact Z].
    + destruct (120 <=? l) eqn:H; [|reflexivity]. exfalso.
      destruct (FloatFacts.leb_not_nan _ _ H) as [_ Nl].
      destruct (l <=? 290) eqn:Z.
      * apply NP. left. split; assumption.
      * apply NA. left. apply FloatFacts.ltb_leb.
        apply not_leb_ltb; [exact Nl | reflexivity | exact Z].
Qed.

(** X4: The polar labels need a normalized longitude strictly between 70 and
    120 (or NaN): "Southern Ocean" is the label exactly when the latitude
    is below -60 there, "Arctic Ocean" exactly when it is above 66 there.
    Everywhere else a polar latitude is labelled by its longitude. *)
Theorem polar_labels (lat lon : float) :
  (_determine_ocean_region lat lon = "Southern Ocean"%string <->
   (lat <? -60) = true /\ mid_longitude (normalize lon)) /\
  (_determine_ocean_region lat lon = "Arctic Ocean"%string <->
   (66 <? lat) = true /\ mid_longitude (normalize lon)).
Proof.
  pose proof (RegionFacts.classifier_follows_cascade lat lon) as C.
  pose proof (label_of_cascade lat lon) as L.
  remember (normalize lon) as l eqn:El. clear El.
  split; split.
  - intros H. rewrite H in C. inversion C as [ | | | NI NP NA S | | ].
    split; [exact S|]. apply mid_longitude_rules. split; assumption.
  - intros [S M]. apply L. apply mid_longitude_rules in M. destruct M as [NP NA].
    apply rule_Southern; try assumption.
    intros [[I _] _]. apply ltb_not_leb in S. rewrite S in I. discriminate.
  - intros H. rewrite H in C. inversion C as [ | | | | NI NP NA NS A | ].
    split; [exact A|]. apply mid_longitude_rules. split; assumption.
  - intros [A M]. apply L. apply mid_longitude_rules in M. destruct M as [NP NA].
    assert (A' : (lat <=? 66) = false) by (apply ltb_not_leb; exact A).
    apply rule_Arctic; try assumption.
    + intros [[_ I] _]. rewrite (const_leb lat 30 66 I eq_refl) in A'. discriminate.
    + unfold Southern. intros S. apply FloatFacts.ltb_leb in S.
      rewrite (const_leb lat (-60) 66 S eq_refl) in A'. discriminate.
Qed.

End RegionEdges.

(* ================================================================== *)
(** * Mixed-layer depth: where the answer comes from *)

Module MldBounds.

Local Open Scope float_scope.

Lemma mld_scan_nth surface threshold rows depth :
  mld_scan surface threshold rows = Some depth ->
  exists j, (j < List.length rows)%nat /\ depth = snd (nth j rows (0, 0)).
Proof.
  induction rows as [|[t p] rows IH]; simpl; [discriminate|].
  destruct (threshold <? abs (t - surface)).
  - intros H. injection H as <-. exists 0%nat. split; [lia | reflexivity].
  - intros H. destruct (IH H) as [j [Hj E]]. exists (S j). split; [lia | exact E].
Qed.

Lemma last_nth_pred (l : list float) :
  last l 0 = nth (pred (List.length l)) l 0.
Proof.
  induction l as [|x [|y l] IH]; try reflexivity.
  change (last (x :: y :: l) 0) with (last (y :: l) 0). rewrite IH. reflexivity.
Qed.

(** X5: With as many temperatures as pressures, at least two of them, and a
    positive threshold, the mixed-layer depth is a pressure sample below the
    surface one: the surface sample never departs from itself, so the scan
    never answers with index 0. *)
Theorem mld_below_surface (temperature pressure : list float) (threshold : float) :
  List.length temperature = List.length pressure ->
  (2 <= List.length temperature)%nat ->
  (0 <? threshold) = true ->
  exists i, (1 <= i < List.length pressure)%nat
            /\ _calculate_mld temperature pressure threshold = nth i pressure 0.
Proof.
  intros L H2 Hth. unfold _calculate_mld.
  destruct (Nat.ltb_spec (List.length temperature) 2) as [Hlt|_]; [lia|].
  destruct temperature as [|t0 temperature]; [simpl in H2; lia|].
  destruct pressure as [|p0 pressure]; [simpl in L; lia|].
  cbn [nth combine mld_scan].
  rewrite (FloatFacts.self_distance_below threshold t0 Hth).
  destruct (mld_scan t0 threshold (combine temperature pressure)) as [d|] eqn:S.
  - destruct (mld_scan_nth _ _ _ _ S) as [j [Hj E]].
    rewrite length_combine in Hj. simpl in L.
    exists (Datatypes.S j). split; [simpl; lia|].
    rewrite MldFacts.nth_rows in E by lia. simpl in E. exact E.
  - destruct (Nat.ltb_spec 0 (List.length (p0 :: pressure))) as [_|Hl];
      [|simpl in Hl; lia].
    exists (pred (List.length (p0 :: pressure))). simpl in *.
    split; [lia|]. 
    pose proof (last_nth_pred (p0 :: pressure)) as E. simpl in E. exact E.
Qed.

Lemma mld_below_surface_witness :
  exists i, (1 <= i < 4)%nat
            /\ _calculate_mld [28.0; 27.9; 26.0; 20.0] [2.5; 10; 20; 50] 0.2
               = nth i [2.5; 10; 20; 50] 0.
Proof.
  exact (mld_below_surface [28.0; 27.9; 26.0; 20.0] [2.5; 10; 20; 50] 0.2
           eq_refl ltac:(simpl; lia) eq_refl).
Defined.

(** The mixed-layer depth of aligned sequences is one of the pressures. *)
Lemma mld_in_pressure (temperature pressure : list float) (threshold : float) :
  List.length temperature = List.length pressure ->
  (2 <= List.length temperature)%nat ->
  In (_calculate_mld temperature pressure threshold) pressure.
Proof.
  intros L H2. unfold _calculate_mld.
  destruct (Nat.ltb_spec (List.length temperature) 2) as [Hlt|_]; [lia|].
  destruct (mld_scan _ _ _) as [d|] eqn:S.
  - destruct (mld_scan_nth _ _ _ _ S) as [j [Hj E]].
    rewrite length_combine in Hj.
    rewrite MldFacts.nth_rows in E by lia. simpl in E. subst d.
    apply nth_In. lia.
  - destruct (Nat.ltb_spec 0 (List.length pressure)) as [_|Hl]; [|lia].
    rewrite last_nth_pred. apply nth_In. lia.
Qed.

End MldBounds.

(* ================================================================== *)
(** * Derived-parameter calculator: which records are derived *)

Module CalculatorInversion.

Import CalculatorSpec RecordSpec CalculatorFacts.
Local Open Scope string_scope.
Local Open Scope float_scope.

Section Inversion.

Variable SA_from_SP : float -> float -> float -> float -> float.
Variable CT_from_t : float -> float -> float -> float.
Variable sigma0 : float -> float -> float.

Let calculate := _calculate_derived_parameters SA_from_SP CT_from_t sigma0.

(** What the calculator returns on a derivable record. *)
Lemma calculate_derivable profile_data temp sal pres lat lon :
  derivable profile_data temp sal pres lat lon ->
  let mask := validity temp sal pres in
  exists SA CT sigma max_depth,
    Np.max (kept pres mask) = Ok max_depth
    /\ calculate profile_data
       = Ok [("absolute_salinity", float_list SA);
             ("conservative_temperature", float_list CT);
             ("potential_density", float_list sigma);
             ("mixed_layer_depth",
              Scalar (SFloat (_calculate_mld (kept temp mask) (kept pres mask)
                                default_threshold)));
             ("max_depth", Scalar (SFloat max_depth))].
Proof.
  intros (Ht & Hs & Hp & Hla & Hlo & H1 & H2 & Hn) mask.
  destruct Ht as (tv & Gt & At). destruct Hs as (sv & Gs & As).
  destruct Hp as (pv & Gp & Ap). destruct Hla as (lav & Gla & Ala).
  destruct Hlo as (lov & Glo & Alo).
  assert (Hm : List.length mask = List.length temp)
    by (apply validity_length; assumption).
  assert (Lp : List.length (kept pres mask) = Np.sum mask)
    by (apply kept_length; lia).
  destruct (np_max_is_max (kept pres mask)) as [mx [Hmx _]].
  { intros E. rewrite E in Lp. simpl in Lp. fold mask in Hn. lia. }
  { apply kept_pressure_valid. }
  unfold calculate, _calculate_derived_parameters, derived_body, joint_mask.
  rewrite Gt, Gs, Gp, Gla, Glo. cbn [Py.bind].
  rewrite At, As, Ap. cbn [Np.isnan Py.bind].
  rewrite logical_or_same_length by (rewrite !length_map; exact H1).
  cbn [Py.bind].
  rewrite logical_or_same_length
    by (rewrite length_map, length_combine, !length_map; lia).
  cbn [Py.bind]. rewrite mask_is_validity by assumption. fold mask.
  destruct (Nat.ltb_spec (Np.sum mask) 3) as [Hlt|_]; [fold mask in Hn; lia|].
  unfold derive, Np.bool_index.
  replace (Nat.eqb (List.length temp) (List.length mask)) with true
    by (symmetry; apply Nat.eqb_eq; lia).
  replace (Nat.eqb (List.length sal) (List.length mask)) with true
    by (symmetry; apply Nat.eqb_eq; lia).
  replace (Nat.eqb (List.length pres) (List.length mask)) with true
    by (symmetry; apply Nat.eqb_eq; lia).
  cbn [Py.bind]. rewrite Alo, Ala. cbn [Py.bind]. rewrite !select_kept.
  rewrite Hmx. cbn [Py.bind try_except].
  do 4 eexists. split; reflexivity.
Qed.

(** Whatever the calculator returns that is not the fallback was derived
    from a derivable record. *)
Lemma calculate_inversion profile_data d :
  calculate profile_data = Ok d -> d <> fallback ->
  exists temp sal pres lat lon,
    derivable profile_data temp sal pres lat lon.
Proof.
  unfold calculate, _calculate_derived_parameters, try_except, derived_body.
  intros H Hd.
  destruct (joint_mask profile_data) as [[[[[[ta sa] pa] lav] lov] m]|e] eqn:J;
    cbn [Py.bind] in H.
  2: { injection H as <-. contradiction. }
  destruct (Nat.ltb_spec (Np.sum m) 3) as [Hlt|Hge].
  { injection H as <-. contradiction. }
  destruct (derive SA_from_SP CT_from_t sigma0 ta sa pa lav lov m) as [d'|e] eqn:D.
  2: { injection H as <-. contradiction. }
  clear H Hd.
  unfold joint_mask in J.
  destruct (dict_get profile_data "temperature") as [tv|] eqn:Gt; [|discriminate].
  destruct (dict_get profile_data "salinity") as [sv|] eqn:Gs; [|discriminate].
  destruct (dict_get profile_data "pressure_levels") as [pv|] eqn:Gp;
    [|discriminate].
  destruct (dict_get profile_data "latitude") as [lav'|] eqn:Gla; [|discriminate].
  destruct (dict_get profile_data "longitude") as [lov'|] eqn:Glo; [|discriminate].
  cbn [Py.bind] in J.
  destruct (Np.array tv) as [temp|] eqn:At; [|discriminate].
  destruct (Np.array sv) as [sal|] eqn:As; [|discriminate].
  cbn [Np.isnan Py.bind] in J.
  destruct (Np.logical_or (map is_nan temp) (map is_nan sal)) as [ts|] eqn:O1;
    [|discriminate].
  cbn [Py.bind] in J.
  destruct (Np.array pv) as [pres|] eqn:Ap; [|discriminate].
  cbn [Np.isnan Py.bind] in J.
  destruct (Np.logical_or ts (map is_nan pres)) as [tsp|] eqn:O2; [|discriminate].
  cbn [Py.bind] in J. injection J as <- <- <- <- <- <-.
  unfold derive, Np.bool_index in D.
  destruct (Nat.eqb_spec (List.length temp) (List.length (Np.invert tsp)))
    as [Lt|]; [|discriminate].
  destruct (Nat.eqb_spec (List.length sal) (List.length (Np.invert tsp)))
    as [Ls|]; [|discriminate].
  destruct (Nat.eqb_spec (List.length pres) (List.length (Np.invert tsp)))
    as [Lp|]; [|discriminate].
  cbn [Py.bind] in D.
  destruct (as_float lov') as [lon|] eqn:Alo; [|discriminate].
  destruct (as_float lav') as [lat|] eqn:Ala; [|discriminate].
  clear D.
  assert (H1 : List.length temp = List.length sal) by lia.
  assert (H2 : List.length sal = List.length pres) by lia.
  rewrite logical_or_same_length in O1 by (rewrite !length_map; exact H1).
  injection O1 as <-.
  rewrite logical_or_same_length in O2
    by (rewrite length_map, length_combine, !length_map; lia).
  injection O2 as <-.
  rewrite mask_is_validity in Hge by assumption.
  exists temp, sal, pres, lat, lon.
  repeat split; try assumption; try (eexists; split; eassumption).
Qed.

(** A record of floats is derivable exactly when it is aligned. *)
Lemma float_record_derivable profile_data temp sal pres lat lon :
  float_record profile_data temp sal pres lat lon ->
  (aligned temp sal pres -> derivable profile_data temp sal pres lat lon)
  /\ (forall temp' sal' pres' lat' lon',
        derivable profile_data temp' sal' pres' lat' lon' ->
        temp' = temp /\ sal' = sal /\ pres' = pres
        /\ aligned temp sal pres).
Proof.
  intros (Gt & Gs & Gp & Gla & Glo). split.
  - intros (H1 & H2 & Hn).
    split; [exists (float_list temp); split;
            [exact Gt | apply array_float_list]|].
    split; [exists (float_list sal); split;
            [exact Gs | apply array_float_list]|].
    split; [exists (float_list pres); split;
            [exact Gp | apply array_float_list]|].
    split; [exists (Scalar (SFloat lat)); split; [exact Gla | reflexivity]|].
    split; [exists (Scalar (SFloat lon)); split; [exact Glo | reflexivity]|].
    split; [exact H1|]. split; [exact H2 | exact Hn].
  - intros temp' sal' pres' lat' lon'
      ((tv & Gt' & At) & (sv & Gs' & As) & (pv & Gp' & Ap) & _ & _
       & H1 & H2 & Hn).
    rewrite Gt in Gt'. injection Gt' as <-.
    rewrite Gs in Gs'. injection Gs' as <-.
    rewrite Gp in Gp'. injection Gp' as <-.
    rewrite array_float_list in At, As, Ap.
    injection At as <-. injection As as <-. injection Ap as <-.
    split; [reflexivity|]. split; [reflexivity|]. split; [reflexivity|].
    split; [exact H1|]. split; [exact H2 | exact Hn].
Qed.

(** X6: on a record of floats the calculator derives its five fields
    exactly when the three sequences have one length and at least 3 samples
    are jointly valid; otherwise (sequences of different lengths, fewer
    than 3 jointly valid samples) it returns the fallback. *)
Theorem derived_fields_iff (profile_data : dict) (temp sal pres : list float)
  (lat lon : float) :
  float_record profile_data temp sal pres lat lon ->
  (aligned temp sal pres
   <-> exists SA CT sigma mld max_depth,
         calculate profile_data
         = Ok [("absolute_salinity", float_list SA);
               ("conservative_temperature", float_list CT);
               ("potential_density", float_list sigma);
               ("mixed_layer_depth", Scalar (SFloat mld));
               ("max_depth", Scalar (SFloat max_depth))])
  /\ (~ aligned temp sal pres <-> calculate profile_data = Ok fallback).
Proof.
  intros R. destruct (float_record_derivable _ _ _ _ _ _ R) as [Hd Hi].
  assert (F : aligned temp sal pres ->
              exists SA CT sigma mld max_depth,
                calculate profile_data
                = Ok [("absolute_salinity", float_list SA);
                      ("conservative_temperature", float_list CT);
                      ("potential_density", float_list sigma);
                      ("mixed_layer_depth", Scalar (SFloat mld));
                      ("max_depth", Scalar (SFloat max_depth))]).
  { intros A.
    destruct (calculate_derivable _ _ _ _ _ _ (Hd A))
      as (SA & CT & sg & mx & _ & E).
    do 5 eexists. exact E. }
  assert (B : forall d, calculate profile_data = Ok d -> d <> fallback ->
                        aligned temp sal pres).
  { intros d E Hne.
    destruct (calculate_inversion _ _ E Hne)
      as (temp' & sal' & pres' & lat' & lon' & H).
    exact (proj2 (proj2 (proj2 (Hi _ _ _ _ _ H)))). }
  split; split.
  - exact F.
  - intros (SA & CT & sg & mld & mx & E). apply (B _ E). discriminate.
  - intros N.
    destruct (ExtractorFacts.calculate_shape SA_from_SP CT_from_t sigma0
                profile_data) as [E | (SA & CT & sg & mld & mx & E)];
      [exact E|].
    exfalso. apply N. apply (B _ E). discriminate.
  - intros E A. destruct (F A) as (SA & CT & sg & mld & mx & E').
    unfold calculate in *. rewrite E in E'. discriminate.
Qed.

(** The values the calculator derives: jointly valid pressure samples. *)
Lemma calculate_values profile_data d :
  calculate profile_data = Ok d -> d <> fallback ->
  exists temp sal pres SA CT sigma mld max_depth,
    numeric_sequence profile_data "temperature" temp
    /\ numeric_sequence profile_data "salinity" sal
    /\ numeric_sequence profile_data "pressure_levels" pres
    /\ d = [("absolute_salinity", float_list SA);
            ("conservative_temperature", float_list CT);
            ("potential_density", float_list sigma);
            ("mixed_layer_depth", Scalar (SFloat mld));
            ("max_depth", Scalar (SFloat max_depth))]
    /\ In mld (kept pres (validity temp sal pres))
    /\ is_max max_depth (kept pres (validity temp sal pres)).
Proof.
  intros E Hd.
  destruct (calculate_inversion _ _ E Hd) as (temp & sal & pres & lat & lon & H).
  destruct (calculate_derivable _ _ _ _ _ _ H) as (SA & CT & sg & mx & Hmx & E').
  unfold calculate in *. rewrite E in E'. injection E' as ->.
  destruct H as (Ht & Hs & Hp & _ & _ & H1 & H2 & Hn).
  set (mask := validity temp sal pres) in *.
  assert (Hm : List.length mask = List.length temp)
    by (apply validity_length; assumption).
  assert (Lt : List.length (kept temp mask) = Np.sum mask)
    by (apply kept_length; lia).
  assert (Lp : List.length (kept pres mask) = Np.sum mask)
    by (apply kept_length; lia).
  destruct (np_max_is_max (kept pres mask)) as [mx' [Hmx' Hismax]].
  { intros K. rewrite K in Lp. simpl in Lp. lia. }
  { apply kept_pressure_valid. }
  rewrite Hmx in Hmx'. injection Hmx' as <-.
  exists temp, sal, pres, SA, CT, sg.
  exists (_calculate_mld (kept temp mask) (kept pres mask) default_threshold), mx.
  split; [exact Ht|]. split; [exact Hs|]. split; [exact Hp|].
  split; [reflexivity|]. split; [|exact Hismax].
  apply MldBounds.mld_in_pressure; fold mask; lia.
Qed.

(** The calculator returns the fallback, or five fields whose two depths
    are numbers. *)
Lemma calculate_depths profile_data :
  calculate profile_data = Ok fallback
  \/ exists SA CT sigma mld max_depth,
       calculate profile_data
       = Ok [("absolute_salinity", float_list SA);
             ("conservative_temperature", float_list CT);
             ("potential_density", float_list sigma);
             ("mixed_layer_depth", Scalar (SFloat mld));
             ("max_depth", Scalar (SFloat max_depth))]
       /\ is_nan mld = false /\ is_nan max_depth = false.
Proof.
  destruct (ExtractorFacts.calculate_shape SA_from_SP CT_from_t sigma0
              profile_data) as [E | (SA & CT & sg & mld & mx & E)];
    [left; exact E|].
  right.
  destruct (calculate_values _ _ E)
    as (temp & sal & pres & SA' & CT' & sg' & mld' & mx' & _ & _ & _ & Ed & Hin & Hmax);
    [discriminate|].
  rewrite Ed in E.
  exists SA', CT', sg', mld', mx'. split; [exact E|].
  split; [exact (kept_pressure_valid _ _ _ _ Hin)|].
  exact (kept_pressure_valid _ _ _ _ (proj1 Hmax)).
Qed.

(** X7: on a record of floats, when the calculator derives its fields the
    sequences are aligned, the mixed-layer depth and the maximum depth are
    both jointly valid pressure samples of the record, neither is NaN, the
    maximum depth is the greatest of these samples, and the mixed-layer
    depth does not exceed it. *)
Theorem mld_within_max_depth (profile_data d : dict)
  (temp sal pres : list float) (lat lon mld max_depth : float) :
  float_record profile_data temp sal pres lat lon ->
  calculate profile_data = Ok d ->
  dict_get d "mixed_layer_depth" = Ok (Scalar (SFloat mld)) ->
  dict_get d "max_depth" = Ok (Scalar (SFloat max_depth)) ->
  aligned temp sal pres
  /\ In mld (kept pres (validity temp sal pres))
  /\ is_max max_depth (kept pres (validity temp sal pres))
  /\ is_nan mld = false /\ is_nan max_depth = false
  /\ (mld <=? max_depth) = true.
Proof.
  intros R E Gm Gx.
  assert (Hd : d <> fallback).
  { intros ->. cbn in Gm. discriminate. }
  destruct (float_record_derivable _ _ _ _ _ _ R) as [_ Hi].
  destruct (calculate_inversion _ _ E Hd)
    as (temp0 & sal0 & pres0 & lat0 & lon0 & H0).
  destruct (Hi _ _ _ _ _ H0) as (_ & _ & _ & A).
  destruct (calculate_values _ _ E Hd)
    as (temp' & sal' & pres' & SA & CT & sg & mld' & mx'
        & (tv & Gt' & At) & (sv & Gs' & As) & (pv & Gp' & Ap)
        & -> & Hin & Hmax).
  destruct R as (Gt & Gs & Gp & _ & _).
  rewrite Gt in Gt'. injection Gt' as <-.
  rewrite Gs in Gs'. injection Gs' as <-.
  rewrite Gp in Gp'. injection Gp' as <-.
  rewrite array_float_list in At, As, Ap.
  injection At as <-. injection As as <-. injection Ap as <-.
  cbn in Gm, Gx. injection Gm as ->. injection Gx as ->.
  split; [exact A|].
  split; [exact Hin|]. split; [exact Hmax|].
  split; [exact (kept_pressure_valid _ _ _ _ Hin)|].
  split; [exact (kept_pressure_valid _ _ _ _ (proj1 Hmax))|].
  exact (proj2 Hmax _ Hin).
Qed.

End Inversion.

Lemma derived_fields_iff_witness :
  exists SA CT sigma mld max_depth,
    _calculate_derived_parameters Samples.sample_SA Samples.sample_CT
      Samples.sample_sigma0 Samples.scenario
    = Ok [("absolute_salinity", float_list SA);
          ("conservative_temperature", float_list CT);
          ("potential_density", float_list sigma);
          ("mixed_layer_depth", Scalar (SFloat mld));
          ("max_depth", Scalar (SFloat max_depth))].
Proof.
  refine (proj1 (proj1 (derived_fields_iff Samples.sample_SA Samples.sample_CT
                          Samples.sample_sigma0 Samples.scenario
                          [28.0; 27.9; 26.0; 20.0] [34.2; 34.3; 34.8; 35.1]
                          [2.5; 10; 20; 50] 2.5 87.3 _)) _).
  - repeat split.
  - split; [reflexivity|]. split; [reflexivity|]. vm_compute. lia.
Defined.

Lemma mld_within_max_depth_witness :
  exists d mld max_depth,
    _calculate_derived_parameters Samples.sample_SA Samples.sample_CT
      Samples.sample_sigma0 Samples.scenario = Ok d
    /\ dict_get d "mixed_layer_depth" = Ok (Scalar (SFloat mld))
    /\ dict_get d "max_depth" = Ok (Scalar (SFloat max_depth))
    /\ is_nan mld = false
    /\ (mld <=? max_depth) = true.
Proof.
  assert (E : exists d,
             _calculate_derived_parameters Samples.sample_SA Samples.sample_CT
               Samples.sample_sigma0 Samples.scenario = Ok d
             /\ dict_get d "mixed_layer_depth" = Ok (Scalar (SFloat 20))
             /\ dict_get d "max_depth" = Ok (Scalar (SFloat 50))).
  { vm_compute. eexists. split; [reflexivity|]. split; reflexivity. }
  destruct E as (d & E & Gm & Gx).
  exists d, 20, 50.
  split; [exact E|]. split; [exact Gm|]. split; [exact Gx|].
  destruct (mld_within_max_depth Samples.sample_SA Samples.sample_CT
              Samples.sample_sigma0 Samples.scenario d
              [28.0; 27.9; 26.0; 20.0] [34.2; 34.3; 34.8; 35.1]
              [2.5; 10; 20; 50] 2.5 87.3 20 50
              ltac:(repeat split) E Gm Gx)
    as (_ & _ & _ & N & _ & L).
  split; [exact N | exact L].
Defined.

End CalculatorInversion.

(* ================================================================== *)
(** * The record of a file *)

Module RecordFacts.

Import SanitizerSpec.
Local Open Scope string_scope.

Lemma nan_has_no_key x : is_nan x = true -> Prim2SF x = S754_nan.
Proof.
  intros N. destruct (FloatKey.key x) as [a|] eqn:K.
  - assert (F : is_nan x = false) by (apply FloatFacts.key_not_nan; eauto).
    congruence.
  - unfold FloatKey.key in K.
    destruct (Prim2SF x) as [[|]|[|]| |[|] m e]; try discriminate K; reflexivity.
Qed.

Lemma int_of_nan x : is_nan x = true -> int_of_float x = Raise ValueError.
Proof.
  intros N. unfold int_of_float. rewrite (nan_has_no_key x N). reflexivity.
Qed.

Section Record.

Variable SA_from_SP : float -> float -> float -> float -> float.
Variable CT_from_t : float -> float -> float -> float.
Variable sigma0 : float -> float -> float.
Variable open_dataset : string -> result Dataset.
Variable epoch_plus_days : float -> result scalar.
Variable now : scalar.

Let process_ds := process_dataset SA_from_SP CT_from_t sigma0 epoch_plus_days now.
Let process :=
  process_argo_file SA_from_SP CT_from_t sigma0 open_dataset epoch_plus_days now.

(** The dictionary literal, read back against the variables of the file. *)
Lemma extract_inversion ds d :
  extract epoch_plus_days now ds = Ok d ->
  exists platform cycle lat lats lon lons date pres press temp temps sal sals
         tq pq,
    LATITUDE ds = Some (lat :: lats)
    /\ LONGITUDE ds = Some (lon :: lons)
    /\ PRES ds = Some (pres :: press)
    /\ TEMP ds = Some (temp :: temps)
    /\ PSAL ds = Some (sal :: sals)
    /\ d = [("platform_number", Scalar (SStr platform));
            ("cycle_number", Scalar (SInt cycle));
            ("latitude", Scalar (SFloat lat));
            ("longitude", Scalar (SFloat lon));
            ("measurement_date", Scalar date);
            ("pressure_levels", float_list pres);
            ("temperature", float_list temp);
            ("salinity", float_list sal);
            ("temp_qc", str_list tq);
            ("psal_qc", str_list pq)].
Proof.
  unfold extract.
  destruct (_extract_platform_number ds) as [pl|]; [|discriminate].
  cbn [Py.bind].
  destruct (if contains (CYCLE_NUMBER ds) then _ else _) as [cy|]; [|discriminate].
  cbn [Py.bind].
  destruct (LATITUDE ds) as [[|lat lats]|]; try discriminate.
  destruct (LONGITUDE ds) as [[|lon lons]|]; try discriminate.
  cbn [getattr item0 Py.bind].
  destruct (_extract_date epoch_plus_days now ds) as [dt|]; [|discriminate].
  cbn [Py.bind].
  destruct (PRES ds) as [[|pres press]|]; try discriminate.
  destruct (TEMP ds) as [[|temp temps]|]; try discriminate.
  destruct (PSAL ds) as [[|sal sals]|]; try discriminate.
  cbn [getattr item0 Py.bind].
  destruct (if contains (TEMP_QC ds) then _ else _) as [tq|]; [|discriminate].
  cbn [Py.bind].
  destruct (if contains (PSAL_QC ds) then _ else _) as [pq|]; [|discriminate].
  cbn [Py.bind]. intros H. injection H as <-.
  exists pl, cy, lat, lats, lon, lons, dt, pres, press, temp, temps, sal, sals,
    tq, pq.
  repeat split.
Qed.

(** The record of a file: the sanitized dictionary literal, followed by what
    the calculator returned and by the region of the raw coordinates. *)
Lemma record_form ds record :
  process_ds ds = Ok record ->
  exists platform cycle lat lats lon lons date pres temp sal tq pq derived,
    LATITUDE ds = Some (lat :: lats)
    /\ LONGITUDE ds = Some (lon :: lons)
    /\ (derived = fallback
        \/ exists SA CT sigma mld max_depth,
             derived = [("absolute_salinity", float_list SA);
                        ("conservative_temperature", float_list CT);
                        ("potential_density", float_list sigma);
                        ("mixed_layer_depth", Scalar (SFloat mld));
                        ("max_depth", Scalar (SFloat max_depth))]
             /\ is_nan mld = false /\ is_nan max_depth = false)
    /\ record
       = _clean_profile_data
           ([("platform_number", Scalar (SStr platform));
             ("cycle_number", Scalar (SInt cycle));
             ("latitude", Scalar (SFloat lat));
             ("longitude", Scalar (SFloat lon));
             ("measurement_date", Scalar date);
             ("pressure_levels", float_list pres);
             ("temperature", float_list temp);
             ("salinity", float_list sal);
             ("temp_qc", str_list tq);
             ("psal_qc", str_list pq)]
            ++ derived
            ++ [("ocean_region",
                 Scalar (SStr (_determine_ocean_region lat lon)))])%list.
Proof.
  unfold process_ds, process_dataset.
  destruct (extract epoch_plus_days now ds) as [base|] eqn:E; [|discriminate].
  cbn [Py.bind].
  destruct (extract_inversion _ _ E)
    as (pl & cy & lat & lats & lon & lons & dt & pres & press & temp & temps
        & sal & sals & tq & pq & Hla & Hlo & _ & _ & _ & ->).
  unfold finish.
  destruct (CalculatorInversion.calculate_depths SA_from_SP CT_from_t sigma0
              [("platform_number", Scalar (SStr pl));
               ("cycle_number", Scalar (SInt cy));
               ("latitude", Scalar (SFloat lat));
               ("longitude", Scalar (SFloat lon));
               ("measurement_date", Scalar dt);
               ("pressure_levels", float_list pres);
               ("temperature", float_list temp);
               ("salinity", float_list sal);
               ("temp_qc", str_list tq);
               ("psal_qc", str_list pq)])
    as [C | (SA & CT & sg & mld & mx & C & Nm & Nx)];
    rewrite C; cbn -[_determine_ocean_region _clean_profile_data];
    intros H; injection H as <-;
    exists pl, cy, lat, lats, lon, lons, dt, pres, temp, sal, tq, pq;
    eexists; (split; [exact Hla|]); (split; [exact Hlo|]).
  - split; [left; reflexivity | reflexivity].
  - split; [right; exists SA, CT, sg, mld, mx; repeat split; assumption
           | reflexivity].
Qed.

(** What the two writers look up in the record of a file. *)
Lemma record_lookups ds record :
  process_ds ds = Ok record ->
  exists lat lats lon lons mld mx,
    LATITUDE ds = Some (lat :: lats)
    /\ LONGITUDE ds = Some (lon :: lons)
    /\ dict_find record "latitude" = Some (clean_value (Scalar (SFloat lat)))
    /\ dict_find record "longitude" = Some (clean_value (Scalar (SFloat lon)))
    /\ dict_find record "max_depth" = Some mx /\ Cases.stored_depth mx
    /\ dict_find record "mixed_layer_depth" = Some mld /\ Cases.stored_depth mld
    /\ dict_find record "ocean_region"
       = Some (Scalar (SStr (_determine_ocean_region lat lon)))
    /\ dict_find record "profile_id" = None
    /\ dict_find record "data_source" = None
    /\ dict_find record "metadata" = None
    /\ (forall k, In k Cases.required_keys -> exists v, dict_get record k = Ok v)
    /\ record <> [].
Proof.
  intros H.
  destruct (record_form _ _ H)
    as (pl & cy & lat & lats & lon & lons & dt & pres & temp & sal & tq & pq
        & derived & Hla & Hlo & Hd & ->).
  assert (K : forall x, is_nan x = false ->
                        clean_value (Scalar (SFloat x)) = Scalar (SFloat x)).
  { intros x N. unfold clean_value, isna. rewrite N. reflexivity. }
  destruct Hd as [-> | (SA & CT & sg & mld & mx & -> & Nm & Nx)].
  - exists lat, lats, lon, lons, (Scalar (SInt 0)), (Scalar (SInt 0)).
    split; [exact Hla|]. split; [exact Hlo|].
    split; [reflexivity|]. split; [reflexivity|].
    split; [reflexivity|]. split; [left; reflexivity|].
    split; [reflexivity|]. split; [left; reflexivity|].
    split; [reflexivity|]. split; [reflexivity|].
    split; [reflexivity|]. split; [reflexivity|].
    split; [|discriminate].
    intros k Hk. cbn in Hk.
    repeat (destruct Hk as [<- | Hk]; [eexists; reflexivity|]).
    contradiction.
  - exists lat, lats, lon, lons, (Scalar (SFloat mld)), (Scalar (SFloat mx)).
    split; [exact Hla|]. split; [exact Hlo|].
    split; [reflexivity|]. split; [reflexivity|].
    split; [transitivity (Some (clean_value (Scalar (SFloat mx))));
            [reflexivity | f_equal; exact (K mx Nx)]|].
    split; [right; eauto|].
    split; [transitivity (Some (clean_value (Scalar (SFloat mld))));
            [reflexivity | f_equal; exact (K mld Nm)]|].
    split; [right; eauto|].
    split; [reflexivity|]. split; [reflexivity|].
    split; [reflexivity|]. split; [reflexivity|].
    split; [|discriminate].
    intros k Hk. cbn in Hk.
    repeat (destruct Hk as [<- | Hk]; [eexists; reflexivity|]).
    contradiction.
Qed.

(** X8: Every record the extractor returns holds the ten extracted fields,
    [max_depth], [mixed_layer_depth] and [ocean_region]; no value in it is
    NaN; the coordinates are stored sanitized, while the region is the label
    of the raw first latitude and longitude of the file, computed before
    sanitizing. *)
Theorem record_contents (ds : Dataset) (record : dict) :
  process_ds ds = Ok record ->
  exists lat lats lon lons,
    LATITUDE ds = Some (lat :: lats)
    /\ LONGITUDE ds = Some (lon :: lons)
    /\ dict_get record "latitude" = Ok (clean_value (Scalar (SFloat lat)))
    /\ dict_get record "longitude" = Ok (clean_value (Scalar (SFloat lon)))
    /\ dict_get record "ocean_region"
       = Ok (Scalar (SStr (_determine_ocean_region lat lon)))
    /\ (forall k,
          In k (Cases.extracted_keys
                ++ ["max_depth"; "mixed_layer_depth"; "ocean_region"])%list ->
          exists v, dict_get record k = Ok v)
    /\ (forall k v, In (k, v) record -> has_nan v = false).
Proof.
  intros H.
  destruct (record_form _ _ H)
    as (pl & cy & lat & lats & lon & lons & dt & pres & temp & sal & tq & pq
        & derived & Hla & Hlo & Hd & ->).
  exists lat, lats, lon, lons.
  split; [exact Hla|]. split; [exact Hlo|].
  assert (N : forall (d : dict) k v,
             In (k, v) (_clean_profile_data d) -> has_nan v = false).
  { intros d k v Hin. unfold _clean_profile_data in Hin.
    apply in_map_iff in Hin. destruct Hin as [[k' v'] [Hkv _]].
    injection Hkv as _ <-. apply SanitizerFacts.clean_value_no_nan. }
  destruct Hd as [-> | (SA & CT & sg & mld & mx & -> & _ & _)].
  - split; [reflexivity|]. split; [reflexivity|]. split; [reflexivity|].
    split; [|apply N].
    intros k Hk. cbn in Hk.
    repeat (destruct Hk as [<- | Hk]; [eexists; reflexivity|]).
    contradiction.
  - split; [reflexivity|]. split; [reflexivity|]. split; [reflexivity|].
    split; [|apply N].
    intros k Hk. cbn in Hk.
    repeat (destruct Hk as [<- | Hk]; [eexists; reflexivity|]).
    contradiction.
Qed.

Lemma item0_first {A : Type} (l : list A) : item0 (firstn 1 l) = item0 l.
Proof. destruct l; reflexivity. Qed.

Ltac first_entry_cases v :=
  destruct v as [[|? ?]|];
  cbn [Persist.first_entry firstn getattr contains item0 Py.bind];
  try reflexivity.

(** X9: Only the first profile of a file is read: a dataset and its cut to the
    first entry of every variable give the same record, or fail alike. *)
Theorem first_profile_only (ds : Dataset) :
  process_ds (Persist.first_profile ds) = process_ds ds.
Proof.
  unfold process_ds, process_dataset. f_equal.
  destruct ds as [pn cn la lo ju pr te ps tq pq].
  unfold extract, _extract_platform_number, _extract_date, Persist.first_profile.
  cbn [PLATFORM_NUMBER CYCLE_NUMBER LATITUDE LONGITUDE JULD PRES TEMP PSAL
       TEMP_QC PSAL_QC].
  first_entry_cases pn;
    (first_entry_cases cn;
     try (match goal with
          | |- context [int_of_float ?x] =>
              destruct (int_of_float x); cbn [Py.bind]; try reflexivity
          end));
    first_entry_cases la; first_entry_cases lo;
    (first_entry_cases ju;
     try (match goal with
          | |- context [epoch_plus_days ?x] =>
              destruct (epoch_plus_days x); cbn [Py.bind]; try reflexivity
          end));
    first_entry_cases pr; first_entry_cases te; first_entry_cases ps;
    first_entry_cases tq; first_entry_cases pq.
Qed.

(** X10: A cycle number that is NaN rejects the whole file: [int] raises on it,
    so the extractor returns [None], although a file without the variable
    is accepted with cycle number 0. *)
Theorem nan_cycle_rejects_file (file_path : string) (ds : Dataset)
  (x : float) (l : list float) :
  open_dataset file_path = Ok ds ->
  CYCLE_NUMBER ds = Some (x :: l) ->
  is_nan x = true ->
  process file_path = Ok None.
Proof.
  intros Hopen Hc N. unfold process, process_argo_file, process_dataset, extract.
  rewrite Hopen. cbn [Py.bind].
  destruct (_extract_platform_number ds); [|reflexivity].
  cbn [Py.bind]. rewrite Hc. cbn [contains getattr item0 Py.bind].
  rewrite (int_of_nan x N). reflexivity.
Qed.

End Record.

Lemma record_contents_witness :
  exists record,
    process_dataset Samples.sample_SA Samples.sample_CT Samples.sample_sigma0
      Samples.sample_epoch_plus_days Samples.sample_now Samples.scenario_ds
    = Ok record
    /\ dict_get record "ocean_region"
       = Ok (Scalar (SStr (_determine_ocean_region 2.5 87.3)))
    /\ (forall k v, In (k, v) record -> has_nan v = false).
Proof.
  assert (E : exists record,
             process_dataset Samples.sample_SA Samples.sample_CT
               Samples.sample_sigma0 Samples.sample_epoch_plus_days
               Samples.sample_now Samples.scenario_ds = Ok record).
  { vm_compute. eexists. reflexivity. }
  destruct E as (record & E). exists record. split; [exact E|].
  destruct (record_contents Samples.sample_SA Samples.sample_CT
              Samples.sample_sigma0 Samples.sample_epoch_plus_days
              Samples.sample_now Samples.scenario_ds record E)
    as (lat & lats & lon & lons & Hla & Hlo & _ & _ & Hr & _ & Hn).
  injection Hla as <- _. injection Hlo as <- _.
  split; [exact Hr | exact Hn].
Defined.

Lemma nan_cycle_rejects_file_witness :
  process_argo_file Samples.sample_SA Samples.sample_CT Samples.sample_sigma0
    (fun _ => Ok Cases.nan_cycle_ds) Samples.sample_epoch_plus_days
    Samples.sample_now "profile.nc" = Ok None.
Proof.
  exact (nan_cycle_rejects_file Samples.sample_SA Samples.sample_CT
           Samples.sample_sigma0 (fun _ => Ok Cases.nan_cycle_ds)
           Samples.sample_epoch_plus_days Samples.sample_now
           "profile.nc" Cases.nan_cycle_ds nan [] eq_refl eq_refl eq_refl).
Defined.

End RecordFacts.

(* ================================================================== *)
(** * The two writers *)

Module PersistFacts.

Import Persist.
Local Open Scope string_scope.

Lemma find_get (d : dict) k v : dict_find d k = Some v -> dict_get d k = Ok v.
Proof.
  unfold dict_find. destruct (dict_get d k); intros H; [|discriminate].
  injection H as ->. reflexivity.
Qed.

Lemma find_none (d : dict) k :
  dict_find d k = None -> exists e, dict_get d k = Raise e.
Proof.
  unfold dict_find. destruct (dict_get d k) as [|e]; [discriminate|eauto].
Qed.

Lemma row_needs_key (profile_data : dict) k :
  In k Cases.required_keys -> dict_find profile_data k = None ->
  exists e, row_kwargs profile_data = Raise e.
Proof.
  intros Hk Hn. apply find_none in Hn. destruct Hn as [e Hn].
  unfold row_kwargs. cbn in Hk.
  repeat (destruct Hk as [<- | Hk];
          [repeat match goal with
             | |- context [Py.bind (dict_get profile_data ?k') _] =>
                 lazymatch k' with
                 | _ => destruct (dict_get profile_data k') eqn:?;
                        cbn [Py.bind]; try (eexists; reflexivity);
                        try discriminate
                 end
             end; try congruence |]);
    try contradiction.
Qed.

Section Rows.

Variable SA_from_SP : float -> float -> float -> float -> float.
Variable CT_from_t : float -> float -> float -> float.
Variable sigma0 : float -> float -> float.
Variable epoch_plus_days : float -> result scalar.
Variable now : scalar.

(** X11: Every record the extractor returns builds a row: none of the eight
    subscripts raises; the row takes its depths and its region from the
    record, its [data_source] is always "ARGO" and its [metadata] is always
    the empty dictionary, since the record has neither key. *)
Theorem record_builds_row (ds : Dataset) (record : dict) :
  process_dataset SA_from_SP CT_from_t sigma0 epoch_plus_days now ds = Ok record ->
  exists kwargs lat lats lon lons max_depth mixed_layer_depth,
    row_kwargs record = Ok kwargs
    /\ LATITUDE ds = Some (lat :: lats)
    /\ LONGITUDE ds = Some (lon :: lons)
    /\ In ("ocean_region",
           Val (Scalar (SStr (_determine_ocean_region lat lon)))) kwargs
    /\ In ("max_depth", Val max_depth) kwargs
    /\ Cases.stored_depth max_depth
    /\ In ("mixed_layer_depth", Val mixed_layer_depth) kwargs
    /\ Cases.stored_depth mixed_layer_depth
    /\ In ("data_source", Val (Scalar (SStr "ARGO"))) kwargs
    /\ In ("metadata", EmptyDict) kwargs.
Proof.
  intros H.
  destruct (RecordFacts.record_lookups SA_from_SP CT_from_t sigma0 epoch_plus_days now _ _ H)
    as (lat & lats & lon & lons & mld & mx & Hla & Hlo & _ & _
        & Fmx & Smx & Fmld & Smld & Freg & _ & Fsrc & Fmeta & Hreq & _).
  assert (G : forall k, In k Cases.required_keys ->
                        exists v, dict_get record k = Ok v) by exact Hreq.
  destruct (G "platform_number") as [v1 E1]; [cbn; tauto|].
  destruct (G "cycle_number") as [v2 E2]; [cbn; tauto|].
  destruct (G "latitude") as [v3 E3]; [cbn; tauto|].
  destruct (G "longitude") as [v4 E4]; [cbn; tauto|].
  destruct (G "measurement_date") as [v5 E5]; [cbn; tauto|].
  destruct (G "pressure_levels") as [v6 E6]; [cbn; tauto|].
  destruct (G "temperature") as [v7 E7]; [cbn; tauto|].
  destruct (G "salinity") as [v8 E8]; [cbn; tauto|].
  eexists. exists lat, lats, lon, lons, mx, mld.
  split.
  { unfold row_kwargs. rewrite E1, E2, E3, E4, E5, E6, E7, E8.
    cbn [Py.bind]. unfold get_default.
    rewrite Fmx, Fmld, Freg, Fsrc, Fmeta. reflexivity. }
  split; [exact Hla|]. split; [exact Hlo|].
  split; [cbn; tauto|]. split; [cbn; tauto|]. split; [exact Smx|].
  split; [cbn; tauto|]. split; [exact Smld|].
  split; cbn; tauto.
Qed.

End Rows.

Section Writers.

Variable World : Type.
Variable float_of_string : string -> result float.
Variable str_ : value -> string.
Variable generate_profile_summary : dict -> string.
Variable encode : string -> result (list float).
Variable uuid4 : World -> value.
Variable session_local : M World unit.
Variable add_commit_close : list (string * kwarg) -> M World unit.

Let to_float := py_float float_of_string.
Let meta := metadata float_of_string str_.
Let vector_body :=
  add_profile_body World float_of_string str_ generate_profile_summary encode
    uuid4.
Let sql_body := save_body World session_local add_commit_close.

Lemma metadata_needs_numbers (profile_data : dict) profile_id k v e :
  In k Cases.numeric_keys ->
  dict_find profile_data k = Some v ->
  to_float v = Raise e ->
  exists e', meta profile_id profile_data = Raise e'.
Proof.
  intros Hk Hf Hr. unfold meta, metadata, get_default. fold to_float.
  cbn in Hk.
  assert (step : forall (c : result float) (k : float -> result dict),
             (forall x, exists e', k x = Raise e') ->
             exists e', Py.bind c k = Raise e').
  { intros [x|e0] k0 H; cbn [Py.bind]; [apply H | eauto]. }
  destruct Hk as [<- | [<- | [<- | [<- | []]]]]; rewrite Hf.
  - rewrite Hr. cbn [Py.bind]. eauto.
  - apply step. intros ?. rewrite Hr. cbn [Py.bind]. eauto.
  - apply step. intros ?. apply step. intros ?.
    rewrite Hr. cbn [Py.bind]. eauto.
  - apply step. intros ?. apply step. intros ?. apply step. intros ?.
    rewrite Hr. cbn [Py.bind]. eauto.
Qed.

Variable collection_add : list float -> string -> dict -> string -> M World unit.

Let vector_add := add_profile World (vector_body collection_add).
Let sql_save := _save_to_database World sql_body.

Lemma vector_add_raises profile_data w :
  (exists e, meta (str_ (get_default profile_data "profile_id" (uuid4 w)))
               profile_data = Raise e) ->
  vector_add profile_data w = (Ok false, w).
Proof.
  intros [e He].
  unfold vector_add, add_profile, mtry, mbind, vector_body, add_profile_body,
    mbind, lift, ret.
  destruct (encode (generate_profile_summary profile_data)); [|reflexivity].
  fold meta. rewrite He. reflexivity.
Qed.

Lemma add_profile_rejects_coordinate (profile_data : dict) (k : string)
  (w : World) :
  In k Cases.numeric_keys ->
  dict_find profile_data k = Some (Scalar SNone) ->
  vector_add profile_data w = (Ok false, w).
Proof.
  intros Hk Hf. apply vector_add_raises.
  exact (metadata_needs_numbers _ _ _ _ TypeError Hk Hf eq_refl).
Qed.

(** X12: A record in which latitude, longitude, max_depth or mixed_layer_depth is
    present but is not a number ([None] after sanitizing, a list, a date) is
    never indexed: [float] raises while the metadata are built, so
    [add_profile] returns [False] and the collection is left as it was. *)
Theorem add_profile_rejects_non_number (profile_data : dict) (k : string)
  (v : value) (e : exn) (w : World) :
  In k Cases.numeric_keys ->
  dict_find profile_data k = Some v ->
  to_float v = Raise e ->
  vector_add profile_data w = (Ok false, w).
Proof.
  intros Hk Hf Hr. apply vector_add_raises.
  exact (metadata_needs_numbers _ _ _ _ _ Hk Hf Hr).
Qed.

(** X13: A record that lacks one of the eight keys [_save_to_database] reads by
    subscript is never stored: the [KeyError] is caught, the result is
    [False], and the store is as the opening of the session left it. *)
Theorem save_rejects_missing_key (profile_data : dict) (k : string) (w : World) :
  In k Cases.required_keys ->
  dict_find profile_data k = None ->
  sql_save profile_data w = (Ok false, snd (session_local w)).
Proof.
  intros Hk Hn. destruct (row_needs_key _ _ Hk Hn) as [e He].
  unfold sql_save, _save_to_database, mtry, mbind, sql_body, save_body, mbind,
    lift, ret.
  destruct (session_local w) as [[[]|e'] w']; [|reflexivity].
  rewrite He. reflexivity.
Qed.

Section Files.

Variable SA_from_SP : float -> float -> float -> float -> float.
Variable CT_from_t : float -> float -> float -> float.
Variable sigma0 : float -> float -> float.
Variable open_dataset : string -> result Dataset.
Variable epoch_plus_days : float -> result scalar.
Variable now : scalar.

Let process_ds := process_dataset SA_from_SP CT_from_t sigma0 epoch_plus_days now.

(** [self.processor.process_argo_file], which reads the file and leaves the
    stores alone *)
Let process (file_path : string) : M World (option dict) :=
  lift World
    (process_argo_file SA_from_SP CT_from_t sigma0 open_dataset epoch_plus_days
       now file_path).

Let ingest :=
  ingest_single_file World process (vector_body collection_add) sql_body.

Lemma float_of_zero : to_float (Scalar (SInt 0)) = Ok (Np.float_of_Z 0).
Proof. reflexivity. Qed.

Lemma stored_depth_converts v :
  Cases.stored_depth v -> exists x, to_float v = Ok x.
Proof.
  intros [-> | (x & -> & _)]; [exists (Np.float_of_Z 0); apply float_of_zero|].
  exists x. reflexivity.
Qed.

(** X14: What is indexed for a file whose first latitude and longitude are
    numbers, once the summary is embedded: the identifier is a fresh random
    one (the record never carries a [profile_id]), and the metadata hold the
    file's coordinates and the region label. *)
Theorem indexed_entry (ds : Dataset) (record : dict) (lat lon : float)
  (lats lons embedding : list float) (w : World) :
  process_ds ds = Ok record ->
  LATITUDE ds = Some (lat :: lats) ->
  LONGITUDE ds = Some (lon :: lons) ->
  is_nan lat = false -> is_nan lon = false ->
  encode (generate_profile_summary record) = Ok embedding ->
  exists meta_data,
    vector_body collection_add record w
    = collection_add embedding (generate_profile_summary record) meta_data
        (str_ (uuid4 w)) w
    /\ dict_get meta_data "profile_id" = Ok (Scalar (SStr (str_ (uuid4 w))))
    /\ dict_get meta_data "latitude" = Ok (Scalar (SFloat lat))
    /\ dict_get meta_data "longitude" = Ok (Scalar (SFloat lon))
    /\ dict_get meta_data "ocean_region"
       = Ok (Scalar (SStr (str_ (Scalar
                                  (SStr (_determine_ocean_region lat lon)))))).
Proof.
  intros H Hla Hlo Nla Nlo He.
  destruct (RecordFacts.record_lookups _ _ _ _ _ _ _ H)
    as (lat' & lats' & lon' & lons' & mld & mx & Hla' & Hlo' & Fla & Flo
        & Fmx & Smx & Fmld & Smld & Freg & Fid & _).
  rewrite Hla in Hla'. injection Hla' as <- <-.
  rewrite Hlo in Hlo'. injection Hlo' as <- <-.
  destruct (stored_depth_converts _ Smx) as [xmx Cmx].
  destruct (stored_depth_converts _ Smld) as [xmld Cmld].
  unfold vector_body, add_profile_body, mbind, lift. rewrite He.
  unfold metadata, get_default. rewrite Fid, Fla, Flo, Fmx, Fmld, Freg.
  unfold clean_value, isna. rewrite Nla, Nlo.
  fold to_float. rewrite Cmx, Cmld.
  cbn [Py.bind py_float to_float]. eexists. split; [reflexivity|].
  repeat split.
Qed.

(** X15: A file whose first latitude or longitude is NaN is never ingested: the
    coordinate is stored as [None], [float(None)] raises while the metadata
    are built, so the file counts as failed and the vector collection is not
    written; the world changes at most by the attempt to store the row. *)
Theorem nan_coordinate_never_ingested (file_path : string) (ds : Dataset)
  (lat lon : float) (lats lons : list float) (w : World) :
  open_dataset file_path = Ok ds ->
  LATITUDE ds = Some (lat :: lats) ->
  LONGITUDE ds = Some (lon :: lons) ->
  is_nan lat = true \/ is_nan lon = true ->
  exists w',
    ingest file_path w = (Ok false, w')
    /\ (w' = w
        \/ exists record,
             process_ds ds = Ok record /\ w' = snd (sql_save record w)).
Proof.
  intros Hopen Hla Hlo N.
  unfold ingest, ingest_single_file, mtry, mbind, process, lift,
    process_argo_file, try_except.
  rewrite Hopen. cbn [Py.bind].
  fold process_ds.
  destruct (process_ds ds) as [record|e] eqn:H; cbn [Py.bind].
  2: { exists w. split; [reflexivity | left; reflexivity]. }
  destruct (RecordFacts.record_lookups _ _ _ _ _ _ _ H)
    as (lat' & lats' & lon' & lons' & mld & mx & Hla' & Hlo' & Fla & Flo
        & _ & _ & _ & _ & _ & _ & _ & _ & _ & Hne).
  rewrite Hla in Hla'. injection Hla' as <- <-.
  rewrite Hlo in Hlo'. injection Hlo' as <- <-.
  assert (V : vector_add record w = (Ok false, w)).
  { destruct N as [N | N].
    - apply (add_profile_rejects_coordinate record "latitude").
      + cbn. tauto.
      + rewrite Fla. unfold clean_value, isna. rewrite N. reflexivity.
    - apply (add_profile_rejects_coordinate record "longitude").
      + cbn. tauto.
      + rewrite Flo. unfold clean_value, isna. rewrite N. reflexivity. }
  destruct record as [|kv d]; [contradiction Hne; reflexivity|].
  fold vector_add. rewrite V.
  fold sql_save.
  destruct (IngestionFacts.save_cases World sql_body (kv :: d) w)
    as [(w' & _ & S) | (e & w' & _ & S)]; fold sql_save in S; rewrite S;
    exists w'; (split; [reflexivity|]); right; exists (kv :: d);
    (split; [reflexivity|]); rewrite S; reflexivity.
Qed.

End Files.

End Writers.

Lemma add_profile_rejects_non_number_witness :
  add_profile Cases.world
    (add_profile_body Cases.world Cases.sample_float_of_string Cases.sample_str
       Cases.sample_summary Cases.sample_encode Cases.sample_uuid4
       Cases.sample_collection_add)
    (_clean_profile_data Samples.dirty) Cases.empty_world
  = (Ok false, Cases.empty_world).
Proof.
  exact (add_profile_rejects_non_number Cases.world Cases.sample_float_of_string
           Cases.sample_str Cases.sample_summary Cases.sample_encode
           Cases.sample_uuid4 Cases.sample_collection_add
           (_clean_profile_data Samples.dirty) "latitude" (Scalar SNone)
           TypeError Cases.empty_world
           ltac:(left; reflexivity) eq_refl eq_refl).
Defined.

Lemma save_rejects_missing_key_witness :
  _save_to_database Cases.world
    (save_body Cases.world Cases.sample_session_local
       Cases.sample_add_commit_close)
    Samples.dirty Cases.empty_world
  = (Ok false, Cases.empty_world).
Proof.
  exact (save_rejects_missing_key Cases.world Cases.sample_session_local
           Cases.sample_add_commit_close Samples.dirty "cycle_number"
           Cases.empty_world ltac:(right; left; reflexivity) eq_refl).
Defined.

Lemma indexed_entry_witness :
  exists record meta_data,
    process_dataset Samples.sample_SA Samples.sample_CT Samples.sample_sigma0
      Samples.sample_epoch_plus_days Samples.sample_now Samples.scenario_ds
    = Ok record
    /\ add_profile_body Cases.world Cases.sample_float_of_string
         Cases.sample_str Cases.sample_summary Cases.sample_encode
         Cases.sample_uuid4 Cases.sample_collection_add record Cases.empty_world
       = Cases.sample_collection_add [0%float] "ARGO Float" meta_data
           "0f8fad5b-d9cb-469f-a165-70867728950e" Cases.empty_world
    /\ dict_get meta_data "latitude" = Ok (Scalar (SFloat 2.5))
    /\ dict_get meta_data "ocean_region" = Ok (Scalar (SStr "Indian Ocean")).
Proof.
  assert (E : exists record,
             process_dataset Samples.sample_SA Samples.sample_CT
               Samples.sample_sigma0 Samples.sample_epoch_plus_days
               Samples.sample_now Samples.scenario_ds = Ok record).
  { vm_compute. eexists. reflexivity. }
  destruct E as (record & E).
  destruct (indexed_entry Cases.world Cases.sample_float_of_string
              Cases.sample_str Cases.sample_summary Cases.sample_encode
              Cases.sample_uuid4 Cases.sample_collection_add
              Samples.sample_SA Samples.sample_CT Samples.sample_sigma0
              Samples.sample_epoch_plus_days Samples.sample_now
              Samples.scenario_ds record 2.5%float 87.3%float [] [] [0%float]
              Cases.empty_world E eq_refl eq_refl eq_refl eq_refl eq_refl)
    as (m & Hb & _ & Hla & _ & Hr).
  exists record, m. split; [exact E|]. split; [exact Hb|].
  split; [exact Hla | exact Hr].
Defined.

Lemma nan_coordinate_never_ingested_witness :
  exists w',
    ingest_single_file Cases.world
      (fun file_path =>
         Persist.lift Cases.world
           (process_argo_file Samples.sample_SA Samples.sample_CT
              Samples.sample_sigma0 (fun _ => Ok Cases.nan_latitude_ds)
              Samples.sample_epoch_plus_days Samples.sample_now file_path))
      (add_profile_body Cases.world Cases.sample_float_of_string
         Cases.sample_str Cases.sample_summary Cases.sample_encode
         Cases.sample_uuid4 Cases.sample_collection_add)
      (save_body Cases.world Cases.sample_session_local
         Cases.sample_add_commit_close)
      "profile.nc" Cases.empty_world
    = (Ok false, w').
Proof.
  destruct (nan_coordinate_never_ingested Cases.world
              Cases.sample_float_of_string Cases.sample_str Cases.sample_summary
              Cases.sample_encode Cases.sample_uuid4
              Cases.sample_session_local Cases.sample_add_commit_close
              Cases.sample_collection_add
              Samples.sample_SA Samples.sample_CT Samples.sample_sigma0
              (fun _ => Ok Cases.nan_latitude_ds)
              Samples.sample_epoch_plus_days Samples.sample_now
              "profile.nc" Cases.nan_latitude_ds nan 87.3%float [] []
              Cases.empty_world eq_refl eq_refl eq_refl (or_introl eq_refl))
    as (w' & H & _).
  exists w'. exact H.
Defined.

Lemma record_builds_row_witness :
  exists record kwargs,
    process_dataset Samples.sample_SA Samples.sample_CT Samples.sample_sigma0
      Samples.sample_epoch_plus_days Samples.sample_now Samples.scenario_ds
    = Ok record
    /\ row_kwargs record = Ok kwargs
    /\ In ("data_source", Val (Scalar (SStr "ARGO"))) kwargs
    /\ In ("metadata", EmptyDict) kwargs.
Proof.
  assert (E : exists record,
             process_dataset Samples.sample_SA Samples.sample_CT
               Samples.sample_sigma0 Samples.sample_epoch_plus_days
               Samples.sample_now Samples.scenario_ds = Ok record).
  { vm_compute. eexists. reflexivity. }
  destruct E as (record & E).
  destruct (record_builds_row Samples.sample_SA Samples.sample_CT
              Samples.sample_sigma0 Samples.sample_epoch_plus_days
              Samples.sample_now Samples.scenario_ds record E)
    as (kw & lat & lats & lon & lons & mx & mld & Hk & _ & _ & _ & _ & _ & _ & _
        & Hs & Hm).
  exists record, kw. split; [exact E|]. split; [exact Hk|].
  split; [exact Hs | exact Hm].
Defined.

End PersistFacts.

(* ================================================================== *)
(** * What a file leaves in the stores *)

Module IngestionEffects.

Section Steps.

Variable World : Type.
Variable process : string -> M World (option dict).
Variable collection_add : dict -> M World unit.
Variable session_add_commit : dict -> M World unit.

(** X16: Once a record is extracted, both writes are attempted, the vector
    collection first and the relational store second, each on the world the
    step before it left; the file succeeds only if both do, and nothing is
    undone when one of them fails: the final world is the one the second
    write leaves. *)
Theorem both_writes_attempted (file_path : string) (p : dict)
  (w w1 w2 w3 : World) (vector sql : result unit) :
  process file_path w = (Ok (Some p), w1) ->
  p <> [] ->
  collection_add p w1 = (vector, w2) ->
  session_add_commit p w2 = (sql, w3) ->
  ingest_single_file World process collection_add session_add_commit
    file_path w
  = (Ok match vector, sql with
        | Ok _, Ok _ => true
        | _, _ => false
        end, w3).
Proof.
  intros Hp Hne Hv Hs.
  destruct p as [|kv d]; [contradiction Hne; reflexivity|].
  unfold ingest_single_file, mtry, mbind, add_profile, _save_to_database,
    mtry, mbind, ret.
  rewrite Hp, Hv. destruct vector as [[]|e]; rewrite Hs;
    destruct sql as [[]|e']; reflexivity.
Qed.

End Steps.

Lemma both_writes_attempted_witness :
  ingest_single_file nat
    (fun _ w => (Ok (Some Samples.dirty), w))
    (fun _ w => (Raise ValueError, w))
    (fun _ w => (Ok tt, S w))
    "profile.nc"%string 0%nat
  = (Ok false, 1%nat).
Proof.
  exact (both_writes_attempted nat
           (fun _ w => (Ok (Some Samples.dirty), w))
           (fun _ w => (Raise ValueError, w))
           (fun _ w => (Ok tt, S w))
           "profile.nc"%string Samples.dirty 0%nat 0%nat 0%nat 1%nat
           (Raise ValueError) (Ok tt)
           eq_refl ltac:(discriminate) eq_refl eq_refl).
Defined.

Section Rejected.

Variable World : Type.
Variable SA_from_SP : float -> float -> float -> float -> float.
Variable CT_from_t : float -> float -> float -> float.
Variable sigma0 : float -> float -> float.
Variable open_dataset : string -> result Dataset.
Variable epoch_plus_days : float -> result scalar.
Variable now : scalar.
Variable collection_add : dict -> M World unit.
Variable session_add_commit : dict -> M World unit.

(** [self.processor.process_argo_file], which reads the file and leaves the
    stores alone *)
Let process (file_path : string) : M World (option dict) :=
  Persist.lift World
    (process_argo_file SA_from_SP CT_from_t sigma0 open_dataset epoch_plus_days
       now file_path).

(** X17: a file that cannot be opened, or that opens but in which something
    the extractor reads cannot be read, is rejected before any write: the
    result is [False] and both stores are exactly as they were. *)
Theorem unreadable_file_leaves_stores (file_path : string) (w : World) :
  (exists e, open_dataset file_path = Raise e)
  \/ (exists ds, open_dataset file_path = Ok ds
                 /\ ExtractorSpec.readable epoch_plus_days ds = false) ->
  ingest_single_file World process collection_add session_add_commit
    file_path w
  = (Ok false, w).
Proof.
  intros H.
  assert (N : process_argo_file SA_from_SP CT_from_t sigma0 open_dataset
                epoch_plus_days now file_path = Ok None).
  { unfold process_argo_file, try_except.
    destruct H as [[e He] | (ds & Hopen & Hr)].
    - rewrite He. reflexivity.
    - rewrite Hopen. cbn [Py.bind]. unfold process_dataset.
      destruct (ExtractorFacts.extract_cases epoch_plus_days now ds)
        as (_ & Hbad & _).
      destruct (Hbad Hr) as [e He]. rewrite He. reflexivity. }
  unfold ingest_single_file, mtry, mbind, process, Persist.lift.
  rewrite N. reflexivity.
Qed.

End Rejected.

Lemma unreadable_file_leaves_stores_witness :
  ingest_single_file nat
    (fun file_path =>
       Persist.lift nat
         (process_argo_file Samples.sample_SA Samples.sample_CT
            Samples.sample_sigma0 (fun _ => Ok Samples.no_profile_ds)
            Samples.sample_epoch_plus_days Samples.sample_now file_path))
    (fun _ w => (Ok tt, S w))
    (fun _ w => (Ok tt, S w))
    "profile.nc"%string 0%nat
  = (Ok false, 0%nat).
Proof.
  exact (unreadable_file_leaves_stores nat Samples.sample_SA Samples.sample_CT
           Samples.sample_sigma0 (fun _ => Ok Samples.no_profile_ds)
           Samples.sample_epoch_plus_days Samples.sample_now
           (fun _ w => (Ok tt, S w)) (fun _ w => (Ok tt, S w))
           "profile.nc"%string 0%nat
           (or_intror (ex_intro _ Samples.no_profile_ds
                         (conj eq_refl eq_refl)))).
Defined.

End IngestionEffects.

(* ================================================================== *)
(** * Ingestion statistics *)

Module StatsFacts.

Import Persist.
Local Open Scope string_scope.

(** X18: [get_ingestion_stats] reports no profiles whatever the stores hold: the
    lookup of [func] on the session raises before the regional query is
    built, and the handler returns the two zero counts, without the regional
    distribution and the embedding model. *)
Theorem ingestion_stats_always_zero (collection_count : result Z)
  (regional_stats : Store.table -> list (value * Z)) (rows : Store.table) :
  get_ingestion_stats collection_count regional_stats rows
  = [("total_profiles", Stat (Scalar (SInt 0)));
     ("vector_db_profiles", Stat (Scalar (SInt 0)))].
Proof.
  unfold get_ingestion_stats.
  assert (H : Store.session_getattr "func" = Raise AttributeError)
    by reflexivity.
  rewrite H. reflexivity.
Qed.

End StatsFacts.
